(** * nvidia_allocator: a shallow embedding of the Proxmox vGPU hook script

    The development follows [src/nvidia_allocator.py].  Python text is
    modelled as [string], one [ascii] per code point (code points below 256);
    dictionaries, which Python keeps in insertion order, are association
    lists; sets are [gset string]; the host file system, standard output and
    the module-level caches are threaded through a state-and-exception
    monad. *)

From Stdlib Require Import ZArith Ascii String List Bool Lia Sorted.
From stdpp Require Import base gmap strings list.
Import ListNotations.

Local Open Scope string_scope.
Local Open Scope list_scope.

(** ** Text primitives of the Python runtime used by the script *)
Module Py.

(** [str.startswith] and [str.endswith]. *)
Definition startswith (p s : string) : bool := String.prefix p s.

Definition endswith (p s : string) : bool :=
  (String.length p <=? String.length s)%nat
  && String.eqb (String.substring (String.length s - String.length p)
                                  (String.length p) s) p.

(** [x in s] for two strings: some suffix of [s] starts with [x]. *)
Fixpoint contains (x s : string) : bool :=
  String.prefix x s
  || match s with
     | EmptyString => false
     | String _ s' => contains x s'
     end.

(** Line boundaries recognised by [str.splitlines]. *)
Definition is_linebreak (c : ascii) : bool :=
  match N_of_ascii c with
  | 10 | 11 | 12 | 13 | 28 | 29 | 30 | 133 => true
  | _ => false
  end%N.

(** Characters for which [str.isspace] holds. *)
Definition is_space (c : ascii) : bool :=
  match N_of_ascii c with
  | 9 | 10 | 11 | 12 | 13 | 28 | 29 | 30 | 31 | 32 | 133 | 160 => true
  | _ => false
  end%N.

(** The decimal digits matched by [\d]. *)
Definition is_digit (c : ascii) : bool :=
  (48 <=? N_of_ascii c)%N && (N_of_ascii c <=? 57)%N.

(** The class [[0-9a-fA-F:.]]. *)
Definition is_busid_char (c : ascii) : bool :=
  let n := N_of_ascii c in
  ((48 <=? n) && (n <=? 57) || (97 <=? n) && (n <=? 102)
   || (65 <=? n) && (n <=? 70) || (n =? 58) || (n =? 46))%N.

(** [str.splitlines()]: no trailing empty line, CR LF is one boundary. *)
Fixpoint splitlines (s : string) : list string :=
  match s with
  | EmptyString => []
  | String c s' =>
      if is_linebreak c then
        match c, s' with
        | "013"%char, String "010"%char s'' => EmptyString :: splitlines s''
        | _, _ => EmptyString :: splitlines s'
        end
      else
        match splitlines s' with
        | [] => [String c EmptyString]
        | l :: ls => String c l :: ls
        end
  end.

(** [s.split(sep)] for a non-empty separator: leftmost, non-overlapping
    occurrences.  [skip] counts the characters of a separator already matched
    that are still to be consumed. *)
Fixpoint split_go (sep : string) (skip : nat) (s : string) : list string :=
  match s with
  | EmptyString => [EmptyString]
  | String c s' =>
      match skip with
      | S k => split_go sep k s'
      | O =>
          if String.prefix sep s then
            EmptyString :: split_go sep (String.length sep - 1) s'
          else
            match split_go sep 0 s' with
            | [] => [String c EmptyString]
            | l :: ls => String c l :: ls
            end
      end
  end.

Definition split (sep s : string) : list string := split_go sep 0 s.

(** [sep.join(parts)]. *)
Definition join (sep : string) (parts : list string) : string :=
  String.concat sep parts.

(** [str.strip()]. *)
Fixpoint lstrip (s : string) : string :=
  match s with
  | EmptyString => EmptyString
  | String c s' => if is_space c then lstrip s' else s
  end.

Fixpoint rstrip (s : string) : string :=
  match s with
  | EmptyString => EmptyString
  | String c s' =>
      let r := rstrip s' in
      if is_space c && String.eqb r EmptyString then EmptyString
      else String c r
  end.

Definition strip (s : string) : string := rstrip (lstrip s).

(** Longest prefix of [s] whose characters satisfy [p]. *)
Fixpoint span_while (p : ascii -> bool) (s : string) : string :=
  match s with
  | EmptyString => EmptyString
  | String c s' => if p c then String c (span_while p s') else EmptyString
  end.

(** All characters of [s] satisfy [p]. *)
Fixpoint all_chars (p : ascii -> bool) (s : string) : bool :=
  match s with
  | EmptyString => true
  | String c s' => p c && all_chars p s'
  end.

Fixpoint drop (n : nat) (s : string) : string :=
  match n, s with
  | O, _ => s
  | S n', String _ s' => drop n' s'
  | S _, EmptyString => EmptyString
  end.

(** [re.findall] for a pattern with one group: [m s] tries the pattern at the
    head of [s] and yields the group and the (positive) length matched; the
    scan resumes right after each match. *)
Fixpoint findall_go (m : string -> option (string * nat)) (skip : nat)
    (s : string) : list string :=
  match s with
  | EmptyString => []
  | String _ s' =>
      match skip with
      | S k => findall_go m k s'
      | O =>
          match m s with
          | Some (g, len) => g :: findall_go m (len - 1) s'
          | None => findall_go m 0 s'
          end
      end
  end.

Definition findall (m : string -> option (string * nat)) (s : string)
  : list string := findall_go m 0 s.

(** A literal followed by [(class+)], greedy; [keep] is the part of the
    literal that lies inside the group. *)
Definition match_lit_class (lit keep : string) (cls : ascii -> bool)
    (s : string) : option (string * nat) :=
  if String.prefix lit s then
    let run := span_while cls (drop (String.length lit) s) in
    match run with
    | EmptyString => None
    | _ => Some (keep +:+ run, String.length lit + String.length run)%nat
    end
  else None.

(** [sorted] on strings: ascending by code points. *)
Fixpoint insert_sorted (x : string) (l : list string) : list string :=
  match l with
  | [] => [x]
  | y :: l' => if String.leb x y then x :: l else y :: insert_sorted x l'
  end.

Definition sorted (l : list string) : list string :=
  fold_right insert_sorted [] l.

(** [x in l] for a list of strings. *)
Definition mem (x : string) (l : list string) : bool :=
  existsb (String.eqb x) l.

(** Truthiness of a string. *)
Definition truthy (s : string) : bool := negb (String.eqb s EmptyString).

End Py.

(** ** Dictionaries in insertion order *)

Definition dict (V : Type) : Type := list (string * V).

Fixpoint dict_get {V} (k : string) (d : dict V) : option V :=
  match d with
  | [] => None
  | (k', v) :: d' => if String.eqb k k' then Some v else dict_get k d'
  end.

(** [d[k] = v]: an existing key keeps its position, a new key goes last. *)
Fixpoint dict_set {V} (k : string) (v : V) (d : dict V) : dict V :=
  match d with
  | [] => [(k, v)]
  | (k', v') :: d' =>
      if String.eqb k k' then (k, v) :: d' else (k', v') :: dict_set k v d'
  end.

Definition dict_keys {V} (d : dict V) : list string := map fst d.

(** A VM descriptor as [parse_vm_config] returns it. *)
Definition config : Type := dict string.

(** An entry of [VMS]: [(vmid, node, config)]. *)
Definition vm : Type := string * string * config.

(** ** The world the script runs in *)

(** The exceptions the script can meet; [OSError] stands for the errors of
    the operating system other than the two named before it. *)
Inductive exn : Set :=
| FileNotFoundError
| PermissionError
| OSError
| ValueError
| KeyError
| TypeError
| AttributeError
| ZeroDivisionError.

(** What an invocation does to its surroundings, oldest first. *)
Inductive event : Set :=
| EvWrite (path data : string)
| EvPrint (line : string).

(** The host file system as the script observes it.  [fs_read p] is what
    [open(p).read()] returns, [fs_write p d] tells whether
    [with open(p, 'w') as f: f.write(d)] fails, and with which exception. *)
Record filesystem : Type := {
  fs_listdir : string -> exn + list string;
  fs_isdir : string -> bool;
  fs_exists : string -> bool;
  fs_read : string -> exn + string;
  fs_write : string -> string -> option exn;
}.

(** A completed write replaces the content of the file. *)
Definition fs_store (p d : string) (f : filesystem) : filesystem :=
  {| fs_listdir := fs_listdir f;
     fs_isdir := fs_isdir f;
     fs_exists := fun q => String.eqb q p || fs_exists f q;
     fs_read := fun q => if String.eqb q p then inr d else fs_read f q;
     fs_write := fs_write f |}.

(** The file system, the trace of effects, and the module-level caches
    [VMS], [AVAILABLE_GPUS], [ASSIGNED_GPUS] and [GPU_TYPES]. *)
Record state : Type := {
  fs : filesystem;
  trace : list event;
  VMS : list vm;
  AVAILABLE_GPUS : dict (list string);
  ASSIGNED_GPUS : dict string;
  GPU_TYPES : gset string;
}.

Definition set_fs (f : filesystem) (st : state) : state :=
  {| fs := f; trace := trace st; VMS := VMS st;
     AVAILABLE_GPUS := AVAILABLE_GPUS st; ASSIGNED_GPUS := ASSIGNED_GPUS st;
     GPU_TYPES := GPU_TYPES st |}.

Definition set_trace (t : list event) (st : state) : state :=
  {| fs := fs st; trace := t; VMS := VMS st;
     AVAILABLE_GPUS := AVAILABLE_GPUS st; ASSIGNED_GPUS := ASSIGNED_GPUS st;
     GPU_TYPES := GPU_TYPES st |}.

Definition set_VMS (v : list vm) (st : state) : state :=
  {| fs := fs st; trace := trace st; VMS := v;
     AVAILABLE_GPUS := AVAILABLE_GPUS st; ASSIGNED_GPUS := ASSIGNED_GPUS st;
     GPU_TYPES := GPU_TYPES st |}.

Definition set_AVAILABLE_GPUS (a : dict (list string)) (st : state) : state :=
  {| fs := fs st; trace := trace st; VMS := VMS st;
     AVAILABLE_GPUS := a; ASSIGNED_GPUS := ASSIGNED_GPUS st;
     GPU_TYPES := GPU_TYPES st |}.

Definition set_ASSIGNED_GPUS (a : dict string) (st : state) : state :=
  {| fs := fs st; trace := trace st; VMS := VMS st;
     AVAILABLE_GPUS := AVAILABLE_GPUS st; ASSIGNED_GPUS := a;
     GPU_TYPES := GPU_TYPES st |}.

Definition set_GPU_TYPES (g : gset string) (st : state) : state :=
  {| fs := fs st; trace := trace st; VMS := VMS st;
     AVAILABLE_GPUS := AVAILABLE_GPUS st; ASSIGNED_GPUS := ASSIGNED_GPUS st;
     GPU_TYPES := g |}.

(** A fresh process on a given file system. *)
Definition boot (f : filesystem) : state :=
  {| fs := f; trace := []; VMS := []; AVAILABLE_GPUS := [];
     ASSIGNED_GPUS := []; GPU_TYPES := ∅ |}.

(** ** The monad: state, [sys.exit] and exceptions *)

Inductive outcome (A : Type) : Type :=
| Ret (a : A)
| Exit (code : Z)
| Raise (e : exn).
Arguments Ret {A} a.
Arguments Exit {A} code.
Arguments Raise {A} e.

Definition M (A : Type) : Type := state -> outcome A * state.

Definition ret {A} (a : A) : M A := fun st => (Ret a, st).

Definition bind {A B} (m : M A) (k : A -> M B) : M B :=
  fun st =>
    match m st with
    | (Ret a, st') => k a st'
    | (Exit c, st') => (Exit c, st')
    | (Raise e, st') => (Raise e, st')
    end.

Declare Scope prog_scope.
Delimit Scope prog_scope with prog.
Notation "x ← y ; z" := (bind y (fun x => z))
  (at level 20, y at level 100, z at level 200, only parsing) : prog_scope.
Notation "' x ← y ; z" := (bind y (fun x => z))
  (at level 20, x pattern, y at level 100, z at level 200, only parsing)
  : prog_scope.
Notation "x ;; z" := (bind x (fun _ => z))
  (at level 100, z at level 200, only parsing, right associativity)
  : prog_scope.
Local Open Scope prog_scope.

Definition raise {A} (e : exn) : M A := fun st => (Raise e, st).
Definition sys_exit {A} (code : Z) : M A := fun st => (Exit code, st).
Definition get_state : M state := fun st => (Ret st, st).
Definition modify (f : state -> state) : M unit := fun st => (Ret tt, f st).

(** A value or an exception, for the steps that touch no state. *)
Definition lift {A} (r : exn + A) : M A :=
  match r with
  | inl e => raise e
  | inr a => ret a
  end.

(** [try: m except (e1, e2, ...): h], the handler chosen by [handles]. *)
Definition try_except {A} (m : M A) (handles : exn -> bool) (h : M A) : M A :=
  fun st =>
    match m st with
    | (Raise e, st') => if handles e then h st' else (Raise e, st')
    | r => r
    end.

(** [for x in l: body x]. *)
Fixpoint for_ {A} (l : list A) (body : A -> M unit) : M unit :=
  match l with
  | [] => ret tt
  | x :: l' => bind (body x) (fun _ => for_ l' body)
  end.

(** The status the process ends with: the code given to [sys.exit], 0 when
    the script runs to its end, 1 after an uncaught exception. *)
Definition exit_status {A} (o : outcome A) : Z :=
  match o with
  | Ret _ => 0
  | Exit c => c
  | Raise _ => 1
  end%Z.

(** *** Effects *)

Definition print (line : string) : M unit :=
  modify (fun st => set_trace (trace st ++ [EvPrint line]) st).

Definition os_listdir (p : string) : M (list string) :=
  fun st => lift (fs_listdir (fs st) p) st.

Definition os_path_isdir (p : string) : M bool :=
  fun st => (Ret (fs_isdir (fs st) p), st).

Definition os_path_exists (p : string) : M bool :=
  fun st => (Ret (fs_exists (fs st) p), st).

Definition read_file (p : string) : M string :=
  fun st => lift (fs_read (fs st) p) st.

Definition write_file (p d : string) : M unit :=
  fun st =>
    match fs_write (fs st) p d with
    | Some e => (Raise e, st)
    | None =>
        (Ret tt, set_trace (trace st ++ [EvWrite p d])
                   (set_fs (fs_store p d (fs st)) st))
    end.

(** The writes of a trace. *)
Definition writes (t : list event) : list (string * string) :=
  omap (fun e => match e with
                 | EvWrite p d => Some (p, d)
                 | EvPrint _ => None
                 end) t.

(** ** The script *)

Definition nl : string := String "010"%char EmptyString.
Definition dquote : string := String "034"%char EmptyString.

(** [d[k]], raising [KeyError] on a missing key. *)
Definition getitem {V} (k : string) (d : dict V) : exn + V :=
  match dict_get k d with
  | Some v => inr v
  | None => inl KeyError
  end.

(** [a, b = items]: exactly two items, or [ValueError]. *)
Definition unpack2 {A} (items : list A) : exn + (A * A) :=
  match items with
  | [a; b] => inr (a, b)
  | _ => inl ValueError
  end.

(** The characters of a string, as iterating over it yields them. *)
Fixpoint chars (s : string) : list string :=
  match s with
  | EmptyString => []
  | String c s' => String c EmptyString :: chars s'
  end.

(** [str(x)] for an optional string. *)
Definition str_of (x : option string) : string :=
  match x with
  | Some s => s
  | None => "None"
  end.

(** *** [parse_vm_config] *)

Definition skipped_line (line : string) : bool :=
  negb (Py.truthy line) || Py.startswith "#" line || Py.startswith "[" line.

(** The loop of lines 116-120 over the lines of the file. *)
Fixpoint parse_lines (lines : list string) (config_dict : config)
  : exn + config :=
  match lines with
  | [] => inr config_dict
  | line :: rest =>
      if skipped_line line then parse_lines rest config_dict
      else
        match unpack2 (Py.split ": " line) with
        | inr (key, value) =>
            parse_lines rest (dict_set key value config_dict)
        | inl e => inl e
        end
  end.

Definition parse_text (text : string) : exn + config :=
  parse_lines (Py.splitlines text) [].

Definition config_path (node vmid : string) : string :=
  "/etc/pve/nodes/" +:+ node +:+ "/qemu-server/" +:+ vmid +:+ ".conf".

(** Lines 102-105: the file to read, on the given node when there is one. *)
Definition descriptor_path (vmid : string) (from_node : option string)
  : string :=
  match from_node with
  | Some node =>
      if Py.truthy node then config_path node vmid
      else "/etc/pve/qemu-server/" +:+ vmid +:+ ".conf"
  | None => "/etc/pve/qemu-server/" +:+ vmid +:+ ".conf"
  end.

Definition parse_vm_config (vmid : string) (from_node : option string)
  : M config :=
  let config_file := descriptor_path vmid from_node in
  text ← try_except (read_file config_file)
           (fun e => match e with FileNotFoundError => true | _ => false end)
           (print ("VM " +:+ vmid +:+ " not found");; sys_exit 1);
  lift (parse_text text).

(** *** [parse_line_config] *)

Fixpoint parse_pairs (parts : list string) (line_dict : dict string)
  : exn + dict string :=
  match parts with
  | [] => inr line_dict
  | line :: rest =>
      match unpack2 (Py.split "=" line) with
      | inr (key, value) => parse_pairs rest (dict_set key value line_dict)
      | inl e => inl e
      end
  end.

Definition parse_line_config (config_line item : string)
  : exn + option string :=
  match parse_pairs (Py.split "," config_line) [] with
  | inr line_dict => inr (dict_get item line_dict)
  | inl e => inl e
  end.

(** *** [parse_vgpu_type_id] and [parse_vgpu_bus_id] *)

Definition parse_vgpu_type_id (cfg : config) : exn + list string :=
  match getitem "tags" cfg with
  | inr tags =>
      inr (Py.sorted (Py.findall (Py.match_lit_class "nvidia-" "" Py.is_digit)
                                 tags))
  | inl e => inl e
  end.

Definition parse_vgpu_bus_id (cfg : config) : exn + list string :=
  match getitem "args" cfg with
  | inr args =>
      inr (Py.findall
             (Py.match_lit_class
                "-device vfio-pci,sysfsdev=/sys/bus/pci/devices/"
                "/sys/bus/pci/devices/" Py.is_busid_char) args)
  | inl e => inl e
  end.

(** *** [get_vms] *)

Definition vm_le (a b : vm) : bool :=
  match String.compare a.1.1 b.1.1 with
  | Lt => true
  | Gt => false
  | Eq => String.leb a.1.2 b.1.2
  end.

Fixpoint insert_vm (x : vm) (l : list vm) : list vm :=
  match l with
  | [] => [x]
  | y :: l' => if vm_le y x then y :: insert_vm x l' else x :: l
  end.

(** [VMS.sort()]: stable, by vmid and then node.  Two entries with the same
    vmid and node were parsed from the same file, so the dictionaries are
    never compared. *)
Definition sort_vms (l : list vm) : list vm :=
  fold_left (fun acc x => insert_vm x acc) l [].

Definition get_vms : M (list vm) :=
  st ← get_state;
  match VMS st with
  | _ :: _ => ret (VMS st)
  | [] =>
      nodes ← os_listdir "/etc/pve/nodes";
      for_ nodes (fun node =>
        let node_path := "/etc/pve/nodes/" +:+ node +:+ "/qemu-server" in
        isd ← os_path_isdir node_path;
        if negb isd then ret tt
        else
          vm_files ← os_listdir node_path;
          for_ vm_files (fun vm_file =>
            if Py.endswith ".conf" vm_file then
              let vmid := hd "" (Py.split "." vm_file) in
              cfg ← parse_vm_config vmid (Some node);
              modify (fun st => set_VMS (VMS st ++ [(vmid, node, cfg)]) st)
            else ret tt));;
      modify (fun st => set_VMS (sort_vms (VMS st)) st);;
      st ← get_state;
      ret (VMS st)
  end.

(** *** [get_gpus] *)

Definition sysfs (device : string) : string :=
  "/sys/bus/pci/devices/" +:+ device.

Definition occupancy_file (vgpu_path : string) : string :=
  vgpu_path +:+ "/nvidia/current_vgpu_type".

Definition creatable_file (vgpu_path : string) : string :=
  vgpu_path +:+ "/nvidia/creatable_vgpu_types".

(** [AVAILABLE_GPUS[device].append(vgpu_id)]. *)
Definition available_append (device vgpu_id : string) : M unit :=
  st ← get_state;
  l ← lift (getitem device (AVAILABLE_GPUS st));
  modify (fun st =>
    set_AVAILABLE_GPUS (dict_set device (l ++ [vgpu_id]) (AVAILABLE_GPUS st))
                       st).

(** The body of the loop of lines 69-74. *)
Definition scan_line (device gpu_type : string) : M unit :=
  if negb (Py.truthy gpu_type) || Py.startswith "ID" gpu_type then ret tt
  else
    modify (fun st => set_GPU_TYPES ({[gpu_type]} ∪ GPU_TYPES st) st);;
    let vgpu_id := Py.strip (hd "" (Py.split " : " gpu_type)) in
    available_append device vgpu_id.

(** The body of the loop of lines 52-74. *)
Definition scan_device (device : string) : M unit :=
  isd ← os_path_isdir (sysfs device +:+ "/nvidia");
  if negb isd then ret tt
  else
    current_vgpu_type ← read_file (occupancy_file (sysfs device));
    if negb (String.eqb current_vgpu_type ("0" +:+ nl)) then
      modify (fun st =>
        set_ASSIGNED_GPUS
          (dict_set device current_vgpu_type (ASSIGNED_GPUS st)) st);;
      modify (fun st => set_GPU_TYPES ({[current_vgpu_type]} ∪ GPU_TYPES st) st)
    else
      modify (fun st =>
        set_AVAILABLE_GPUS (dict_set device [] (AVAILABLE_GPUS st)) st);;
      available_vgpu_types ← read_file (creatable_file (sysfs device));
      for_ (Py.splitlines available_vgpu_types) (scan_line device).

Definition scan_result : Type :=
  dict (list string) * dict string * gset string.

Definition get_gpus : M scan_result :=
  st ← get_state;
  if decide (GPU_TYPES st = ∅) then
    devices ← os_listdir "/sys/bus/pci/devices/";
    for_ devices scan_device;;
    st ← get_state;
    ret (AVAILABLE_GPUS st, ASSIGNED_GPUS st, GPU_TYPES st)
  else
    ret (AVAILABLE_GPUS st, ASSIGNED_GPUS st, GPU_TYPES st).

(** *** [get_available_gpu] *)

(** The three components of the tuple [get_gpus] returns, as the items an
    unpacking assignment gets to see. *)
Inductive scan_item : Type :=
| ItemAvailable (d : dict (list string))
| ItemAssigned (d : dict string)
| ItemTypes (s : gset string).

Definition tuple_items (r : scan_result) : list scan_item :=
  let '(available, assigned, types) := r in
  [ItemAvailable available; ItemAssigned assigned; ItemTypes types].

(** The loop of lines 15-17: the first key whose value contains the type. *)
Fixpoint first_offering {V} (offers : V -> bool) (items : dict V)
  : option string :=
  match items with
  | [] => None
  | (gpu, vgpu_types) :: rest =>
      if offers vgpu_types then Some gpu else first_offering offers rest
  end.

Definition not_found_message : string :=
  "No available NVIDIA vGPU found, are virtual functions enabled? (systemctl start nvidia-sriov)".

Definition get_available_gpu (vgpu_type : string) : M string :=
  r ← get_gpus;
  '(gpus, _) ← lift (unpack2 (tuple_items r));
  found ← match gpus with
          | ItemAvailable d => ret (first_offering (Py.mem vgpu_type) d)
          | ItemAssigned d => ret (first_offering (Py.contains vgpu_type) d)
          | ItemTypes _ => raise AttributeError
          end;
  match found with
  | Some gpu => ret gpu
  | None => print not_found_message;; sys_exit 404
  end.

(** *** [assign_gpu] *)

Definition hook_path : string := "local:snippets/nvidia_allocator.py".

Definition device_token (gpu : string) : string :=
  "vfio-pci,sysfsdev=/sys/bus/pci/devices/" +:+ gpu.

(** [next((vm[2] for vm in vms if vm[0] == vmid), None)]. *)
Fixpoint find_config (vmid : string) (vms : list vm) : option config :=
  match vms with
  | [] => None
  | (v, _, cfg) :: rest =>
      if String.eqb v vmid then Some cfg else find_config vmid rest
  end.

(** The dictionary [config] is the very object stored in [VMS]: an item
    assignment on it is seen through the list as well. *)
Fixpoint replace_config (vmid : string) (cfg : config) (vms : list vm)
  : list vm :=
  match vms with
  | [] => []
  | (v, n, c) :: rest =>
      if String.eqb v vmid then (v, n, cfg) :: rest
      else (v, n, c) :: replace_config vmid cfg rest
  end.

Definition shared_setitem (vmid key value : string) (cfg : config)
  : M config :=
  let cfg' := dict_set key value cfg in
  modify (fun st => set_VMS (replace_config vmid cfg' (VMS st)) st);;
  ret cfg'.

(** [k in config and config[k]]. *)
Definition present (k : string) (cfg : config) : bool :=
  match dict_get k cfg with
  | Some v => Py.truthy v
  | None => false
  end.

(** Lines 141-143. *)
Definition arguments_of (cfg : config) : list string :=
  if present "args" cfg then Py.split " " (default "" (dict_get "args" cfg))
  else [].

(** Lines 160-163. *)
Definition tags_of (cfg : config) : gset string :=
  if present "tags" cfg then
    list_to_set
      (List.filter Py.truthy
         (Py.split ";" (Py.strip (default "" (dict_get "tags" cfg)))))
  else ∅.

(** The loop of lines 168-170, as the text the file ends up with. *)
Fixpoint serialize (cfg : config) : string :=
  match cfg with
  | [] => EmptyString
  | (key, value) :: rest => key +:+ ": " +:+ value +:+ nl +:+ serialize rest
  end.

Definition assign_gpu (vmid node gpu gpu_type : string) : M unit :=
  let config_file := config_path node vmid in
  vms ← get_vms;
  match find_config vmid vms with
  | None | Some [] => sys_exit 1
  | Some cfg =>
      let arguments := arguments_of cfg in
      if Py.mem (device_token gpu) arguments then ret tt
      else
        let arguments := arguments ++ ["-device " +:+ device_token gpu] in
        arguments ←
          (if negb (Py.mem "-uuid" arguments) then
             smbios1 ← lift (getitem "smbios1" cfg);
             uuid ← lift (parse_line_config smbios1 "uuid");
             ret (arguments ++ ["-uuid " +:+ str_of uuid])
           else ret arguments);
        cfg ← shared_setitem vmid "args" (Py.join " " arguments) cfg;
        cfg ← (if negb (present "hookscript" cfg) then
                 shared_setitem vmid "hookscript" hook_path cfg
               else ret cfg);
        let tags := {[ "nvidia-" +:+ gpu_type ]} ∪ tags_of cfg in
        cfg ← shared_setitem vmid "tags"
                (Py.join ";" (Py.sorted (elements tags))) cfg;
        write_file config_file (serialize cfg);;
        sys_exit 0
  end.

(** *** [stop] *)

Definition stop (vgpu_path : string) : M unit :=
  try_except (write_file (occupancy_file vgpu_path) "0")
    (fun e => match e with
              | FileNotFoundError | PermissionError => true
              | _ => false
              end)
    (print "vGPU already de-allocated").

(** *** [main] *)

Definition print_usage {A} : M A :=
  print "Usage: script.py <vmid> <phase>";;
  print "       script.py <vmid> get_command <vgpu_name>";;
  print "       script.py menu";;
  sys_exit 1.

Definition missing_message (vgpu_path : string) : string :=
  "Specified vGPU not found, rerun the nvidia_allocator or check the drivers: "
  +:+ vgpu_path.

(** Lines 321-326: check, then reset, one device after the other. *)
Definition check_and_reset (vgpu_paths : list string) : M unit :=
  for_ vgpu_paths (fun vgpu_path =>
    ex ← os_path_exists vgpu_path;
    (if negb ex then print (missing_message vgpu_path);; sys_exit 1
     else ret tt);;
    stop vgpu_path).

(** Lines 329-333. *)
Definition activate (vgpu_types vgpu_paths : list string) : M unit :=
  for_ (imap pair vgpu_paths) (fun '(i, vgpu_path) =>
    match vgpu_types !! (i mod length vgpu_types)%nat with
    | Some vgpu_type => write_file (occupancy_file vgpu_path) vgpu_type
    | None => raise ZeroDivisionError
    end).

(** Lines 297-306. *)
Definition get_command (vmid vgpu_name : string) (config_dict : config)
  : M unit :=
  gpu ← get_available_gpu vgpu_name;
  '(available_vgpu, gpu_id) ← lift (unpack2 (chars gpu));
  smbios1 ← lift (getitem "smbios1" config_dict);
  uuid ← lift (parse_line_config smbios1 "uuid");
  print ("qm set " +:+ vmid +:+ " --hookscript " +:+ hook_path);;
  print ("qm set " +:+ vmid
         +:+ " --args " +:+ dquote
         +:+ "-device vfio-pci,sysfsdev=/sys/bus/pci/devices/"
         +:+ available_vgpu +:+ " -uuid " +:+ str_of uuid +:+ dquote);;
  let tags : gset string :=
    {[ "nvidia-" +:+ gpu_id ]}
    ∪ list_to_set
        (List.filter Py.truthy
           (Py.split ";" (Py.strip (default "" (dict_get "tags" config_dict)))))
  in
  print ("qm set " +:+ vmid +:+ " --tags " +:+ dquote
         +:+ Py.join ";" (Py.sorted (elements tags)) +:+ dquote);;
  sys_exit 0.

Section Main.

(** The curses interface, [curses.wrapper(menu)], is outside this model. *)
Variable menu : M unit.

Definition main (argv : list string) (PVE_MIGRATED_FROM : option string)
  : M unit :=
  match argv with
  | [] | [_] => print_usage
  | _ :: vmid :: rest =>
      if String.eqb vmid "menu" then menu;; sys_exit 0
      else
        match rest with
        | [] => print_usage
        | phase :: rest' =>
            (if String.eqb phase "get_command" then
               match rest' with
               | [] =>
                   print "Usage: script.py <vmid> get_command <vgpu_name>";;
                   sys_exit 1
               | _ => ret tt
               end
             else ret tt);;
            config_dict ← parse_vm_config vmid PVE_MIGRATED_FROM;
            if String.eqb phase "get_command" then
              get_command vmid (hd "" rest') config_dict
            else
              vgpu_types ← lift (parse_vgpu_type_id config_dict);
              match vgpu_types with
              | [] => sys_exit 0
              | _ =>
                  vgpu_paths ← lift (parse_vgpu_bus_id config_dict);
                  match vgpu_paths with
                  | [] => sys_exit 0
                  | _ =>
                      (if String.eqb phase "pre-start" then
                         check_and_reset vgpu_paths;;
                         activate vgpu_types vgpu_paths
                       else ret tt);;
                      if String.eqb phase "post-stop" then
                        for_ vgpu_paths stop
                      else ret tt
                  end
              end
        end
  end.

(** The script body: [main()] followed by [sys.exit(0)]. *)
Definition script (argv : list string) (PVE_MIGRATED_FROM : option string)
  : M unit :=
  main argv PVE_MIGRATED_FROM;; sys_exit 0.

End Main.

(** ** Concrete hosts *)

(** A host given by its directories (with their entries), its files (with
    their content) and the files that refuse to be opened for writing. *)
Record host : Type := {
  h_dirs : dict (list string);
  h_files : dict string;
  h_denied : list string;
}.

(** The directory a path lies in: the text before its last slash. *)
Fixpoint directory_of (p : string) : string :=
  match p with
  | EmptyString => EmptyString
  | String c rest =>
      if Py.contains "/" rest then String c (directory_of rest) else EmptyString
  end.

(** [open(p, 'w')] on such a host: a file that is there is truncated, and a
    file that is not is created when its directory exists, as on the
    cluster file system under [/etc/pve]; without the directory the answer
    is [FileNotFoundError].  Under [/sys] nothing can be created: the kernel
    answers [EACCES], which is [PermissionError].  Opening a directory is
    [IsADirectoryError], an [OSError] that is neither of the two that [stop]
    recovers from. *)
Definition host_open_w (h : host) (p : string) : option exn :=
  if Py.mem p (h_denied h) then Some PermissionError
  else if bool_decide (is_Some (dict_get p (h_dirs h))) then Some OSError
  else if bool_decide (is_Some (dict_get p (h_files h))) then None
  else if negb (bool_decide (is_Some (dict_get (directory_of p) (h_dirs h))))
  then Some FileNotFoundError
  else if Py.startswith "/sys/" p then Some PermissionError
  else None.

Definition host_fs (h : host) : filesystem :=
  {| fs_listdir := fun p =>
       match dict_get p (h_dirs h) with
       | Some l => inr l
       | None => inl FileNotFoundError
       end;
     fs_isdir := fun p => bool_decide (is_Some (dict_get p (h_dirs h)));
     fs_exists := fun p =>
       bool_decide (is_Some (dict_get p (h_dirs h)))
       || bool_decide (is_Some (dict_get p (h_files h)));
     fs_read := fun p =>
       match dict_get p (h_files h) with
       | Some c => inr c
       | None => inl FileNotFoundError
       end;
     fs_write := fun p _ => host_open_w h p |}.

(** What a free device with types 63 and 64 lists as creatable. *)
Definition creatable_listing : string :=
  "ID    : vGPU Name" +:+ nl +:+ "63 : NVIDIA A40-1Q" +:+ nl
  +:+ "64 : NVIDIA A40-2Q" +:+ nl.

Definition gpu_dirs (gpu : string * string) : dict (list string) :=
  [(sysfs gpu.1, ["nvidia"]); (sysfs gpu.1 +:+ "/nvidia", [])].

Definition gpu_files (gpu : string * string) : dict string :=
  [(occupancy_file (sysfs gpu.1), gpu.2);
   (creatable_file (sysfs gpu.1), creatable_listing)].

(** One node [pve1] with VM 101 and its descriptor, a PCI device without the
    vendor driver, and the GPUs [gpus], each given with the content of its
    occupancy file. *)
Definition demo_host (descriptor : string) (gpus : list (string * string))
  : host :=
  {| h_dirs :=
       [("/etc/pve/nodes", ["pve1"]);
        ("/etc/pve/nodes/pve1/qemu-server", ["101.conf"]);
        ("/sys/bus/pci/devices/", "0000:00:1f.0" :: map fst gpus);
        ("/sys/bus/pci/devices/0000:00:1f.0", [])]
       ++ flat_map gpu_dirs gpus;
     h_files :=
       [("/etc/pve/nodes/pve1/qemu-server/101.conf", descriptor);
        ("/etc/pve/qemu-server/101.conf", descriptor)]
       ++ flat_map gpu_files gpus;
     h_denied := [] |}.

Definition free : string := "0" +:+ nl.

Definition two_gpus : list (string * string) :=
  [("0000:01:00.0", free); ("0000:02:00.0", free)].

(** [0000:02:00.0] occupied with type 63. *)
Definition mixed_gpus : list (string * string) :=
  [("0000:01:00.0", free); ("0000:02:00.0", "63" +:+ nl)].

Definition three_gpus : list (string * string) :=
  [("0000:01:00.0", free); ("0000:02:00.0", free); ("0000:03:00.0", free)].

(** The same host, with a second node [pve2] that also holds a VM 101. *)
Definition two_node_host (descriptor1 descriptor2 : string) : host :=
  {| h_dirs :=
       [("/etc/pve/nodes", ["pve2"; "pve1"]);
        ("/etc/pve/nodes/pve1/qemu-server", ["101.conf"]);
        ("/etc/pve/nodes/pve2/qemu-server", ["101.conf"])];
     h_files :=
       [("/etc/pve/nodes/pve1/qemu-server/101.conf", descriptor1);
        ("/etc/pve/nodes/pve2/qemu-server/101.conf", descriptor2)];
     h_denied := [] |}.

(** No interface attached. *)
Definition no_menu : M unit := ret tt.

(** A descriptor without vGPU settings. *)
Definition plain_descriptor : string :=
  "name: vm" +:+ nl +:+ "smbios1: uuid=1234" +:+ nl.

(** A descriptor asking for three devices, [0000:03:00.0] second, and two
    types. *)
Definition three_device_descriptor : string :=
  "name: vm" +:+ nl +:+ "smbios1: uuid=1234" +:+ nl
  +:+ "args: -device vfio-pci,sysfsdev=/sys/bus/pci/devices/0000:01:00.0"
  +:+ " -device vfio-pci,sysfsdev=/sys/bus/pci/devices/0000:03:00.0"
  +:+ " -device vfio-pci,sysfsdev=/sys/bus/pci/devices/0000:02:00.0"
  +:+ " -uuid 1234" +:+ nl
  +:+ "tags: nvidia-64;nvidia-63" +:+ nl.

(** ** Vocabulary of the statements *)

(** The event a call of [stop] leaves in the trace when it returns. *)
Definition stop_event (f : filesystem) (vgpu_path : string) : event :=
  match fs_write f (occupancy_file vgpu_path) "0" with
  | None => EvWrite (occupancy_file vgpu_path) "0"
  | Some _ => EvPrint "vGPU already de-allocated"
  end.

(** The failures [stop] recovers from: the path is missing or forbidden. *)
Definition tolerated (r : option exn) : Prop :=
  r = None \/ r = Some FileNotFoundError \/ r = Some PermissionError.

(** A state reached from [st] by writes and prints only. *)
Definition extends (st st' : state) (evs : list event) : Prop :=
  trace st' = trace st ++ evs
  /\ fs_write (fs st') = fs_write (fs st)
  /\ (forall p, fs_exists (fs st) p = true -> fs_exists (fs st') p = true)
  /\ (forall p, fs_exists (fs st') p = true ->
        fs_exists (fs st) p = true
        \/ exists d, In (EvWrite p d) evs).

(** A descriptor that carries a vGPU tag but no [args] line. *)
Definition tagged_descriptor : string :=
  "name: vm" +:+ nl +:+ "smbios1: uuid=1234" +:+ nl
  +:+ "hookscript: local:snippets/nvidia_allocator.py" +:+ nl
  +:+ "tags: nvidia-63" +:+ nl.

(** What [parse_vm_config] makes of [three_device_descriptor]. *)
Definition three_device_config : config :=
  [("name", "vm"); ("smbios1", "uuid=1234");
   ("args",
    "-device vfio-pci,sysfsdev=/sys/bus/pci/devices/0000:01:00.0"
    +:+ " -device vfio-pci,sysfsdev=/sys/bus/pci/devices/0000:03:00.0"
    +:+ " -device vfio-pci,sysfsdev=/sys/bus/pci/devices/0000:02:00.0"
    +:+ " -uuid 1234");
   ("tags", "nvidia-64;nvidia-63")].

Definition three_device_paths : list string :=
  ["/sys/bus/pci/devices/0000:01:00.0"; "/sys/bus/pci/devices/0000:03:00.0";
   "/sys/bus/pci/devices/0000:02:00.0"].

Definition script_name : string := "/var/lib/vz/snippets/nvidia_allocator.py".

(** The type the [i]-th requested device is paired with. *)
Definition type_for (vgpu_types : list string) (i : nat) : string :=
  default "" (vgpu_types !! (i mod length vgpu_types)%nat).

(** The activation writes of a [pre-start], in request order. *)
Definition round_robin (vgpu_types vgpu_paths : list string)
  : list (string * string) :=
  imap (fun i q => (occupancy_file q, type_for vgpu_types i)) vgpu_paths.

(** An event of the reset phase of [pre-start]. *)
Definition reset_event (e : event) : Prop :=
  (exists q, e = EvWrite (occupancy_file q) "0")
  \/ e = EvPrint "vGPU already de-allocated".

(** An event a failed [pre-start] may leave behind: a sentinel written to one
    of [devices], or a printed line. *)
Definition sentinel_reset_of (devices : list string) (e : event) : Prop :=
  match e with
  | EvWrite f d => d = "0" /\ exists q, In q devices /\ f = occupancy_file q
  | EvPrint _ => True
  end.

(** The handler gave up: [sys.exit(1)] or an uncaught exception. *)
Definition fatal {A} (o : outcome A) : Prop :=
  o = Exit 1%Z \/ exists e, o = Raise e.

(** Lines 155-166 of [assign_gpu]: the descriptor once [args], [hookscript]
    and [tags] are set. *)
Definition finish_config (cfg : config) (arguments : list string)
    (gpu_type : string) : config :=
  let cfg := dict_set "args" (Py.join " " arguments) cfg in
  let cfg := if negb (present "hookscript" cfg)
             then dict_set "hookscript" hook_path cfg else cfg in
  let tags := {[ "nvidia-" +:+ gpu_type ]} ∪ tags_of cfg in
  dict_set "tags" (Py.join ";" (Py.sorted (elements tags))) cfg.

(** Lines 149-153: the argument list with the new device and, unless one is
    there, the uuid. *)
Definition extended_arguments (cfg : config) (gpu : string)
  : exn + list string :=
  let arguments := arguments_of cfg ++ ["-device " +:+ device_token gpu] in
  if negb (Py.mem "-uuid" arguments) then
    match getitem "smbios1" cfg with
    | inl e => inl e
    | inr smbios1 =>
        match parse_line_config smbios1 "uuid" with
        | inl e => inl e
        | inr uuid => inr (arguments ++ ["-uuid " +:+ str_of uuid])
        end
    end
  else inr arguments.

(** What [assign_gpu] makes of the descriptor it found: [None] when the
    device is attached already, the new descriptor otherwise. *)
Definition assigned_config (cfg : config) (gpu gpu_type : string)
  : exn + option config :=
  if Py.mem (device_token gpu) (arguments_of cfg) then inr None
  else
    match extended_arguments cfg gpu with
    | inl e => inl e
    | inr arguments => inr (Some (finish_config cfg arguments gpu_type))
    end.

(** A state that differs from [st] in the cache [VMS] at most. *)
Definition same_world (st st' : state) : Prop :=
  fs st' = fs st /\ trace st' = trace st
  /\ AVAILABLE_GPUS st' = AVAILABLE_GPUS st
  /\ ASSIGNED_GPUS st' = ASSIGNED_GPUS st
  /\ GPU_TYPES st' = GPU_TYPES st.

(** [plain_descriptor] parsed, and after device [0000:02:00.0] with type 64
    has been assigned. *)
Definition plain_config : config :=
  [("name", "vm"); ("smbios1", "uuid=1234")].

Definition first_assignment : config :=
  [("args",
    "-device vfio-pci,sysfsdev=/sys/bus/pci/devices/0000:02:00.0 -uuid 1234");
   ("hookscript", "local:snippets/nvidia_allocator.py");
   ("tags", "nvidia-64")].

Definition tagged_config : config :=
  [("name", "vm"); ("smbios1", "uuid=1234");
   ("hookscript", "local:snippets/nvidia_allocator.py");
   ("tags", "nvidia-63")].

(** [VMS] is in order when each entry is below its successor. *)
Definition vms_sorted (vms : list vm) : Prop :=
  Sorted (fun a b => vm_le a b = true) vms.

(** An entry whose line [key: value] the parser reads back as it is: no
    separator and no line boundary inside the key or the value, and a key
    that does not make the line a comment or a section header. *)
Definition plain_text (s : string) : Prop :=
  Py.contains ": " s = false
  /\ Py.all_chars (fun c => negb (Py.is_linebreak c)) s = true.

Definition well_formed_entry (kv : string * string) : Prop :=
  plain_text kv.1 /\ plain_text kv.2
  /\ Py.startswith "#" kv.1 = false
  /\ Py.startswith "[" kv.1 = false.

(** A descriptor that starts with a comment line. *)
Definition commented_descriptor : string :=
  "#vGPU host" +:+ nl +:+ "name: vm" +:+ nl.

(** A line of a creatable-types file that the scan keeps: not empty, not
    the header. *)
Definition catalog_line (line : string) : bool :=
  Py.truthy line && negb (Py.startswith "ID" line).

(** The type id the scan takes from a kept line. *)
Definition type_id_of (line : string) : string :=
  Py.strip (hd "" (Py.split " : " line)).

(** What the control files say about a device. *)
Inductive observation : Type :=
| NotGpu
| Occupied (current : string)
| Free (lines : list string).

Definition observe (f : filesystem) (device : string) : exn + observation :=
  if negb (fs_isdir f (sysfs device +:+ "/nvidia")) then inr NotGpu
  else
    match fs_read f (occupancy_file (sysfs device)) with
    | inl e => inl e
    | inr current =>
        if negb (String.eqb current ("0" +:+ nl)) then inr (Occupied current)
        else
          match fs_read f (creatable_file (sysfs device)) with
          | inl e => inl e
          | inr text => inr (Free (List.filter catalog_line (Py.splitlines text)))
          end
    end.

(** [x] is what the scan puts into the catalog for [device]: the content of
    the occupancy file of an occupied device, a kept line of the
    creatable-types file of a free one. *)
Definition catalog_entry (f : filesystem) (device x : string) : Prop :=
  observe f device = inr (Occupied x)
  \/ exists lines, observe f device = inr (Free lines) /\ In x lines.

(** The control files of a device can be read. *)
Definition readable (f : filesystem) (device : string) : Prop :=
  exists o, observe f device = inr o.

(** The caches after the devices [done] have been scanned on the file
    system [f]. *)
Definition scanned (f : filesystem) (done : list string) (s : state) : Prop :=
  fs s = f
  /\ (forall x, x ∈ GPU_TYPES s <-> exists d, In d done /\ catalog_entry f d x)
  /\ (forall d lines, In d done -> observe f d = inr (Free lines) ->
        dict_get d (AVAILABLE_GPUS s) = Some (map type_id_of lines))
  /\ (forall d current, In d done -> observe f d = inr (Occupied current) ->
        dict_get d (ASSIGNED_GPUS s) = Some current).

(** A computation that neither calls [sys.exit] nor adds to the trace. *)
Definition quiet {A} (m : M A) : Prop :=
  forall st o st',
    m st = (o, st') -> (forall c, o <> Exit c) /\ trace st' = trace st.


(** ** Vocabulary of the further statements *)

(** The only kind of file a lifecycle phase writes: the occupancy file of a
    PCI device directory. *)
Definition sysfs_target (p : string) : Prop :=
  exists run,
    run <> "" /\ Py.all_chars Py.is_busid_char run = true
    /\ p = occupancy_file ("/sys/bus/pci/devices/" +:+ run).

(** An event that writes, if at all, to a file allowed by [P]. *)
Definition confined (P : string -> Prop) (e : event) : Prop :=
  match e with
  | EvWrite p _ => P p
  | EvPrint _ => True
  end.

(** Whatever [m] does, it writes to files allowed by [P] only and leaves the
    content of every other file as it is. *)
Definition writes_within {A} (P : string -> Prop) (m : M A) : Prop :=
  forall st o st',
    m st = (o, st') ->
    exists evs,
      trace st' = trace st ++ evs
      /\ Forall (confined P) evs
      /\ (forall p, ~ P p -> fs_read (fs st') p = fs_read (fs st) p).

(** The failures [stop] does not recover from. *)
Definition unrecovered (e : exn) : Prop :=
  e <> FileNotFoundError /\ e <> PermissionError.

(** A file system on which writing to [p] fails with [e] for the data that
    [bad] picks, the driver refusing them. *)
Definition with_write_error (p : string) (bad : string -> bool) (e : exn)
    (f : filesystem) : filesystem :=
  {| fs_listdir := fs_listdir f;
     fs_isdir := fs_isdir f;
     fs_exists := fs_exists f;
     fs_read := fs_read f;
     fs_write := fun q d =>
       if String.eqb q p && bad d then Some e else fs_write f q d |}.

(** The demo host with three GPUs, the second requested one refusing every
    type but the sentinel. *)
Definition picky_host : filesystem :=
  with_write_error "/sys/bus/pci/devices/0000:03:00.0/nvidia/current_vgpu_type"
    (fun d => negb (String.eqb d "0")) OSError
    (host_fs (demo_host three_device_descriptor three_gpus)).

(** The same host, that device refusing the sentinel as well. *)
Definition stuck_host : filesystem :=
  with_write_error "/sys/bus/pci/devices/0000:03:00.0/nvidia/current_vgpu_type"
    (fun _ => true) OSError
    (host_fs (demo_host three_device_descriptor three_gpus)).

(** Item assignments in order: [for k, v in entries: d[k] = v]. *)
Definition dict_update {V} (entries : list (string * V)) (d : dict V)
  : dict V :=
  fold_left (fun acc kv => dict_set kv.1 kv.2 acc) entries d.

(** The value the last entry for [k] carries. *)
Definition last_value {V} (k : string) (entries : list (string * V))
  : option V :=
  fold_left (fun acc kv => if String.eqb k kv.1 then Some kv.2 else acc)
            entries None.

(** Ascending by code points. *)
Definition ascending (l : list string) : Prop :=
  Sorted (fun a b => String.leb a b = true) l.

(** A text that can stand on either side of [=] in a sub-field. *)
Definition subfield_text (s : string) : Prop :=
  Py.contains "," s = false /\ Py.contains "=" s = false.

(** The sub-field string of a list of pairs: [k1=v1,k2=v2,...]. *)
Definition subfields (pairs : list (string * string)) : string :=
  Py.join "," (map (fun kv => kv.1 +:+ "=" +:+ kv.2) pairs).

(** A line the descriptor parser passes over, on its own line. *)
Definition passed_over (line : string) : Prop :=
  skipped_line line = true
  /\ Py.all_chars (fun c => negb (Py.is_linebreak c)) line = true.

(** A descriptor with a snapshot section that has its own [tags]. *)
Definition snapshot_descriptor : string :=
  "name: vm" +:+ nl +:+ "tags: nvidia-63" +:+ nl
  +:+ "[before-upgrade]" +:+ nl
  +:+ "tags: nvidia-64" +:+ nl +:+ "memory: 4096" +:+ nl.

(** Where [assign_gpu] takes the uuid from (line 152). *)
Definition uuid_source (cfg : config) : exn + option string :=
  match getitem "smbios1" cfg with
  | inl e => inl e
  | inr smbios1 => parse_line_config smbios1 "uuid"
  end.

(** The descriptor file of the VM can be opened and written. *)
Definition writable (f : filesystem) (p : string) : Prop :=
  forall d, fs_write f p d = None.

(** A descriptor with an [smbios1] that has no uuid, one with a uuid among
    its arguments already, and one without [smbios1]. *)
Definition no_uuid_descriptor : string :=
  "name: vm" +:+ nl +:+ "smbios1: manufacturer=QUJD" +:+ nl.

Definition own_uuid_descriptor : string :=
  "args: -uuid 42 -cpu host" +:+ nl +:+ "name: vm" +:+ nl.

Definition bare_descriptor : string := "name: vm" +:+ nl.

(** The keys among [args], [hookscript], [tags] that a descriptor lacks, in
    the order [assign_gpu] sets them. *)
Definition added_keys (cfg : config) : list string :=
  List.filter (fun k => match dict_get k cfg with None => true | Some _ => false end)
              ["args"; "hookscript"; "tags"].

(** The labels [assign_gpu] finds in the descriptor (lines 160-163). *)
Definition old_tags (cfg : config) : list string :=
  if present "tags" cfg then
    List.filter Py.truthy
      (Py.split ";" (Py.strip (default "" (dict_get "tags" cfg))))
  else [].

(** No non-empty suffix of [lit] is a prefix of [w]: a match of a pattern
    that starts with [lit] cannot begin before [w] and reach into it. *)
Fixpoint clear_of (w lit : string) : bool :=
  match lit with
  | EmptyString => true
  | String _ lit' => negb (String.prefix lit w) && clear_of w lit'
  end.

(** The matchers of the two patterns. *)
Definition type_matcher : string -> option (string * nat) :=
  Py.match_lit_class "nvidia-" "" Py.is_digit.

Definition device_matcher : string -> option (string * nat) :=
  Py.match_lit_class "-device vfio-pci,sysfsdev=/sys/bus/pci/devices/"
                     "/sys/bus/pci/devices/" Py.is_busid_char.

(** The device paths a descriptor requests, none when it has no [args]. *)
Definition old_paths (cfg : config) : list string :=
  match parse_vgpu_bus_id cfg with
  | inr paths => paths
  | inl _ => []
  end.


(** The directory of a node that [get_vms] lists (line 28). *)
Definition node_path (node : string) : string :=
  "/etc/pve/nodes/" +:+ node +:+ "/qemu-server".




(** What the scan makes of a device, as a test. *)
Definition observed_free (f : filesystem) (device : string) : bool :=
  match observe f device with
  | inr (Free _) => true
  | _ => false
  end.

Definition observed_occupied (f : filesystem) (device : string) : bool :=
  match observe f device with
  | inr (Occupied _) => true
  | _ => false
  end.

(** A computation that leaves the part [proj] of the state as it is,
    however it ends. *)
Definition keeps {X A} (proj : state -> X) (m : M A) : Prop :=
  forall st o st', m st = (o, st') -> proj st' = proj st.

(** The part of the state the scan has no business with. *)
Definition outside_scan (st : state) : filesystem * list event * list vm :=
  (fs st, trace st, VMS st).

(** The three caches of the scan. *)
Definition scan_caches (st : state) : scan_result :=
  (AVAILABLE_GPUS st, ASSIGNED_GPUS st, GPU_TYPES st).

(** A host whose second GPU has the vendor directory but no control files
    yet; the first is occupied with type 63, the third free. *)
Definition half_bound_host : host :=
  {| h_dirs :=
       ("/sys/bus/pci/devices/",
        ["0000:01:00.0"; "0000:02:00.0"; "0000:03:00.0"])
       :: flat_map gpu_dirs
            [("0000:01:00.0", "63" +:+ nl); ("0000:02:00.0", free);
             ("0000:03:00.0", free)];
     h_files :=
       gpu_files ("0000:01:00.0", "63" +:+ nl)
       ++ gpu_files ("0000:03:00.0", free);
     h_denied := [] |}.

(** What [print_usage] prints. *)
Definition usage_lines : list event :=
  [EvPrint "Usage: script.py <vmid> <phase>";
   EvPrint "       script.py <vmid> get_command <vgpu_name>";
   EvPrint "       script.py menu"].




(** * Properties *)

(** Settles a [Forall] over a concrete list by evaluation. *)
Ltac forall_compute :=
  vm_compute;
  repeat match goal with
         | |- Forall _ [] => constructor
         | |- Forall _ (_ :: _) => constructor; [auto |]
         end.

(** ** Text *)

Lemma findall_go_in m s : forall k g,
  In g (Py.findall_go m k s) -> exists s' len, m s' = Some (g, len).
Proof.
  induction s as [| c s IH]; intros k g Hin; [destruct Hin |].
  cbn [Py.findall_go] in Hin. destruct k as [| k].
  - destruct (m (String c s)) as [[g' len] |] eqn:E.
    + destruct Hin as [<- | Hin]; [exists (String c s), len; exact E |].
      exact (IH _ _ Hin).
    + exact (IH _ _ Hin).
  - exact (IH _ _ Hin).
Qed.

Lemma span_while_all p s : Py.all_chars p (Py.span_while p s) = true.
Proof.
  induction s as [| c s IH]; [reflexivity |].
  cbn. destruct (p c) eqn:E; [| reflexivity]. cbn. rewrite E. exact IH.
Qed.

Lemma match_lit_class_shape lit keep cls s g len :
  Py.match_lit_class lit keep cls s = Some (g, len) ->
  exists run, g = keep +:+ run /\ Py.all_chars cls run = true.
Proof.
  unfold Py.match_lit_class. destruct (String.prefix lit s); [| discriminate].
  pose proof (span_while_all cls (Py.drop (String.length lit) s)) as Hall.
  destruct (Py.span_while cls (Py.drop (String.length lit) s)) as [| c r];
    [discriminate |].
  intros H. injection H as <- _. exists (String c r). split; [reflexivity |].
  exact Hall.
Qed.

Lemma all_chars_app p a b :
  Py.all_chars p (a +:+ b) = Py.all_chars p a && Py.all_chars p b.
Proof.
  induction a as [| c a IH]; [reflexivity |].
  simpl. rewrite IH. apply andb_assoc.
Qed.

Lemma append_assoc (a b c : string) : (a +:+ b) +:+ c = a +:+ (b +:+ c).
Proof.
  induction a as [| x a IH]; [reflexivity |].
  change (String x a +:+ b) with (String x (a +:+ b)).
  change (String x (a +:+ b) +:+ c) with (String x ((a +:+ b) +:+ c)).
  rewrite IH. reflexivity.
Qed.

Lemma append_inj_l (a b c : string) : a +:+ b = a +:+ c -> b = c.
Proof.
  induction a as [| x a IH]; [auto |].
  change (String x a +:+ b) with (String x (a +:+ b)).
  change (String x a +:+ c) with (String x (a +:+ c)).
  intros H. injection H as H. auto.
Qed.

(** A requested device path is the device directory followed by characters
    of the bus-address class. *)
Lemma bus_id_shape cfg paths p :
  parse_vgpu_bus_id cfg = inr paths -> In p paths ->
  exists run, p = "/sys/bus/pci/devices/" +:+ run
              /\ Py.all_chars Py.is_busid_char run = true.
Proof.
  unfold parse_vgpu_bus_id. destruct (getitem "args" cfg); [discriminate |].
  intros H Hin. injection H as <-. unfold Py.findall in Hin.
  apply findall_go_in in Hin. destruct Hin as (s' & len & Hm).
  exact (match_lit_class_shape _ _ _ _ _ _ Hm).
Qed.

(** Hence no occupancy file is itself a requested device path. *)
Lemma occupancy_file_not_requested cfg paths p q :
  parse_vgpu_bus_id cfg = inr paths -> In p paths -> In q paths ->
  occupancy_file q <> p.
Proof.
  intros Hpa Hp Hq Heq.
  destruct (bus_id_shape _ _ _ Hpa Hp) as (rp & -> & Hrp).
  destruct (bus_id_shape _ _ _ Hpa Hq) as (rq & -> & Hrq).
  unfold occupancy_file in Heq. rewrite append_assoc in Heq.
  apply append_inj_l in Heq. rewrite <- Heq, all_chars_app in Hrp.
  apply andb_true_iff in Hrp. destruct Hrp as [_ Hrp]. discriminate Hrp.
Qed.

(** ** The lifecycle handler *)

Section Lifecycle.

Variable menu : M unit.

Lemma extends_refl st : extends st st [].
Proof.
  unfold extends. rewrite app_nil_r. repeat split; auto.
Qed.

Lemma extends_trans st1 st2 st3 e1 e2 :
  extends st1 st2 e1 -> extends st2 st3 e2 -> extends st1 st3 (e1 ++ e2).
Proof.
  intros (T1 & W1 & X1 & Y1) (T2 & W2 & X2 & Y2).
  repeat split.
  - rewrite T2, T1, app_assoc. reflexivity.
  - congruence.
  - auto.
  - intros p Hp. destruct (Y2 p Hp) as [H | [d H]].
    + destruct (Y1 p H) as [H' | [d H']]; [left; exact H' |].
      right. exists d. apply in_or_app. left. exact H'.
    + right. exists d. apply in_or_app. right. exact H.
Qed.

Lemma write_file_ok p d st :
  fs_write (fs st) p d = None ->
  exists st',
    write_file p d st = (Ret tt, st') /\ extends st st' [EvWrite p d].
Proof.
  intros H. unfold write_file. rewrite H.
  eexists. split; [reflexivity |].
  unfold extends; cbn. split; [reflexivity |]. split; [reflexivity |]. split.
  - intros q Hq. rewrite Hq. apply orb_true_r.
  - intros q Hq. apply orb_true_iff in Hq. destruct Hq as [Hq | Hq].
    + apply String.eqb_eq in Hq. subst q. right. exists d. left. reflexivity.
    + left. exact Hq.
Qed.

Lemma stop_returns vgpu_path st :
  tolerated (fs_write (fs st) (occupancy_file vgpu_path) "0") ->
  exists st',
    stop vgpu_path st = (Ret tt, st')
    /\ extends st st' [stop_event (fs st) vgpu_path].
Proof.
  intros Htol. unfold stop, try_except, write_file, stop_event.
  destruct Htol as [H | [H | H]]; rewrite H; cbn.
  - eexists. split; [reflexivity |].
    unfold extends; cbn. repeat split; auto.
    + intros p Hp. rewrite Hp. apply orb_true_r.
    + intros p Hp. apply orb_true_iff in Hp. destruct Hp as [Hp | Hp].
      * apply String.eqb_eq in Hp. subst p. right. exists "0". left. reflexivity.
      * left. exact Hp.
  - eexists. split; [reflexivity |].
    unfold extends; cbn. repeat split; auto.
  - eexists. split; [reflexivity |].
    unfold extends; cbn. repeat split; auto.
Qed.

(** Whatever [stop] does, it leaves at most a sentinel write or its
    message, and it never calls [sys.exit]. *)
Lemma stop_cases vgpu_path st :
  (exists st', stop vgpu_path st = (Ret tt, st')
               /\ extends st st' [stop_event (fs st) vgpu_path])
  \/ (exists e, stop vgpu_path st = (Raise e, st)).
Proof.
  destruct (fs_write (fs st) (occupancy_file vgpu_path) "0") as [e |] eqn:E.
  - destruct (match e with
              | FileNotFoundError | PermissionError => true
              | _ => false
              end) eqn:Hh.
    + left. apply stop_returns. unfold tolerated. rewrite E.
      destruct e; try discriminate; auto.
    + right. exists e. unfold stop, try_except, write_file. rewrite E, Hh.
      reflexivity.
  - left. apply stop_returns. left. exact E.
Qed.

(** The loop of [post-stop]. *)
Lemma stop_all_returns paths : forall st,
  Forall (fun q => tolerated (fs_write (fs st) (occupancy_file q) "0")) paths ->
  exists st',
    for_ paths stop st = (Ret tt, st')
    /\ extends st st' (map (stop_event (fs st)) paths).
Proof.
  induction paths as [| q paths IH]; intros st Hall.
  - exists st. split; [reflexivity | apply extends_refl].
  - inversion Hall as [| ? ? Hq Hrest]; subst.
    destruct (stop_returns q st Hq) as (st1 & Hrun & Hext).
    assert (Hw : fs_write (fs st1) = fs_write (fs st)) by apply Hext.
    destruct (IH st1) as (st2 & Hrun2 & Hext2).
    { rewrite Hw. exact Hrest. }
    exists st2. split.
    + cbn. unfold bind. rewrite Hrun. exact Hrun2.
    + cbn [map].
      replace (map (stop_event (fs st)) paths)
        with (map (stop_event (fs st1)) paths).
      * exact (extends_trans _ _ _ _ _ Hext Hext2).
      * apply map_ext. intros a. unfold stop_event. rewrite Hw. reflexivity.
Qed.

(** What [main] does once the descriptor is loaded and both lists are
    non-empty. *)
Lemma main_lifecycle prog vmid phase env st cfg types paths :
  vmid <> "menu" ->
  phase <> "get_command" ->
  parse_vm_config vmid env st = (Ret cfg, st) ->
  parse_vgpu_type_id cfg = inr types -> types <> [] ->
  parse_vgpu_bus_id cfg = inr paths -> paths <> [] ->
  main menu [prog; vmid; phase] env st
  = bind (if String.eqb phase "pre-start"
          then bind (check_and_reset paths) (fun _ => activate types paths)
          else ret tt)
         (fun _ => if String.eqb phase "post-stop" then for_ paths stop
                   else ret tt) st.
Proof.
  intros Hm Hg Hcfg Hty Hne Hpa Hne'.
  unfold main.
  apply String.eqb_neq in Hm. rewrite Hm.
  apply String.eqb_neq in Hg. rewrite Hg.
  unfold bind at 1. cbn [ret].
  unfold bind at 1. rewrite Hcfg.
  unfold bind at 1. rewrite Hty. cbn [lift ret].
  destruct types as [| t types]; [congruence |].
  unfold bind at 1. rewrite Hpa. cbn [lift ret].
  destruct paths as [| q paths]; [congruence |].
  reflexivity.
Qed.

Lemma script_of_main argv env st o st' :
  main menu argv env st = (o, st') ->
  script menu argv env st
  = (match o with Ret _ => Exit 0 | Exit c => Exit c | Raise e => Raise e end,
     st').
Proof.
  intros H. unfold script, bind, sys_exit. rewrite H. destruct o; reflexivity.
Qed.

(** The first loop of [pre-start] when every device is there. *)
Lemma check_and_reset_returns paths : forall st,
  Forall (fun q => fs_exists (fs st) q = true) paths ->
  Forall (fun q => tolerated (fs_write (fs st) (occupancy_file q) "0")) paths ->
  exists st',
    check_and_reset paths st = (Ret tt, st')
    /\ extends st st' (map (stop_event (fs st)) paths).
Proof.
  induction paths as [| q paths IH]; intros st Hex Htol.
  - exists st. split; [reflexivity | apply extends_refl].
  - inversion Hex as [| ? ? Hq Hex']; subst.
    inversion Htol as [| ? ? Hs Htol']; subst.
    destruct (stop_returns q st Hs) as (st1 & Hrun & Hext).
    assert (Hw : fs_write (fs st1) = fs_write (fs st)) by apply Hext.
    destruct (IH st1) as (st2 & Hrun2 & Hext2).
    { eapply Forall_impl; [exact Hex' |]. intros a Ha. apply Hext, Ha. }
    { rewrite Hw. exact Htol'. }
    exists st2. split.
    + unfold check_and_reset in *. cbn [for_].
      unfold bind at 1. unfold bind at 1. unfold bind at 1.
      unfold os_path_exists. rewrite Hq. cbn [negb ret].
      rewrite Hrun. exact Hrun2.
    + cbn [map].
      replace (map (stop_event (fs st)) paths)
        with (map (stop_event (fs st1)) paths).
      * exact (extends_trans _ _ _ _ _ Hext Hext2).
      * apply map_ext. intros a. unfold stop_event. rewrite Hw. reflexivity.
Qed.

(** The second loop of [pre-start], started at index [k]. *)
Lemma activate_from types paths : forall k st,
  Forall (fun w => fs_write (fs st) w.1 w.2 = None)
         (imap (fun i q => (occupancy_file q, type_for types (k + i))) paths) ->
  types <> [] ->
  exists st',
    for_ (imap (fun i q => (k + i, q)%nat) paths)
      (fun '(i, vgpu_path) =>
         match types !! (i mod length types)%nat with
         | Some vgpu_type => write_file (occupancy_file vgpu_path) vgpu_type
         | None => raise ZeroDivisionError
         end) st = (Ret tt, st')
    /\ extends st st'
         (imap (fun i q => EvWrite (occupancy_file q) (type_for types (k + i)))
               paths).
Proof.
  induction paths as [| q paths IH]; intros k st Hw Hne.
  - exists st. split; [reflexivity | apply extends_refl].
  - rewrite imap_cons in Hw. inversion Hw as [| ? ? Hq Hrest]; subst.
    cbn [fst snd] in Hq.
    assert (Hlt : ((k + 0) mod length types < length types)%nat).
    { apply Nat.mod_upper_bound. destruct types; [congruence | cbn; lia]. }
    destruct (lookup_lt_is_Some_2 types _ Hlt) as [t Ht].
    assert (Htf : type_for types (k + 0) = t).
    { unfold type_for. rewrite Ht. reflexivity. }
    rewrite Htf in Hq.
    destruct (write_file_ok _ _ st Hq) as (st1 & Hrun1 & Hext1).
    assert (Hw1 : fs_write (fs st1) = fs_write (fs st)) by apply Hext1.
    destruct (IH (S k) st1) as (st2 & Hrun2 & Hext2); [| exact Hne |].
    { rewrite Hw1. erewrite imap_ext; [exact Hrest |].
      intros i x _. cbn. rewrite Nat.add_succ_r. reflexivity. }
    exists st2. split.
    + rewrite imap_cons. cbn [for_]. unfold bind at 1.
      rewrite Ht, Hrun1.
      erewrite imap_ext; [exact Hrun2 |].
      intros i x _. cbn. rewrite Nat.add_succ_r. reflexivity.
    + rewrite imap_cons. rewrite Htf.
      change (EvWrite (occupancy_file q) t :: ?l)
        with ([EvWrite (occupancy_file q) t] ++ l).
      eapply extends_trans; [exact Hext1 |].
      erewrite imap_ext; [exact Hext2 |].
      intros i x _. cbn. rewrite Nat.add_succ_r. reflexivity.
Qed.

Lemma map_of_imap {A B C} (g : B -> C) (l : list A) : forall (f : nat -> A -> B),
  map g (imap f l) = imap (fun i x => g (f i x)) l.
Proof.
  induction l as [| x l IH]; intros f; [reflexivity |].
  rewrite !imap_cons. cbn [map]. rewrite IH. reflexivity.
Qed.

Lemma activate_returns types paths st :
  Forall (fun w => fs_write (fs st) w.1 w.2 = None) (round_robin types paths) ->
  types <> [] ->
  exists st',
    activate types paths st = (Ret tt, st')
    /\ extends st st' (map (fun w => EvWrite w.1 w.2) (round_robin types paths)).
Proof.
  intros Hw Hne.
  destruct (activate_from types paths 0 st Hw Hne) as (st' & Hrun & Hext).
  exists st'. split; [exact Hrun |].
  unfold round_robin. rewrite map_of_imap. exact Hext.
Qed.

Lemma reset_events_of_stops f paths :
  Forall reset_event (map (stop_event f) paths).
Proof.
  apply List.Forall_forall. intros e He. apply in_map_iff in He.
  destruct He as (q & <- & _). unfold stop_event, reset_event.
  destruct (fs_write f (occupancy_file q) "0"); [right | left; exists q];
    reflexivity.
Qed.

(** Nothing requested: [main] leaves through one of the two [sys.exit(0)]. *)
Lemma main_nothing_requested prog vmid phase env st cfg :
  vmid <> "menu" ->
  phase <> "get_command" ->
  parse_vm_config vmid env st = (Ret cfg, st) ->
  parse_vgpu_type_id cfg = inr []
  \/ (exists types, parse_vgpu_type_id cfg = inr types)
     /\ parse_vgpu_bus_id cfg = inr [] ->
  main menu [prog; vmid; phase] env st = (Exit 0, st).
Proof.
  intros Hm Hg Hcfg Hreq.
  unfold main.
  apply String.eqb_neq in Hm. rewrite Hm.
  apply String.eqb_neq in Hg. rewrite Hg.
  unfold bind at 1. cbn [ret].
  unfold bind at 1. rewrite Hcfg.
  destruct Hreq as [Hty | [[types Hty] Hpa]].
  - unfold bind at 1. rewrite Hty. reflexivity.
  - unfold bind at 1. rewrite Hty. cbn [lift ret].
    destruct types; [reflexivity |].
    unfold bind at 1. rewrite Hpa. reflexivity.
Qed.

(** C3: with [M >= 1] requested types and [N] requested devices, all present,
    a [pre-start] first resets the devices and then writes
    [types[i mod M]] into the occupancy file of the [i]-th device, in request
    order, and reports success. *)
Theorem pre_start_round_robin prog vmid env st cfg types paths :
  vmid <> "menu" ->
  parse_vm_config vmid env st = (Ret cfg, st) ->
  parse_vgpu_type_id cfg = inr types -> types <> [] ->
  parse_vgpu_bus_id cfg = inr paths ->
  Forall (fun q => fs_exists (fs st) q = true) paths ->
  Forall (fun q => tolerated (fs_write (fs st) (occupancy_file q) "0")) paths ->
  Forall (fun w => fs_write (fs st) w.1 w.2 = None) (round_robin types paths) ->
  exists st' resets,
    script menu [prog; vmid; "pre-start"] env st = (Exit 0, st')
    /\ Forall reset_event resets
    /\ trace st'
       = trace st ++ resets
         ++ map (fun w => EvWrite w.1 w.2) (round_robin types paths)
    /\ forall i q, paths !! i = Some q ->
         exists t, types !! (i mod length types)%nat = Some t
                   /\ round_robin types paths !! i = Some (occupancy_file q, t).
Proof.
  intros Hm Hcfg Hty Hne Hpa Hex Htol Hact.
  assert (Hrr : forall i q, paths !! i = Some q ->
            exists t, types !! (i mod length types)%nat = Some t
              /\ round_robin types paths !! i = Some (occupancy_file q, t)).
  { intros i q Hq.
    assert (Hlt : (i mod length types < length types)%nat).
    { apply Nat.mod_upper_bound. destruct types; [congruence | cbn; lia]. }
    destruct (lookup_lt_is_Some_2 types _ Hlt) as [t Ht].
    exists t. split; [exact Ht |].
    unfold round_robin. rewrite list_lookup_imap, Hq. cbn.
    unfold type_for. rewrite Ht. reflexivity. }
  destruct paths as [| q0 paths0] eqn:Epaths.
  - exists st, []. split; [| split; [constructor | split; [| exact Hrr]]].
    + apply script_of_main with (o := Exit 0).
      apply main_nothing_requested with (cfg := cfg);
        [exact Hm | discriminate | exact Hcfg |].
      right. split; [exists types; exact Hty | exact Hpa].
    + cbn. rewrite app_nil_r. reflexivity.
  - rewrite <- Epaths in *.
    destruct (check_and_reset_returns paths st Hex Htol) as (st1 & Hrun1 & Hext1).
    assert (Hw1 : fs_write (fs st1) = fs_write (fs st)) by apply Hext1.
    destruct (activate_returns types paths st1) as (st2 & Hrun2 & Hext2);
      [rewrite Hw1; exact Hact | exact Hne |].
    exists st2, (map (stop_event (fs st)) paths).
    split; [| split; [apply reset_events_of_stops | split; [| exact Hrr]]].
    + apply script_of_main with (o := Ret tt).
      rewrite (main_lifecycle prog vmid "pre-start" env st cfg types paths
                 Hm ltac:(discriminate) Hcfg Hty Hne Hpa
                 ltac:(rewrite Epaths; discriminate)).
      cbn [String.eqb Ascii.eqb Bool.eqb].
      unfold bind at 1. unfold bind at 1. rewrite Hrun1, Hrun2. reflexivity.
    + destruct Hext2 as [T2 _]. destruct Hext1 as [T1 _].
      rewrite T2, T1, <- app_assoc. reflexivity.
Qed.

(** The first loop of [pre-start] when the device after [pre] is missing. *)
Lemma check_and_reset_missing pre p post : forall st,
  Forall (fun q => fs_exists (fs st) q = true) pre ->
  fs_exists (fs st) p = false ->
  Forall (fun q => occupancy_file q <> p) pre ->
  exists o st' evs,
    check_and_reset (pre ++ p :: post) st = (o, st')
    /\ fatal o
    /\ trace st' = trace st ++ evs
    /\ Forall (sentinel_reset_of pre) evs.
Proof.
  induction pre as [| q pre IH]; intros st Hex Hp Hne.
  - exists (Exit 1%Z), (set_trace (trace st ++ [EvPrint (missing_message p)]) st),
      [EvPrint (missing_message p)].
    split; [| split; [left; reflexivity | split; [reflexivity |]]].
    + unfold check_and_reset. cbn [app for_].
      unfold bind at 1. unfold bind at 1. unfold bind at 1.
      unfold os_path_exists. rewrite Hp. reflexivity.
    + constructor; [exact I | constructor].
  - inversion Hex as [| ? ? Hq Hex']; subst.
    inversion Hne as [| ? ? Hqp Hne']; subst.
    assert (Hstep : forall r : unit,
              check_and_reset ((q :: pre) ++ p :: post) st
              = match stop q st with
                | (Ret _, st1) => check_and_reset (pre ++ p :: post) st1
                | (Exit c, st1) => (Exit c, st1)
                | (Raise e, st1) => (Raise e, st1)
                end).
    { intros _. unfold check_and_reset. cbn [app for_].
      unfold bind at 1. unfold bind at 1. unfold bind at 1.
      unfold os_path_exists. rewrite Hq. cbn [negb ret].
      destruct (stop q st) as [[[] | c | e] st1]; reflexivity. }
    rewrite (Hstep tt).
    destruct (stop_cases q st) as [(st1 & Hrun & Hext) | (e & Hrun)];
      rewrite Hrun.
    + destruct (IH st1) as (o & st2 & evs & Hrun2 & Hfat & Htr & Hev).
      * eapply Forall_impl; [exact Hex' |]. intros a Ha. apply Hext, Ha.
      * destruct (fs_exists (fs st1) p) eqn:E; [| reflexivity].
        destruct Hext as (_ & _ & _ & Hback).
        destruct (Hback p E) as [H | [d [H | []]]]; [congruence |].
        unfold stop_event in H.
        destruct (fs_write (fs st) (occupancy_file q) "0"); [discriminate |].
        injection H as H _. congruence.
      * exact Hne'.
      * exists o, st2, (stop_event (fs st) q :: evs).
        split; [exact Hrun2 | split; [exact Hfat | split]].
        -- destruct Hext as [T _]. rewrite Htr, T, <- app_assoc. reflexivity.
        -- constructor.
           ++ unfold stop_event, sentinel_reset_of.
              destruct (fs_write (fs st) (occupancy_file q) "0"); [exact I |].
              split; [reflexivity |]. exists q. split; [left |]; reflexivity.
           ++ eapply Forall_impl; [exact Hev |].
              intros [f d | l]; cbn; [| auto].
              intros (Hd & q' & Hin & Hf). split; [exact Hd |].
              exists q'. split; [right; exact Hin | exact Hf].
    + exists (Raise e), st, []. split; [reflexivity |].
      split; [right; exists e; reflexivity |].
      split; [rewrite app_nil_r; reflexivity | constructor].
Qed.

(** A list with a missing path splits at the first one. *)
Lemma first_missing f paths :
  Exists (fun q => fs_exists f q = false) paths ->
  exists pre p post,
    paths = pre ++ p :: post
    /\ Forall (fun q => fs_exists f q = true) pre
    /\ fs_exists f p = false.
Proof.
  induction paths as [| q paths IH]; intros H; [inversion H |].
  destruct (fs_exists f q) eqn:E.
  - inversion H as [? ? Hq | ? ? Hrest]; subst; [congruence |].
    destruct (IH Hrest) as (pre & p & post & -> & Hpre & Hp).
    exists (q :: pre), p, post. split; [reflexivity |].
    split; [constructor; assumption | exact Hp].
  - exists [], q, paths. split; [reflexivity |]. split; [constructor | exact E].
Qed.

(** C1, as the code has it: when a requested device path is missing, a
    [pre-start] ends in a fatal error without any activation; all it has
    written by then is the unoccupied sentinel, to devices requested before
    the first missing one. *)
Theorem pre_start_missing_device prog vmid env st cfg types paths :
  vmid <> "menu" ->
  parse_vm_config vmid env st = (Ret cfg, st) ->
  parse_vgpu_type_id cfg = inr types -> types <> [] ->
  parse_vgpu_bus_id cfg = inr paths ->
  Exists (fun q => fs_exists (fs st) q = false) paths ->
  exists pre p post o st' evs,
    paths = pre ++ p :: post
    /\ Forall (fun q => fs_exists (fs st) q = true) pre
    /\ fs_exists (fs st) p = false
    /\ script menu [prog; vmid; "pre-start"] env st = (o, st')
    /\ fatal o /\ exit_status o = 1%Z
    /\ trace st' = trace st ++ evs
    /\ Forall (sentinel_reset_of pre) evs.
Proof.
  intros Hm Hcfg Hty Hne Hpa Hmiss.
  destruct (first_missing _ _ Hmiss) as (pre & p & post & Hsplit & Hpre & Hp).
  destruct (check_and_reset_missing pre p post st Hpre Hp)
    as (o & st' & evs & Hrun & Hfat & Htr & Hev).
  { apply List.Forall_forall. intros q Hq.
    apply (occupancy_file_not_requested cfg paths); [exact Hpa | |];
      rewrite Hsplit; apply in_or_app; [right; left; reflexivity | left; exact Hq]. }
  exists pre, p, post, o, st', evs.
  split; [exact Hsplit | split; [exact Hpre | split; [exact Hp |]]].
  assert (Hmain : main menu [prog; vmid; "pre-start"] env st = (o, st')).
  { rewrite (main_lifecycle prog vmid "pre-start" env st cfg types paths
               Hm ltac:(discriminate) Hcfg Hty Hne Hpa
               ltac:(rewrite Hsplit; destruct pre; discriminate)).
    cbn [String.eqb Ascii.eqb Bool.eqb].
    unfold bind at 1. unfold bind at 1. rewrite <- Hsplit in Hrun. rewrite Hrun.
    destruct Hfat as [-> | [e ->]]; reflexivity. }
  split; [| split; [exact Hfat | split; [| split; [exact Htr | exact Hev]]]].
  - rewrite (script_of_main _ _ _ _ _ Hmain).
    destruct Hfat as [-> | [e ->]]; reflexivity.
  - destruct Hfat as [-> | [e ->]]; reflexivity.
Qed.

(** C6: a [post-stop] goes through every requested device, writes the
    unoccupied sentinel where the occupancy file can be written and prints
    its message where the path is missing or forbidden, and reports
    success. *)
Theorem post_stop_deallocates prog vmid env st cfg types paths :
  vmid <> "menu" ->
  parse_vm_config vmid env st = (Ret cfg, st) ->
  parse_vgpu_type_id cfg = inr types -> types <> [] ->
  parse_vgpu_bus_id cfg = inr paths -> paths <> [] ->
  Forall (fun q => tolerated (fs_write (fs st) (occupancy_file q) "0")) paths ->
  exists st',
    script menu [prog; vmid; "post-stop"] env st = (Exit 0, st')
    /\ trace st' = trace st ++ map (stop_event (fs st)) paths
    /\ forall q, In q paths ->
         (fs_write (fs st) (occupancy_file q) "0" = None
          /\ In (EvWrite (occupancy_file q) "0") (trace st'))
         \/ (fs_write (fs st) (occupancy_file q) "0" <> None
             /\ In (EvPrint "vGPU already de-allocated") (trace st')).
Proof.
  intros Hm Hcfg Hty Hne Hpa Hne' Htol.
  destruct (stop_all_returns paths st Htol) as (st' & Hrun & Hext).
  exists st'. split; [| split].
  - apply script_of_main with (o := Ret tt).
    rewrite (main_lifecycle prog vmid "post-stop" env st cfg types paths
               Hm ltac:(discriminate) Hcfg Hty Hne Hpa Hne').
    cbn [String.eqb Ascii.eqb Bool.eqb].
    unfold bind at 1. cbn [ret]. exact Hrun.
  - apply Hext.
  - intros q Hq. destruct Hext as [T _]. rewrite T.
    assert (Hin : In (stop_event (fs st) q) (map (stop_event (fs st)) paths))
      by (apply in_map; exact Hq).
    unfold stop_event in Hin.
    destruct (fs_write (fs st) (occupancy_file q) "0") eqn:E.
    + right. split; [discriminate |]. apply in_or_app. right. exact Hin.
    + left. split; [reflexivity |]. apply in_or_app. right. exact Hin.
Qed.

End Lifecycle.

(** Three devices and the two types 63 and 64: the activation writes are
    63, 64, 63. *)
Lemma pre_start_round_robin_witness :
  exists st' resets,
    script no_menu [script_name; "101"; "pre-start"] None
      (boot (host_fs (demo_host three_device_descriptor three_gpus)))
    = (Exit 0, st')
    /\ Forall reset_event resets
    /\ trace st'
       = [] ++ resets
         ++ [EvWrite "/sys/bus/pci/devices/0000:01:00.0/nvidia/current_vgpu_type" "63";
             EvWrite "/sys/bus/pci/devices/0000:03:00.0/nvidia/current_vgpu_type" "64";
             EvWrite "/sys/bus/pci/devices/0000:02:00.0/nvidia/current_vgpu_type" "63"]
    /\ forall i q, three_device_paths !! i = Some q ->
         exists t, ["63"; "64"] !! (i mod 2)%nat = Some t
                   /\ round_robin ["63"; "64"] three_device_paths !! i
                      = Some (occupancy_file q, t).
Proof.
  apply (pre_start_round_robin no_menu script_name "101" None
           (boot (host_fs (demo_host three_device_descriptor three_gpus)))
           three_device_config ["63"; "64"] three_device_paths).
  - discriminate.
  - vm_compute. reflexivity.
  - vm_compute. reflexivity.
  - discriminate.
  - vm_compute. reflexivity.
  - forall_compute.
  - forall_compute.
  - forall_compute.
Defined.

(** A [post-stop] for three devices of which [0000:03:00.0] is gone. *)
Lemma post_stop_deallocates_witness :
  exists st',
    script no_menu [script_name; "101"; "post-stop"] None
      (boot (host_fs (demo_host three_device_descriptor two_gpus)))
    = (Exit 0, st')
    /\ trace st'
       = [EvWrite "/sys/bus/pci/devices/0000:01:00.0/nvidia/current_vgpu_type" "0";
          EvPrint "vGPU already de-allocated";
          EvWrite "/sys/bus/pci/devices/0000:02:00.0/nvidia/current_vgpu_type" "0"].
Proof.
  destruct (post_stop_deallocates no_menu script_name "101" None
              (boot (host_fs (demo_host three_device_descriptor two_gpus)))
              three_device_config ["63"; "64"] three_device_paths)
    as (st' & Hrun & Htrace & _).
  - discriminate.
  - vm_compute. reflexivity.
  - vm_compute. reflexivity.
  - discriminate.
  - vm_compute. reflexivity.
  - discriminate.
  - forall_compute.
  - exists st'. split; [exact Hrun | exact Htrace].
Defined.

(** C1 as stated fails: with the second of three requested devices missing,
    the first one has already received a write when the handler gives up. *)
Lemma pre_start_writes_before_missing_device :
  let st := boot (host_fs (demo_host three_device_descriptor two_gpus)) in
  parse_vm_config "101" None st = (Ret three_device_config, st)
  /\ parse_vgpu_type_id three_device_config = inr ["63"; "64"]
  /\ parse_vgpu_bus_id three_device_config = inr three_device_paths
  /\ fs_exists (fs st) "/sys/bus/pci/devices/0000:03:00.0" = false
  /\ exists st',
       script no_menu [script_name; "101"; "pre-start"] None st = (Exit 1%Z, st')
       /\ writes (trace st')
          = [("/sys/bus/pci/devices/0000:01:00.0/nvidia/current_vgpu_type", "0")].
Proof.
  cbv zeta. repeat split; try (vm_compute; reflexivity).
  eexists. split; vm_compute; reflexivity.
Qed.

(** The same invocation: the handler gives up, and what it leaves behind
    are resets of devices requested before the missing one. *)
Lemma pre_start_missing_device_witness :
  exists pre p post o st' evs,
    three_device_paths = pre ++ p :: post
    /\ Forall (fun q =>
         fs_exists (fs (boot (host_fs (demo_host three_device_descriptor two_gpus)))) q
         = true) pre
    /\ fs_exists (fs (boot (host_fs (demo_host three_device_descriptor two_gpus)))) p
       = false
    /\ script no_menu [script_name; "101"; "pre-start"] None
         (boot (host_fs (demo_host three_device_descriptor two_gpus)))
       = (o, st')
    /\ fatal o /\ exit_status o = 1%Z
    /\ trace st' = [] ++ evs
    /\ Forall (sentinel_reset_of pre) evs.
Proof.
  apply (pre_start_missing_device no_menu script_name "101" None
           (boot (host_fs (demo_host three_device_descriptor two_gpus)))
           three_device_config ["63"; "64"] three_device_paths).
  - discriminate.
  - vm_compute. reflexivity.
  - vm_compute. reflexivity.
  - discriminate.
  - vm_compute. reflexivity.
  - apply Exists_cons_tl, Exists_cons_hd. vm_compute. reflexivity.
Defined.

(** ** Descriptors that lack a key *)

(** C7 at a descriptor without a [tags] line, and at one with a vGPU tag but
    no [args] line: the handler does not leave with status 0, the lookup of
    the missing key raises [KeyError]. *)
Theorem lifecycle_missing_key_raises :
  let st1 := boot (host_fs (demo_host plain_descriptor two_gpus)) in
  let st2 := boot (host_fs (demo_host tagged_descriptor two_gpus)) in
  script no_menu [script_name; "101"; "pre-start"] None st1
  = (Raise KeyError, st1)
  /\ script no_menu [script_name; "101"; "post-stop"] None st1
     = (Raise KeyError, st1)
  /\ script no_menu [script_name; "101"; "pre-start"] None st2
     = (Raise KeyError, st2)
  /\ exit_status (@Raise unit KeyError) = 1%Z.
Proof.
  cbv zeta. repeat split; vm_compute; reflexivity.
Qed.

(** With both keys in the descriptor the handler behaves as C7 says: an
    empty list of types or of device paths ends the invocation with status 0
    and leaves the state as it was. *)
Lemma lifecycle_nothing_requested menu prog vmid phase env st cfg tags :
  vmid <> "menu" ->
  phase <> "get_command" ->
  parse_vm_config vmid env st = (Ret cfg, st) ->
  dict_get "tags" cfg = Some tags ->
  parse_vgpu_type_id cfg = inr []
  \/ parse_vgpu_bus_id cfg = inr [] ->
  script menu [prog; vmid; phase] env st = (Exit 0%Z, st).
Proof.
  intros Hm Hg Hcfg Htags Hreq.
  apply script_of_main with (o := Exit 0%Z).
  apply main_nothing_requested with (cfg := cfg); try assumption.
  destruct Hreq as [H | H]; [left; exact H | right].
  split; [| exact H]. unfold parse_vgpu_type_id, getitem. rewrite Htags.
  eexists. reflexivity.
Qed.

(** ** The preview mode *)

(** C2 on a host where the free device [0000:01:00.0] offers type 63: the
    invocation prints nothing and ends with an uncaught [ValueError], raised
    where [get_available_gpu] unpacks the three results of [get_gpus] into
    two names. *)
Theorem get_command_raises :
  exists st',
    script no_menu [script_name; "101"; "get_command"; "63"] None
      (boot (host_fs (demo_host plain_descriptor two_gpus)))
    = (Raise ValueError, st')
    /\ trace st' = []
    /\ first_offering (Py.mem "63") (AVAILABLE_GPUS st') = Some "0000:01:00.0".
Proof.
  eexists. split; [vm_compute; reflexivity |].
  split; vm_compute; reflexivity.
Qed.

(** The defect is not tied to that host: in preview mode the script never
    gets as far as printing a command, whatever the host looks like. *)

Lemma quiet_bind {A B} (m : M A) (k : A -> M B) :
  quiet m -> (forall a, quiet (k a)) -> quiet (bind m k).
Proof.
  intros Hm Hk st o st' H. unfold bind in H.
  destruct (m st) as [[a | c0 | e] st1] eqn:E.
  - destruct (Hm _ _ _ E) as [_ T1]. destruct (Hk a _ _ _ H) as [N T2].
    split; [exact N | congruence].
  - destruct (Hm _ _ _ E) as [N _]. exfalso. exact (N c0 eq_refl).
  - injection H as <- <-. destruct (Hm _ _ _ E) as [_ T].
    split; [discriminate | exact T].
Qed.

Lemma quiet_for {A} (body : A -> M unit) l :
  (forall x, quiet (body x)) -> quiet (for_ l body).
Proof.
  intros Hb. induction l as [| x l IH].
  - intros st o st' H. injection H as <- <-. split; [discriminate | reflexivity].
  - cbn [for_]. apply quiet_bind; [apply Hb | intros _; exact IH].
Qed.

Lemma quiet_ret {A} (a : A) : quiet (ret a).
Proof.
  intros st o st' H. injection H as <- <-. split; [discriminate | reflexivity].
Qed.

Lemma quiet_lift {A} (r : exn + A) : quiet (lift r).
Proof.
  intros st o st' H. destruct r; injection H as <- <-;
    (split; [discriminate | reflexivity]).
Qed.

(** An update of one of the caches. *)
Lemma quiet_modify (f : state -> state) :
  (forall st, trace (f st) = trace st) -> quiet (modify f).
Proof.
  intros Hf st o st' H. injection H as <- <-. split; [discriminate | apply Hf].
Qed.

Lemma quiet_get_state : quiet get_state.
Proof.
  intros st o st' H. injection H as <- <-. split; [discriminate | reflexivity].
Qed.

Lemma quiet_read_file p : quiet (read_file p).
Proof. intros st. unfold read_file. apply quiet_lift. Qed.

Lemma quiet_available_append device vgpu_id :
  quiet (available_append device vgpu_id).
Proof.
  unfold available_append. apply quiet_bind; [apply quiet_get_state |].
  intros s. apply quiet_bind; [apply quiet_lift |].
  intros l. apply quiet_modify. reflexivity.
Qed.

Lemma quiet_scan_line device gpu_type : quiet (scan_line device gpu_type).
Proof.
  unfold scan_line.
  destruct (negb (Py.truthy gpu_type) || Py.startswith "ID" gpu_type);
    [apply quiet_ret |].
  apply quiet_bind; [apply quiet_modify; reflexivity |].
  intros _. apply quiet_available_append.
Qed.

Lemma quiet_scan_device device : quiet (scan_device device).
Proof.
  unfold scan_device. apply quiet_bind.
  - intros st o st' H. injection H as <- <-.
    split; [discriminate | reflexivity].
  - intros isd. destruct (negb isd); [apply quiet_ret |].
    apply quiet_bind; [apply quiet_read_file |].
    intros cur. destruct (negb (String.eqb cur ("0" +:+ nl))).
    + apply quiet_bind; [apply quiet_modify; reflexivity |].
      intros _. apply quiet_modify. reflexivity.
    + apply quiet_bind; [apply quiet_modify; reflexivity |].
      intros _. apply quiet_bind; [apply quiet_read_file |].
      intros text. apply quiet_for, quiet_scan_line.
Qed.

Lemma quiet_get_gpus : quiet get_gpus.
Proof.
  unfold get_gpus. apply quiet_bind; [apply quiet_get_state |].
  intros s. destruct (decide (GPU_TYPES s = ∅)); [| apply quiet_ret].
  apply quiet_bind; [intros st; unfold os_listdir; apply quiet_lift |].
  intros devices. apply quiet_bind; [apply quiet_for, quiet_scan_device |].
  intros _. apply quiet_bind; [apply quiet_get_state |].
  intros s'. apply quiet_ret.
Qed.

(** [get_available_gpu] always ends in an exception: the three results of
    [get_gpus] do not fit the two names they are unpacked into. *)
Lemma get_available_gpu_raises vgpu_type st :
  exists e st',
    get_available_gpu vgpu_type st = (Raise e, st')
    /\ trace st' = trace st.
Proof.
  unfold get_available_gpu. unfold bind at 1.
  destruct (get_gpus st) as [[[[a b] t] | c | e] st1] eqn:E;
    destruct (quiet_get_gpus _ _ _ E) as [N T].
  - exists ValueError, st1. split; [reflexivity | exact T].
  - exfalso. exact (N c eq_refl).
  - exists e, st1. split; [reflexivity | exact T].
Qed.

(** Loading a descriptor gives it back, or gives up with status 1, or
    raises. *)
Lemma parse_vm_config_cases vmid from_node st :
  (exists cfg, parse_vm_config vmid from_node st = (Ret cfg, st))
  \/ (exists st', parse_vm_config vmid from_node st = (Exit 1%Z, st')
                  /\ trace st'
                     = trace st ++ [EvPrint ("VM " +:+ vmid +:+ " not found")])
  \/ (exists e, parse_vm_config vmid from_node st = (Raise e, st)).
Proof.
  unfold parse_vm_config, bind, try_except, read_file. cbv zeta.
  destruct (fs_read (fs st) (descriptor_path vmid from_node)) as [e | t];
    cbn [lift raise ret].
  - destruct e;
      try (right; right; eexists; reflexivity).
    right. left. eexists. split; reflexivity.
  - destruct (parse_text t) as [e | cfg]; cbn [lift raise ret].
    + right. right. exists e. reflexivity.
    + left. exists cfg. reflexivity.
Qed.

Lemma get_command_never_succeeds menu prog vmid vgpu_name rest env st :
  vmid <> "menu" ->
  exists o st',
    script menu (prog :: vmid :: "get_command" :: vgpu_name :: rest) env st
    = (o, st')
    /\ fatal o
    /\ (trace st' = trace st
        \/ trace st' = trace st ++ [EvPrint ("VM " +:+ vmid +:+ " not found")]).
Proof.
  intros Hm. apply String.eqb_neq in Hm.
  assert (Hmain : exists o st',
    main menu (prog :: vmid :: "get_command" :: vgpu_name :: rest) env st
    = (o, st') /\ fatal o
    /\ (trace st' = trace st
        \/ trace st' = trace st ++ [EvPrint ("VM " +:+ vmid +:+ " not found")])).
  { unfold main. rewrite Hm. cbn [String.eqb Ascii.eqb Bool.eqb].
    unfold bind at 1. cbn [ret]. unfold bind at 1.
    destruct (parse_vm_config_cases vmid env st)
      as [[cfg H] | [(st' & H & Ht) | [e H]]]; rewrite H.
    - cbn [hd]. unfold get_command. unfold bind at 1.
      destruct (get_available_gpu_raises vgpu_name st) as (e & st' & Hg & Ht).
      rewrite Hg. exists (Raise e), st'.
      split; [reflexivity |]. split; [right; exists e; reflexivity |].
      left. exact Ht.
    - exists (Exit 1%Z), st'. split; [reflexivity |].
      split; [left; reflexivity | right; exact Ht].
    - exists (Raise e), st. split; [reflexivity |].
      split; [right; exists e; reflexivity | left; reflexivity]. }
  destruct Hmain as (o & st' & Hrun & Hfat & Htr).
  exists o, st'. split; [| split; assumption].
  rewrite (script_of_main _ _ _ _ _ _ Hrun).
  destruct Hfat as [-> | [e ->]]; reflexivity.
Qed.

(** ** Assignment *)

Lemma bind_ret_inv {A B} (m : M A) (k : A -> M B) st b st' :
  bind m k st = (Ret b, st') ->
  exists a st1, m st = (Ret a, st1) /\ k a st1 = (Ret b, st').
Proof.
  unfold bind. destruct (m st) as [[a | c | e] st1]; try discriminate.
  intros H. exists a, st1. split; [reflexivity | exact H].
Qed.

Lemma same_world_refl st : same_world st st.
Proof. repeat split. Qed.

Lemma same_world_trans st1 st2 st3 :
  same_world st1 st2 -> same_world st2 st3 -> same_world st1 st3.
Proof.
  intros (A1 & B1 & C1 & D1 & E1) (A2 & B2 & C2 & D2 & E2).
  repeat split; congruence.
Qed.

Lemma same_world_set_VMS v st : same_world st (set_VMS v st).
Proof. repeat split. Qed.

Lemma for_same_world {A} (body : A -> M unit) (l : list A) :
  (forall x st st', body x st = (Ret tt, st') -> same_world st st') ->
  forall st st', for_ l body st = (Ret tt, st') -> same_world st st'.
Proof.
  intros Hbody. induction l as [| x l IH]; intros st st' H.
  - injection H as <-. apply same_world_refl.
  - cbn [for_] in H. apply bind_ret_inv in H.
    destruct H as ([] & st1 & H1 & H2).
    eapply same_world_trans; [exact (Hbody _ _ _ H1) | exact (IH _ _ H2)].
Qed.

(** Loading a descriptor changes nothing when it succeeds. *)
Lemma parse_vm_config_ret vmid from_node st cfg st' :
  parse_vm_config vmid from_node st = (Ret cfg, st') -> st' = st.
Proof.
  unfold parse_vm_config. intros H. apply bind_ret_inv in H.
  destruct H as (text & st1 & H1 & H2).
  unfold try_except, read_file in H1.
  match type of H1 with
  | context [fs_read ?f ?p] => destruct (fs_read f p) as [e | t]
  end; cbn in H1.
  - destruct e; discriminate H1.
  - injection H1 as <- <-.
    destruct (parse_text t); cbn in H2; [discriminate |].
    injection H2 as _ <-. reflexivity.
Qed.

(** [get_vms] fills the cache and touches nothing else. *)
Lemma get_vms_ret st vms st1 :
  get_vms st = (Ret vms, st1) -> VMS st1 = vms /\ same_world st st1.
Proof.
  unfold get_vms. unfold bind at 1. cbn [get_state].
  destruct (VMS st) as [| v0 vs] eqn:E.
  - intros H. apply bind_ret_inv in H. destruct H as (nodes & sa & Ha & H).
    apply bind_ret_inv in H. destruct H as ([] & sb & Hb & H).
    apply bind_ret_inv in H. destruct H as ([] & sc & Hc & H).
    apply bind_ret_inv in H. destruct H as (sd & se & Hd & H).
    injection Hd as <- <-. injection H as <- <-.
    split; [reflexivity |].
    assert (Sa : sa = st).
    { unfold os_listdir in Ha.
      destruct (fs_listdir (fs st) "/etc/pve/nodes"); cbn in Ha;
        [discriminate | injection Ha as _ <-; reflexivity]. }
    subst sa. injection Hc as <-.
    eapply same_world_trans; [| apply same_world_set_VMS].
    revert Hb. apply for_same_world. clear.
    intros node st st' H.
    apply bind_ret_inv in H. destruct H as (isd & s1 & H1 & H).
    injection H1 as <- <-.
    destruct (fs_isdir (fs st) _); cbn [negb] in H;
      [| injection H as <-; apply same_world_refl].
    apply bind_ret_inv in H. destruct H as (files & s2 & H2 & H).
    assert (S2 : s2 = st).
    { unfold os_listdir in H2.
      match type of H2 with
      | context [fs_listdir ?f ?p] => destruct (fs_listdir f p)
      end; cbn in H2; [discriminate | injection H2 as _ <-; reflexivity]. }
    subst s2. revert H. apply for_same_world. clear.
    intros vm_file st st' H.
    destruct (Py.endswith ".conf" vm_file);
      [| injection H as <-; apply same_world_refl].
    apply bind_ret_inv in H. destruct H as (cfg & s1 & H1 & H).
    apply parse_vm_config_ret in H1. subst s1.
    injection H as <-. apply same_world_set_VMS.
  - intros H. injection H as <- <-. split; [exact E | apply same_world_refl].
Qed.

(** Once filled, the cache answers. *)
Lemma get_vms_cached st :
  VMS st <> [] -> get_vms st = (Ret (VMS st), st).
Proof.
  intros H. unfold get_vms. unfold bind at 1. cbn [get_state].
  destruct (VMS st); [congruence | reflexivity].
Qed.


(** [assign_gpu] when the device is attached already. *)
Lemma assign_gpu_already vmid node gpu gpu_type st vms st1 cfg :
  get_vms st = (Ret vms, st1) ->
  find_config vmid vms = Some cfg ->
  cfg <> [] ->
  assigned_config cfg gpu gpu_type = inr None ->
  assign_gpu vmid node gpu gpu_type st = (Ret tt, st1).
Proof.
  intros Hvms Hfind Hne Has.
  unfold assign_gpu. unfold bind at 1. rewrite Hvms, Hfind.
  destruct cfg as [| kv cfg]; [congruence |].
  unfold assigned_config in Has.
  destruct (Py.mem (device_token gpu) (arguments_of (kv :: cfg)));
    [reflexivity |].
  destruct (extended_arguments (kv :: cfg) gpu); discriminate.
Qed.

Lemma find_config_replace vmid c1 c2 l :
  find_config vmid l = Some c1 ->
  find_config vmid (replace_config vmid c2 l) = Some c2.
Proof.
  induction l as [| [[v n] c] l IH]; [discriminate |].
  cbn [find_config replace_config].
  destruct (String.eqb v vmid) eqn:E; cbn [find_config]; rewrite E; auto.
Qed.

(** The tail of [assign_gpu], from line 155 on. *)
Lemma assign_gpu_tail vmid node gpu_type cfg arguments st1 :
  find_config vmid (VMS st1) = Some cfg ->
  fs_write (fs st1) (config_path node vmid)
    (serialize (finish_config cfg arguments gpu_type)) = None ->
  exists st',
    bind (shared_setitem vmid "args" (Py.join " " arguments) cfg)
      (fun cfg0 =>
         bind (if negb (present "hookscript" cfg0)
               then shared_setitem vmid "hookscript" hook_path cfg0
               else ret cfg0)
           (fun cfg1 =>
              bind (shared_setitem vmid "tags"
                      (Py.join ";" (Py.sorted (elements
                         ({["nvidia-" +:+ gpu_type]} ∪ tags_of cfg1)))) cfg1)
                (fun cfg2 =>
                   bind (write_file (config_path node vmid) (serialize cfg2))
                     (fun _ => @sys_exit unit 0%Z)))) st1
    = (Exit 0%Z, st')
    /\ trace st'
       = trace st1 ++ [EvWrite (config_path node vmid)
                         (serialize (finish_config cfg arguments gpu_type))]
    /\ fs st' = fs_store (config_path node vmid)
                  (serialize (finish_config cfg arguments gpu_type)) (fs st1)
    /\ find_config vmid (VMS st')
       = Some (finish_config cfg arguments gpu_type).
Proof.
  intros Hfind Hw. unfold finish_config in *. cbv zeta in *.
  unfold bind at 1. unfold shared_setitem at 1. unfold bind at 1.
  cbn [modify ret].
  set (cfgA := dict_set "args" (Py.join " " arguments) cfg) in *.
  unfold bind at 1.
  destruct (negb (present "hookscript" cfgA)).
  - unfold shared_setitem at 1. unfold bind at 1. cbn [modify ret].
    set (cfgB := dict_set "hookscript" hook_path cfgA) in *.
    unfold bind at 1. unfold shared_setitem at 1. unfold bind at 1.
    cbn [modify ret].
    unfold bind at 1. unfold write_file.
    cbn [fs set_VMS]. rewrite Hw. unfold sys_exit.
    eexists. split; [reflexivity |].
    cbn [trace fs set_trace set_fs VMS set_VMS].
    split; [reflexivity |]. split; [reflexivity |].
    repeat (eapply find_config_replace). exact Hfind.
  - cbn [ret].
    unfold bind at 1. unfold shared_setitem at 1. unfold bind at 1.
    cbn [modify ret].
    unfold bind at 1. unfold write_file.
    cbn [fs set_VMS]. rewrite Hw. unfold sys_exit.
    eexists. split; [reflexivity |].
    cbn [trace fs set_trace set_fs VMS set_VMS].
    split; [reflexivity |]. split; [reflexivity |].
    repeat (eapply find_config_replace). exact Hfind.
Qed.

(** [assign_gpu] when it has something to write. *)
Lemma assign_gpu_writes vmid node gpu gpu_type st vms st1 cfg cfg' :
  get_vms st = (Ret vms, st1) ->
  find_config vmid vms = Some cfg ->
  cfg <> [] ->
  assigned_config cfg gpu gpu_type = inr (Some cfg') ->
  fs_write (fs st1) (config_path node vmid) (serialize cfg') = None ->
  exists st',
    assign_gpu vmid node gpu gpu_type st = (Exit 0%Z, st')
    /\ trace st'
       = trace st1 ++ [EvWrite (config_path node vmid) (serialize cfg')]
    /\ fs st' = fs_store (config_path node vmid) (serialize cfg') (fs st1)
    /\ find_config vmid (VMS st') = Some cfg'.
Proof.
  intros Hvms Hfind Hne Has Hw.
  assert (HV : VMS st1 = vms) by (apply (get_vms_ret _ _ _ Hvms)).
  unfold assign_gpu. unfold bind at 1. rewrite Hvms, Hfind.
  destruct cfg as [| kv cfg]; [congruence |].
  unfold assigned_config in Has.
  destruct (Py.mem (device_token gpu) (arguments_of (kv :: cfg)));
    [discriminate |].
  destruct (extended_arguments (kv :: cfg) gpu) as [e | arguments] eqn:Eext;
    [discriminate |].
  assert (Hcfg' : finish_config (kv :: cfg) arguments gpu_type = cfg')
    by congruence.
  rewrite <- Hcfg' in *. rewrite <- HV in Hfind.
  unfold extended_arguments in Eext. cbv zeta in Eext.
  destruct (negb (Py.mem "-uuid"
      (arguments_of (kv :: cfg) ++ ["-device " +:+ device_token gpu]))).
  - destruct (getitem "smbios1" (kv :: cfg)) as [e | smbios1] eqn:E1;
      [discriminate |].
    destruct (parse_line_config smbios1 "uuid") as [e | uuid] eqn:E2;
      [discriminate |].
    assert (Ha : (arguments_of (kv :: cfg)
                  ++ ["-device " +:+ device_token gpu])
                 ++ ["-uuid " +:+ str_of uuid] = arguments)
      by congruence.
    unfold bind at 1. unfold bind at 1. cbn [lift ret].
    unfold bind at 1. rewrite E2. cbn [lift ret].
    rewrite <- Ha in *.
    apply assign_gpu_tail; assumption.
  - assert (Ha : arguments_of (kv :: cfg)
                 ++ ["-device " +:+ device_token gpu] = arguments)
      by congruence.
    unfold bind at 1. cbn [ret]. rewrite <- Ha in *.
    apply assign_gpu_tail; assumption.
Qed.

Lemma dict_set_absent {V} k (v : V) d :
  dict_get k d = None -> dict_set k v d = d ++ [(k, v)].
Proof.
  induction d as [| [k' v'] d IH]; [reflexivity |].
  cbn [dict_get dict_set]. destruct (String.eqb k k'); [discriminate |].
  intros H. rewrite (IH H). reflexivity.
Qed.

Lemma dict_get_set {V} k' k (v : V) d :
  dict_get k' (dict_set k v d)
  = if String.eqb k' k then Some v else dict_get k' d.
Proof.
  induction d as [| [k0 v0] d IH]; [reflexivity |].
  cbn [dict_set]. destruct (String.eqb k k0) eqn:E.
  - apply String.eqb_eq in E. subst k0. cbn [dict_get].
    destruct (String.eqb k' k); reflexivity.
  - cbn [dict_get]. rewrite IH.
    destruct (String.eqb k' k0) eqn:E0; [| reflexivity].
    apply String.eqb_eq in E0. subst k0.
    rewrite String.eqb_sym, E. reflexivity.
Qed.

Lemma dict_get_app {V} k (d1 d2 : dict V) :
  dict_get k (d1 ++ d2)
  = match dict_get k d1 with
    | Some v => Some v
    | None => dict_get k d2
    end.
Proof.
  induction d1 as [| [k' v'] d1 IH]; [reflexivity |].
  cbn [dict_get app]. destruct (String.eqb k k'); [reflexivity | exact IH].
Qed.

Lemma serialize_app d1 d2 :
  serialize (d1 ++ d2) = serialize d1 +:+ serialize d2.
Proof.
  induction d1 as [| [k v] d1 IH]; [reflexivity |].
  cbn [app serialize]. rewrite IH, !append_assoc. reflexivity.
Qed.

(** C9: assigning device [0000:02:00.0] with type 64 to a VM whose
    descriptor has [uuid=1234] in [smbios1] and neither [args], [tags] nor
    [hookscript] writes the descriptor with the three keys added: the device
    and the uuid in [args], the script's own path as [hookscript], and
    [nvidia-64] as [tags]. *)
Theorem assign_gpu_first_assignment vmid node st vms st1 cfg smbios1 :
  get_vms st = (Ret vms, st1) ->
  find_config vmid vms = Some cfg ->
  dict_get "smbios1" cfg = Some smbios1 ->
  parse_line_config smbios1 "uuid" = inr (Some "1234") ->
  dict_get "args" cfg = None ->
  dict_get "tags" cfg = None ->
  dict_get "hookscript" cfg = None ->
  fs_write (fs st1) (config_path node vmid)
    (serialize (cfg ++ first_assignment)) = None ->
  exists st',
    assign_gpu vmid node "0000:02:00.0" "64" st = (Exit 0%Z, st')
    /\ trace st'
       = trace st1 ++ [EvWrite (config_path node vmid)
                         (serialize (cfg ++ first_assignment))]
    /\ fs_read (fs st') (config_path node vmid)
       = inr (serialize (cfg ++ first_assignment))
    /\ serialize (cfg ++ first_assignment)
       = serialize cfg
         +:+ "args: -device vfio-pci,sysfsdev=/sys/bus/pci/devices/0000:02:00.0 -uuid 1234"
         +:+ nl +:+ "hookscript: local:snippets/nvidia_allocator.py" +:+ nl
         +:+ "tags: nvidia-64" +:+ nl
    /\ dict_get "args" (cfg ++ first_assignment)
       = Some "-device vfio-pci,sysfsdev=/sys/bus/pci/devices/0000:02:00.0 -uuid 1234"
    /\ dict_get "tags" (cfg ++ first_assignment) = Some "nvidia-64"
    /\ dict_get "hookscript" (cfg ++ first_assignment) = Some hook_path.
Proof.
  intros Hvms Hfind Hsm Huuid Hargs Htags Hhook Hw.
  assert (Hne : cfg <> []) by (destruct cfg; [discriminate | discriminate]).
  assert (Has : assigned_config cfg "0000:02:00.0" "64"
                = inr (Some (cfg ++ first_assignment))).
  { assert (Ha : arguments_of cfg = []).
    { unfold arguments_of, present. rewrite Hargs. reflexivity. }
    unfold assigned_config, extended_arguments. rewrite Ha.
    cbn [Py.mem existsb app]. cbv zeta.
    replace (("-uuid" =? "-device " +:+ device_token "0000:02:00.0")%string)
      with false by (vm_compute; reflexivity).
    cbn [orb negb]. unfold getitem. rewrite Hsm, Huuid.
    unfold finish_config. cbv zeta.
    rewrite (dict_set_absent "args" _ cfg Hargs).
    assert (Hh : dict_get "hookscript" (cfg ++ [("args",
              Py.join " " ["-device " +:+ device_token "0000:02:00.0";
                           "-uuid " +:+ str_of (Some "1234")])]) = None).
    { rewrite dict_get_app, Hhook. reflexivity. }
    unfold present. rewrite !Hh. cbn [negb].
    rewrite (dict_set_absent "hookscript" _ _ Hh).
    assert (Ht : forall a h, dict_get "tags" ((cfg ++ [("args", a)])
                               ++ [("hookscript", h)]) = None).
    { intros a h. rewrite !dict_get_app, Htags. reflexivity. }
    unfold tags_of, present. rewrite Ht.
    rewrite (dict_set_absent "tags" _ _ (Ht _ _)).
    rewrite (right_id_L ∅ (∪)), elements_singleton.
    rewrite <- !app_assoc. reflexivity. }
  destruct (assign_gpu_writes vmid node "0000:02:00.0" "64" st vms st1 cfg _
              Hvms Hfind Hne Has Hw) as (st' & Hrun & Htr & Hfs & _).
  exists st'. split; [exact Hrun |]. split; [exact Htr |]. split.
  { rewrite Hfs. cbn [fs_store fs_read]. rewrite String.eqb_refl. reflexivity. }
  split.
  { rewrite serialize_app. reflexivity. }
  rewrite !dict_get_app, Hargs, Htags, Hhook. repeat split.
Qed.

(** The scenario of C9 on the demo host. *)
Lemma assign_gpu_first_assignment_witness :
  exists st',
    assign_gpu "101" "pve1" "0000:02:00.0" "64"
      (boot (host_fs (demo_host plain_descriptor two_gpus)))
    = (Exit 0%Z, st')
    /\ fs_read (fs st') "/etc/pve/nodes/pve1/qemu-server/101.conf"
       = inr ("name: vm" +:+ nl +:+ "smbios1: uuid=1234" +:+ nl
              +:+ "args: -device vfio-pci,sysfsdev=/sys/bus/pci/devices/0000:02:00.0 -uuid 1234"
              +:+ nl +:+ "hookscript: local:snippets/nvidia_allocator.py" +:+ nl
              +:+ "tags: nvidia-64" +:+ nl).
Proof.
  destruct (assign_gpu_first_assignment "101" "pve1"
              (boot (host_fs (demo_host plain_descriptor two_gpus)))
              [("101", "pve1", plain_config)]
              (set_VMS [("101", "pve1", plain_config)]
                 (boot (host_fs (demo_host plain_descriptor two_gpus))))
              plain_config "uuid=1234")
    as (st' & Hrun & _ & Hread & _).
  - vm_compute. reflexivity.
  - reflexivity.
  - reflexivity.
  - reflexivity.
  - reflexivity.
  - reflexivity.
  - reflexivity.
  - vm_compute. reflexivity.
  - exists st'. split; [exact Hrun | exact Hread].
Defined.

(** *** The order of [VMS] *)

Lemma vm_le_total a b : vm_le a b = false -> vm_le b a = true.
Proof.
  unfold vm_le. rewrite (String.compare_antisym b.1.1 a.1.1).
  destruct (String.compare a.1.1 b.1.1) eqn:E; cbn [CompOpp];
    try discriminate; try reflexivity.
  intros H. destruct (String.leb_total a.1.2 b.1.2) as [H' | H'];
    [congruence | exact H'].
Qed.

Lemma insert_vm_sorted x l : vms_sorted l -> vms_sorted (insert_vm x l).
Proof.
  unfold vms_sorted. induction l as [| y l IH]; intros Hs.
  - repeat constructor.
  - cbn [insert_vm]. destruct (vm_le y x) eqn:E.
    + apply Sorted_inv in Hs. destruct Hs as [Hs Hhd].
      constructor; [exact (IH Hs) |].
      destruct l as [| z l]; cbn [insert_vm]; [constructor; exact E |].
      destruct (vm_le z x); constructor; [| exact E].
      inversion Hhd; assumption.
    + constructor; [exact Hs |]. constructor. apply vm_le_total, E.
Qed.

Lemma sort_vms_sorted l : vms_sorted (sort_vms l).
Proof.
  unfold sort_vms.
  assert (H : forall acc, vms_sorted acc ->
            vms_sorted (fold_left (fun acc x => insert_vm x acc) l acc)).
  { induction l as [| x l IH]; intros acc Hacc; [exact Hacc |].
    cbn [fold_left]. apply IH, insert_vm_sorted, Hacc. }
  apply H. constructor.
Qed.

(** A first call of [get_vms] returns the list in order. *)
Lemma get_vms_sorted st vms st1 :
  VMS st = [] -> get_vms st = (Ret vms, st1) -> vms_sorted vms.
Proof.
  intros E. unfold get_vms. unfold bind at 1. cbn [get_state]. rewrite E.
  intros H. apply bind_ret_inv in H. destruct H as (nodes & sa & _ & H).
  apply bind_ret_inv in H. destruct H as ([] & sb & _ & H).
  apply bind_ret_inv in H. destruct H as ([] & sc & Hc & H).
  apply bind_ret_inv in H. destruct H as (sd & se & Hd & H).
  injection Hd as <- <-. injection H as <- _. injection Hc as <-.
  apply sort_vms_sorted.
Qed.

Lemma find_config_first vmid before owner cfg after :
  Forall (fun v : vm => v.1.1 <> vmid) before ->
  find_config vmid (before ++ (vmid, owner, cfg) :: after) = Some cfg.
Proof.
  induction before as [| [[v n] c] before IH]; intros H.
  - cbn [app find_config]. rewrite String.eqb_refl. reflexivity.
  - inversion H as [| ? ? Hv Hrest]; subst. cbn [app find_config].
    cbn [fst] in Hv. apply String.eqb_neq in Hv. rewrite Hv. exact (IH Hrest).
Qed.

(** C10: [assign_gpu] takes the descriptor of the first entry of the sorted
    list whose vmid matches, whichever node [owner] that entry belongs to,
    and writes the result to the path made from the [node] it was called
    with. *)
Theorem assign_gpu_lookup_by_vmid vmid node gpu gpu_type st st1 before owner
    cfg after cfg' :
  get_vms st = (Ret (before ++ (vmid, owner, cfg) :: after), st1) ->
  Forall (fun v : vm => v.1.1 <> vmid) before ->
  cfg <> [] ->
  assigned_config cfg gpu gpu_type = inr (Some cfg') ->
  fs_write (fs st1) (config_path node vmid) (serialize cfg') = None ->
  exists st',
    assign_gpu vmid node gpu gpu_type st = (Exit 0%Z, st')
    /\ trace st' = trace st ++ [EvWrite (config_path node vmid) (serialize cfg')]
    /\ fs_read (fs st') (config_path node vmid) = inr (serialize cfg')
    /\ (forall p, p <> config_path node vmid ->
          fs_read (fs st') p = fs_read (fs st) p)
    /\ (VMS st = [] -> vms_sorted (before ++ (vmid, owner, cfg) :: after)).
Proof.
  intros Hvms Hbefore Hne Has Hw.
  pose proof (find_config_first vmid before owner cfg after Hbefore) as Hfind.
  destruct (get_vms_ret _ _ _ Hvms) as (_ & Hfs & Htr & _).
  destruct (assign_gpu_writes vmid node gpu gpu_type st _ st1 cfg cfg'
              Hvms Hfind Hne Has Hw) as (st' & Hrun & Htr' & Hfs' & _).
  exists st'. split; [exact Hrun |]. split; [congruence |].
  split; [| split].
  - rewrite Hfs'. cbn [fs_store fs_read]. rewrite String.eqb_refl. reflexivity.
  - intros p Hp. rewrite Hfs', Hfs. cbn [fs_store fs_read].
    apply String.eqb_neq in Hp. rewrite Hp. reflexivity.
  - intros E. exact (get_vms_sorted _ _ _ E Hvms).
Qed.

(** VM 101 exists on [pve1] and on [pve2]: an assignment made for [pve2]
    replaces the descriptor of [pve2] by the one of [pve1], extended. *)
Lemma assign_gpu_lookup_by_vmid_witness :
  let st := boot (host_fs (two_node_host plain_descriptor tagged_descriptor)) in
  fs_read (fs st) (config_path "pve1" "101") = inr plain_descriptor
  /\ fs_read (fs st) (config_path "pve2" "101") = inr tagged_descriptor
  /\ exists st',
       assign_gpu "101" "pve2" "0000:02:00.0" "64" st = (Exit 0%Z, st')
       /\ fs_read (fs st') (config_path "pve2" "101")
          = inr (plain_descriptor +:+ serialize first_assignment)
       /\ fs_read (fs st') (config_path "pve1" "101") = inr plain_descriptor.
Proof.
  cbv zeta. split; [reflexivity |]. split; [reflexivity |].
  destruct (assign_gpu_lookup_by_vmid "101" "pve2" "0000:02:00.0" "64"
              (boot (host_fs (two_node_host plain_descriptor tagged_descriptor)))
              (set_VMS [("101", "pve1", plain_config);
                        ("101", "pve2", tagged_config)]
                 (boot (host_fs (two_node_host plain_descriptor
                                   tagged_descriptor))))
              [] "pve1" plain_config [("101", "pve2", tagged_config)]
              (plain_config ++ first_assignment))
    as (st' & Hrun & _ & Hread & Hother & _).
  - vm_compute. reflexivity.
  - constructor.
  - discriminate.
  - vm_compute. reflexivity.
  - vm_compute. reflexivity.
  - exists st'. split; [exact Hrun |]. split; [exact Hread |].
    rewrite Hother; [reflexivity | discriminate].
Defined.


(** Two processes, one after the other: the first assignment writes the
    descriptor and exits, the second one reads it back, finds the device and
    writes nothing. *)
Lemma assign_gpu_twice_across_processes :
  exists st1 st2,
    assign_gpu "101" "pve1" "0000:02:00.0" "64"
      (boot (host_fs (demo_host plain_descriptor two_gpus))) = (Exit 0%Z, st1)
    /\ assign_gpu "101" "pve1" "0000:02:00.0" "64" (boot (fs st1))
       = (Ret tt, st2)
    /\ trace st2 = []
    /\ fs st2 = fs st1.
Proof.
  eexists. eexists.
  split; [vm_compute; reflexivity |].
  split; [vm_compute; reflexivity |].
  split; vm_compute; reflexivity.
Qed.

(** ** Descriptor text *)

Lemma append_cons c (a b : string) : String c a +:+ b = String c (a +:+ b).
Proof. reflexivity. Qed.

Lemma splitlines_line l rest :
  Py.all_chars (fun c => negb (Py.is_linebreak c)) l = true ->
  Py.splitlines (l +:+ nl +:+ rest) = l :: Py.splitlines rest.
Proof.
  induction l as [| c l IH]; intros H.
  - reflexivity.
  - cbn [Py.all_chars] in H. apply andb_true_iff in H. destruct H as [Hc Hl].
    apply negb_true_iff in Hc.
    rewrite append_cons. cbn [Py.splitlines]. rewrite Hc, (IH Hl). reflexivity.
Qed.

Lemma contains_cons x c s :
  Py.contains x (String c s) = false ->
  String.prefix x (String c s) = false /\ Py.contains x s = false.
Proof.
  cbn [Py.contains]. intros H. apply orb_false_iff in H. exact H.
Qed.

(** A text without the separator is one piece. *)
Lemma split_no_separator sep v :
  Py.contains sep v = false -> Py.split_go sep 0 v = [v].
Proof.
  induction v as [| c v IH]; intros H; [reflexivity |].
  apply contains_cons in H. destruct H as [Hp Hv].
  cbn [Py.split_go]. rewrite Hp, (IH Hv). reflexivity.
Qed.

(** The first separator ends the first piece. *)
Lemma split_at_separator k rest :
  Py.contains ": " k = false ->
  Py.split_go ": " 0 (k +:+ ": " +:+ rest) = k :: Py.split_go ": " 0 rest.
Proof.
  induction k as [| c k IH]; intros H.
  - destruct rest; reflexivity.
  - apply contains_cons in H. destruct H as [Hp Hk].
    rewrite append_cons. cbn [Py.split_go].
    assert (Hp' : String.prefix ": " (String c (k +:+ ": " +:+ rest)) = false).
    { cbn [String.prefix] in *. destruct (ascii_dec ":" c); [| reflexivity].
      destruct k as [| d k]; [reflexivity |].
      rewrite append_cons. cbn [String.prefix] in *.
      destruct (ascii_dec " " d); [| reflexivity].
      destruct k; discriminate Hp. }
    rewrite Hp', (IH Hk). reflexivity.
Qed.

Lemma split_entry k v :
  Py.contains ": " k = false -> Py.contains ": " v = false ->
  Py.split ": " (k +:+ ": " +:+ v) = [k; v].
Proof.
  intros Hk Hv. unfold Py.split.
  rewrite (split_at_separator k v Hk), (split_no_separator _ v Hv). reflexivity.
Qed.

Lemma prefix_empty s : String.prefix "" s = true.
Proof. destruct s; reflexivity. Qed.

Lemma entry_line_kept k v :
  Py.startswith "#" k = false -> Py.startswith "[" k = false ->
  skipped_line (k +:+ ": " +:+ v) = false.
Proof.
  unfold skipped_line, Py.truthy, Py.startswith.
  destruct k as [| c k]; [reflexivity |].
  rewrite append_cons. cbn [String.prefix String.eqb negb orb].
  rewrite !prefix_empty. intros -> ->. reflexivity.
Qed.

Lemma dict_get_absent {V} k (d : dict V) :
  ~ In k (dict_keys d) -> dict_get k d = None.
Proof.
  induction d as [| [k' v'] d IH]; intros H; [reflexivity |].
  cbn [dict_get]. destruct (String.eqb k k') eqn:E.
  - apply String.eqb_eq in E. subst k'. exfalso. apply H. left. reflexivity.
  - apply IH. intros Hin. apply H. right. exact Hin.
Qed.

(** The loop of [parse_vm_config] over the lines [serialize] writes. *)
Lemma parse_lines_serialize entries : forall acc,
  List.NoDup (dict_keys (acc ++ entries)) ->
  Forall well_formed_entry entries ->
  parse_lines (Py.splitlines (serialize entries)) acc = inr (acc ++ entries).
Proof.
  induction entries as [| [k v] entries IH]; intros acc Hnd Hwf.
  - rewrite app_nil_r. reflexivity.
  - inversion Hwf as [| ? ? Hkv Hrest]; subst.
    destruct Hkv as ((Hk1 & Hk2) & (Hv1 & Hv2) & Hc & Hs). cbn [fst snd] in *.
    cbn [serialize].
    replace (k +:+ ": " +:+ v +:+ nl +:+ serialize entries)
      with ((k +:+ ": " +:+ v) +:+ nl +:+ serialize entries)
      by (rewrite !append_assoc; reflexivity).
    rewrite splitlines_line.
    2:{ rewrite !all_chars_app, Hk2, Hv2. reflexivity. }
    cbn [parse_lines]. rewrite (entry_line_kept k v Hc Hs).
    rewrite (split_entry k v Hk1 Hv1). cbn [unpack2].
    assert (Hfresh : dict_get k acc = None).
    { apply dict_get_absent. intros Hin.
      unfold dict_keys in Hnd. rewrite map_app in Hnd. cbn [map fst] in Hnd.
      apply NoDup_remove_2 in Hnd. apply Hnd. apply in_or_app. left. exact Hin. }
    rewrite (dict_set_absent k v acc Hfresh).
    rewrite (IH (acc ++ [(k, v)])); [| | exact Hrest].
    + rewrite <- app_assoc. reflexivity.
    + rewrite <- app_assoc. exact Hnd.
Qed.

(** C5, as the code has it: a descriptor text made of [key: value] lines
    only, each ended by a newline, with distinct keys and with keys and
    values free of the separator and of line boundaries, is parsed and
    written back unchanged. *)
Theorem serialize_parse_roundtrip (entries : config) :
  List.NoDup (dict_keys entries) ->
  Forall well_formed_entry entries ->
  exists cfg,
    parse_text (serialize entries) = inr cfg
    /\ cfg = entries
    /\ serialize cfg = serialize entries.
Proof.
  intros Hnd Hwf. exists entries. split; [| split; reflexivity].
  unfold parse_text. exact (parse_lines_serialize entries [] Hnd Hwf).
Qed.

(** The descriptor an assignment leaves behind reads back as written. *)
Lemma serialize_parse_roundtrip_witness :
  exists cfg,
    parse_text (plain_descriptor +:+ serialize first_assignment) = inr cfg
    /\ cfg = plain_config ++ first_assignment
    /\ serialize cfg = plain_descriptor +:+ serialize first_assignment.
Proof.
  apply (serialize_parse_roundtrip (plain_config ++ first_assignment)).
  - repeat (constructor; [vm_compute; intuition discriminate |]). constructor.
  - repeat (constructor; [vm_compute; auto |]). constructor.
Defined.

(** C5 as stated fails: the parser accepts a descriptor with a comment line,
    and writing the result back loses that line. *)
Lemma roundtrip_drops_comment :
  parse_text commented_descriptor = inr [("name", "vm")]
  /\ serialize [("name", "vm")] <> commented_descriptor.
Proof.
  split; [vm_compute; reflexivity | discriminate].
Qed.

(** ** An assignment, seen by the next process *)

Lemma split_go_nonempty sep s : forall k, Py.split_go sep k s <> [].
Proof.
  induction s as [| c s IH]; intros k; [discriminate |].
  cbn [Py.split_go]. destruct k; [| apply IH].
  destruct (String.prefix sep (String c s)); [discriminate |].
  destruct (Py.split_go sep 0 s); discriminate.
Qed.

(** Splitting at blanks goes through a blank. *)
Lemma split_space_app a b :
  Py.split " " (a +:+ " " +:+ b) = Py.split " " a ++ Py.split " " b.
Proof.
  unfold Py.split. induction a as [| c a IH].
  - change ("" +:+ " " +:+ b) with (String " " b).
    cbn [Py.split_go String.prefix String.length Nat.sub]. rewrite prefix_empty.
    destruct (ascii_dec " " " ") as [_ | n]; [reflexivity | congruence].
  - rewrite append_cons. cbn [Py.split_go String.prefix String.length Nat.sub].
    rewrite !prefix_empty, IH.
    destruct (ascii_dec " " c); [reflexivity |].
    pose proof (split_go_nonempty " " a 0) as Hne.
    destruct (Py.split_go " " 0 a); [congruence | reflexivity].
Qed.

Lemma split_join_space l :
  l <> [] -> Py.split " " (Py.join " " l) = flat_map (Py.split " ") l.
Proof.
  induction l as [| x l IH]; intros Hne; [congruence |].
  destruct l as [| y l].
  - cbn [Py.join String.concat flat_map]. rewrite app_nil_r. reflexivity.
  - change (Py.join " " (x :: y :: l)) with (x +:+ " " +:+ Py.join " " (y :: l)).
    rewrite split_space_app, IH; [reflexivity | discriminate].
Qed.

Lemma contains_space_app a b :
  Py.contains " " (a +:+ b) = Py.contains " " a || Py.contains " " b.
Proof.
  induction a as [| c a IH].
  - change ("" +:+ b) with b. cbn [Py.contains String.prefix orb].
    destruct (Py.contains " " b); reflexivity.
  - rewrite append_cons. cbn [Py.contains String.prefix].
    rewrite !prefix_empty, IH.
    destruct (ascii_dec " " c); [reflexivity |].
    cbn [orb]. reflexivity.
Qed.

Lemma truthy_join_space l x :
  In x l -> Py.truthy x = true -> Py.truthy (Py.join " " l) = true.
Proof.
  induction l as [| y l IH]; intros Hin Hx; [destruct Hin |].
  destruct l as [| z l].
  - destruct Hin as [-> | []]. exact Hx.
  - change (Py.join " " (y :: z :: l)) with (y +:+ " " +:+ Py.join " " (z :: l)).
    destruct y; reflexivity.
Qed.

Lemma mem_in x l : In x l -> Py.mem x l = true.
Proof.
  intros H. unfold Py.mem. apply existsb_exists. exists x.
  split; [exact H | apply String.eqb_refl].
Qed.

(** The arguments [assign_gpu] writes hold the new device. *)
Lemma extended_arguments_device cfg gpu arguments :
  extended_arguments cfg gpu = inr arguments ->
  In ("-device " +:+ device_token gpu) arguments.
Proof.
  unfold extended_arguments. cbv zeta.
  destruct (negb (Py.mem "-uuid"
      (arguments_of cfg ++ ["-device " +:+ device_token gpu]))).
  - destruct (getitem "smbios1" cfg) as [e | smbios1]; [discriminate |].
    destruct (parse_line_config smbios1 "uuid") as [e | uuid]; [discriminate |].
    intros H. injection H as <-. apply in_or_app. left. apply in_or_app. right.
    left. reflexivity.
  - intros H. injection H as <-. apply in_or_app. right. left. reflexivity.
Qed.

Lemma finish_config_args cfg arguments gpu_type :
  dict_get "args" (finish_config cfg arguments gpu_type)
  = Some (Py.join " " arguments).
Proof.
  unfold finish_config. cbv zeta. rewrite dict_get_set.
  cbn [String.eqb Ascii.eqb Bool.eqb].
  destruct (negb (present "hookscript"
              (dict_set "args" (Py.join " " arguments) cfg))).
  - rewrite dict_get_set. cbn [String.eqb Ascii.eqb Bool.eqb].
    rewrite dict_get_set, String.eqb_refl. reflexivity.
  - rewrite dict_get_set, String.eqb_refl. reflexivity.
Qed.

(** The descriptor an assignment has written is one on which the same
    assignment returns at once: the device is found among its arguments. *)
Lemma written_config_short_circuits cfg gpu gpu_type arguments :
  Py.contains " " gpu = false ->
  extended_arguments cfg gpu = inr arguments ->
  assigned_config (finish_config cfg arguments gpu_type) gpu gpu_type
  = inr None.
Proof.
  intros Hgpu Hext.
  pose proof (extended_arguments_device _ _ _ Hext) as Hin.
  assert (Htok : Py.contains " " (device_token gpu) = false).
  { unfold device_token. rewrite contains_space_app, Hgpu. reflexivity. }
  assert (Hne : arguments <> []) by (intros ->; destruct Hin).
  assert (Hargs : arguments_of (finish_config cfg arguments gpu_type)
                  = flat_map (Py.split " ") arguments).
  { unfold arguments_of, present. rewrite finish_config_args.
    rewrite (truthy_join_space arguments _ Hin) by reflexivity.
    cbn [default]. apply split_join_space, Hne. }
  unfold assigned_config. rewrite Hargs.
  rewrite mem_in; [reflexivity |].
  apply in_flat_map. exists ("-device " +:+ device_token gpu).
  split; [exact Hin |].
  change ("-device " +:+ device_token gpu)
    with ("-device" +:+ " " +:+ device_token gpu).
  rewrite split_space_app. apply in_or_app. right.
  unfold Py.split. rewrite (split_no_separator _ _ Htok). left. reflexivity.
Qed.

(** Hence whoever loads that descriptor and repeats the assignment, in the
    same or in a later process, writes nothing. *)
Lemma assign_gpu_after_assignment vmid node gpu gpu_type cfg arguments
    st vms st1 :
  Py.contains " " gpu = false ->
  extended_arguments cfg gpu = inr arguments ->
  get_vms st = (Ret vms, st1) ->
  find_config vmid vms = Some (finish_config cfg arguments gpu_type) ->
  assign_gpu vmid node gpu gpu_type st = (Ret tt, st1)
  /\ fs st1 = fs st /\ trace st1 = trace st.
Proof.
  intros Hgpu Hext Hvms Hfind.
  destruct (get_vms_ret _ _ _ Hvms) as (_ & Hfs & Htr & _).
  split; [| split; assumption].
  apply (assign_gpu_already _ _ _ _ _ vms _ _ Hvms Hfind).
  - intros Hnil.
    pose proof (finish_config_args cfg arguments gpu_type) as H.
    rewrite Hnil in H. discriminate H.
  - exact (written_config_short_circuits _ _ _ _ Hgpu Hext).
Qed.

(** ** The device scan *)

(** The loop over the lines of a creatable-types file. *)
Lemma scan_lines device ls : forall s acc,
  dict_get device (AVAILABLE_GPUS s) = Some acc ->
  exists s',
    for_ ls (scan_line device) s = (Ret tt, s')
    /\ fs s' = fs s
    /\ ASSIGNED_GPUS s' = ASSIGNED_GPUS s
    /\ dict_get device (AVAILABLE_GPUS s')
       = Some (acc ++ map type_id_of (List.filter catalog_line ls))
    /\ (forall d', d' <> device ->
          dict_get d' (AVAILABLE_GPUS s') = dict_get d' (AVAILABLE_GPUS s))
    /\ (forall x, x ∈ GPU_TYPES s'
          <-> x ∈ GPU_TYPES s \/ In x (List.filter catalog_line ls)).
Proof.
  induction ls as [| l ls IH]; intros s acc Hacc.
  - exists s. cbn [for_ List.filter map]. rewrite app_nil_r.
    repeat split; auto. intros [H | []]. exact H.
  - cbn [for_ List.filter].
    assert (Hc : catalog_line l
                 = negb (negb (Py.truthy l) || Py.startswith "ID" l)).
    { unfold catalog_line.
      destruct (Py.truthy l), (Py.startswith "ID" l); reflexivity. }
    rewrite Hc. unfold bind at 1. unfold scan_line at 1.
    destruct (negb (Py.truthy l) || Py.startswith "ID" l); cbn [negb].
    + cbn [ret].
      destruct (IH s acc Hacc) as (s' & Hrun & H1 & H2 & H3 & H4 & H5).
      exists s'. split; [exact Hrun |]. split; [exact H1 |].
      split; [exact H2 |]. split; [exact H3 |]. split; [exact H4 | exact H5].
    + unfold bind at 1. cbn [modify].
      unfold available_append. unfold bind at 1. cbn [get_state].
      unfold bind at 1. cbn [AVAILABLE_GPUS set_GPU_TYPES].
      unfold getitem. rewrite Hacc. cbn [lift ret modify].
      fold (type_id_of l).
      match goal with
      | |- context [for_ ls (scan_line device) ?s1] =>
          destruct (IH s1 (acc ++ [type_id_of l]))
            as (s' & Hrun & H1 & H2 & H3 & H4 & H5)
      end.
      { cbn [AVAILABLE_GPUS set_AVAILABLE_GPUS]. rewrite dict_get_set.
        rewrite String.eqb_refl. reflexivity. }
      exists s'. split; [exact Hrun |].
      cbn [fs ASSIGNED_GPUS AVAILABLE_GPUS GPU_TYPES set_AVAILABLE_GPUS
             set_GPU_TYPES] in *.
      split; [exact H1 |]. split; [exact H2 |]. split.
      { rewrite H3. cbn [map]. rewrite <- app_assoc. reflexivity. }
      split.
      { intros d' Hd'. rewrite (H4 d' Hd'), dict_get_set.
        apply String.eqb_neq in Hd'. rewrite Hd'. reflexivity. }
      intros x. rewrite H5, elem_of_union, elem_of_singleton. cbn [In].
      intuition congruence.
Qed.

Lemma elem_of_elements_not (x : string) (X : gset string) :
  x ∉ elements X -> x ∉ X.
Proof. intros H Hin. apply H, elem_of_elements, Hin. Qed.

Lemma in_app_last {A} (x d : A) done :
  In x (done ++ [d]) <-> In x done \/ x = d.
Proof.
  rewrite in_app_iff. cbn [In]. intuition.
Qed.

(** One device more. *)
Lemma scan_device_step f done d s o :
  scanned f done s ->
  observe f d = inr o ->
  exists s', scan_device d s = (Ret tt, s') /\ scanned f (done ++ [d]) s'.
Proof.
  intros (Hfs & Hty & Hav & Has) Hobs.
  unfold observe in Hobs. unfold scan_device.
  unfold bind at 1. unfold os_path_isdir. rewrite Hfs.
  destruct (fs_isdir f (sysfs d +:+ "/nvidia")) eqn:Eisd; cbn [negb] in *.
  2:{ (* no vendor directory *)
    exists s. split; [reflexivity |].
    assert (Hd : observe f d = inr NotGpu).
    { unfold observe. rewrite Eisd. reflexivity. }
    split; [exact Hfs |]. split; [| split].
    - intros x. rewrite Hty. split.
      + intros (d' & Hin & He). exists d'. split; [| exact He].
        apply in_app_last. left. exact Hin.
      + intros (d' & Hin & He). apply in_app_last in Hin.
        destruct Hin as [Hin | ->]; [exists d'; split; assumption |].
        unfold catalog_entry in He. rewrite Hd in He.
        destruct He as [He | (lines & He & _)]; discriminate.
    - intros d' lines Hin He. apply in_app_last in Hin.
      destruct Hin as [Hin | ->]; [exact (Hav _ _ Hin He) | congruence].
    - intros d' cur Hin He. apply in_app_last in Hin.
      destruct Hin as [Hin | ->]; [exact (Has _ _ Hin He) | congruence]. }
  unfold bind at 1. unfold read_file at 1. rewrite Hfs.
  destruct (fs_read f (occupancy_file (sysfs d))) as [e | cur] eqn:Ecur;
    [discriminate |].
  cbn [lift ret].
  destruct (negb (String.eqb cur ("0" +:+ nl))) eqn:Eocc.
  - (* occupied *)
    assert (Hd : observe f d = inr (Occupied cur)).
    { unfold observe. rewrite Eisd, Ecur. cbn [negb]. rewrite Eocc. reflexivity. }
    eexists. split; [reflexivity |].
    unfold scanned.
    cbn [fs GPU_TYPES AVAILABLE_GPUS ASSIGNED_GPUS set_ASSIGNED_GPUS
           set_GPU_TYPES].
    split; [exact Hfs |]. split; [| split].
    + intros x. rewrite elem_of_union, elem_of_singleton, Hty. split.
      * intros [-> | (d' & Hin & He)].
        -- exists d. split; [apply in_app_last; right; reflexivity |].
           left. exact Hd.
        -- exists d'. split; [apply in_app_last; left; exact Hin | exact He].
      * intros (d' & Hin & He). apply in_app_last in Hin.
        destruct Hin as [Hin | ->]; [right; exists d'; split; assumption |].
        left. unfold catalog_entry in He. rewrite Hd in He.
        destruct He as [He | (lines & He & _)]; congruence.
    + intros d' lines Hin He. apply in_app_last in Hin.
      destruct Hin as [Hin | ->]; [exact (Hav _ _ Hin He) | congruence].
    + intros d' c Hin He. rewrite dict_get_set.
      destruct (String.eqb d' d) eqn:E.
      * apply String.eqb_eq in E. subst d'. congruence.
      * apply in_app_last in Hin. destruct Hin as [Hin | ->].
        -- exact (Has _ _ Hin He).
        -- rewrite String.eqb_refl in E. discriminate.
  - (* free *)
    destruct (fs_read f (creatable_file (sysfs d))) as [e | text] eqn:Etext;
      [discriminate |].
    assert (Hd : observe f d
                 = inr (Free (List.filter catalog_line (Py.splitlines text)))).
    { unfold observe. rewrite Eisd, Ecur. cbn [negb]. rewrite Eocc, Etext.
      reflexivity. }
    unfold bind at 1. cbn [modify]. unfold bind at 1. unfold read_file.
    cbn [fs set_AVAILABLE_GPUS]. rewrite Hfs, Etext. cbn [lift ret].
    match goal with
    | |- context [for_ _ (scan_line d) ?s1] =>
        destruct (scan_lines d (Py.splitlines text) s1 [])
          as (s' & Hrun & H1 & H2 & H3 & H4 & H5)
    end.
    { cbn [AVAILABLE_GPUS set_AVAILABLE_GPUS]. rewrite dict_get_set.
      rewrite String.eqb_refl. reflexivity. }
    exists s'. split; [exact Hrun |].
    cbn [fs GPU_TYPES AVAILABLE_GPUS ASSIGNED_GPUS set_AVAILABLE_GPUS] in *.
    split; [congruence |]. split; [| split].
    + intros x. rewrite H5, Hty. split.
      * intros [(d' & Hin & He) | Hin].
        -- exists d'. split; [apply in_app_last; left; exact Hin | exact He].
        -- exists d. split; [apply in_app_last; right; reflexivity |].
           right. eexists. split; [exact Hd | exact Hin].
      * intros (d' & Hin & He). apply in_app_last in Hin.
        destruct Hin as [Hin | ->]; [left; exists d'; split; assumption |].
        right. unfold catalog_entry in He. rewrite Hd in He.
        destruct He as [He | (lines & He & Hx)]; [discriminate |].
        injection He as <-. exact Hx.
    + intros d' lines Hin He.
      destruct (String.eqb d' d) eqn:E.
      * apply String.eqb_eq in E. subst d'. rewrite H3.
        rewrite Hd in He. injection He as <-. reflexivity.
      * apply String.eqb_neq in E. rewrite (H4 d' E), dict_get_set.
        apply String.eqb_neq in E. rewrite E.
        apply in_app_last in Hin. destruct Hin as [Hin | ->].
        -- exact (Hav _ _ Hin He).
        -- rewrite String.eqb_refl in E. discriminate.
    + intros d' c Hin He. rewrite H2. apply in_app_last in Hin.
      destruct Hin as [Hin | ->]; [exact (Has _ _ Hin He) | congruence].
Qed.

(** The loop over the devices. *)
Lemma scan_devices f rest : forall done s,
  scanned f done s ->
  Forall (readable f) rest ->
  exists s',
    for_ rest scan_device s = (Ret tt, s') /\ scanned f (done ++ rest) s'.
Proof.
  induction rest as [| d rest IH]; intros done s Hinv Hread.
  - exists s. rewrite app_nil_r. split; [reflexivity | exact Hinv].
  - inversion Hread as [| ? ? [o Ho] Hrest]; subst.
    destruct (scan_device_step f done d s o Hinv Ho) as (s1 & Hrun1 & Hinv1).
    destruct (IH (done ++ [d]) s1 Hinv1 Hrest) as (s2 & Hrun2 & Hinv2).
    exists s2. split.
    + cbn [for_]. unfold bind. rewrite Hrun1. exact Hrun2.
    + rewrite <- app_assoc in Hinv2. exact Hinv2.
Qed.

(** C8, as the code has it: a first scan succeeds when the control files can
    be read, and then the catalog holds exactly the content of the occupancy
    file of every occupied device and the kept lines, in full, of the
    creatable-types file of every free device; the creatable list of a free
    device holds the type ids taken from those lines. *)
Theorem scan_catalog st devices :
  GPU_TYPES st = ∅ ->
  fs_listdir (fs st) "/sys/bus/pci/devices/" = inr devices ->
  Forall (readable (fs st)) devices ->
  exists available assigned types st',
    get_gpus st = (Ret (available, assigned, types), st')
    /\ (forall x, x ∈ types
          <-> exists d, In d devices /\ catalog_entry (fs st) d x)
    /\ (forall d lines, In d devices -> observe (fs st) d = inr (Free lines) ->
          dict_get d available = Some (map type_id_of lines))
    /\ (forall d current, In d devices ->
          observe (fs st) d = inr (Occupied current) ->
          dict_get d assigned = Some current).
Proof.
  intros Hempty Hls Hread.
  assert (Hinv : scanned (fs st) [] st).
  { split; [reflexivity |]. split; [| split].
    - intros x. rewrite Hempty. split; [set_solver |].
      intros (d & [] & _).
    - intros d lines [].
    - intros d c []. }
  destruct (scan_devices (fs st) devices [] st Hinv Hread)
    as (s' & Hrun & (Hfs & Hty & Hav & Has)).
  exists (AVAILABLE_GPUS s'), (ASSIGNED_GPUS s'), (GPU_TYPES s'), s'.
  split; [| split; [exact Hty | split; [exact Hav | exact Has]]].
  unfold get_gpus. unfold bind at 1. cbn [get_state].
  destruct (decide (GPU_TYPES st = ∅)) as [_ | Hn]; [| contradiction].
  unfold bind at 1. unfold os_listdir. rewrite Hls. cbn [lift ret].
  unfold bind at 1. rewrite Hrun. reflexivity.
Qed.

(** A scan of the demo host with one free and one occupied GPU. *)
Lemma scan_catalog_witness :
  exists available assigned types st',
    get_gpus (boot (host_fs (demo_host plain_descriptor mixed_gpus)))
    = (Ret (available, assigned, types), st')
    /\ (forall x, x ∈ types
          <-> exists d,
                In d ["0000:00:1f.0"; "0000:01:00.0"; "0000:02:00.0"]
                /\ catalog_entry
                     (fs (boot (host_fs (demo_host plain_descriptor mixed_gpus))))
                     d x)
    /\ (forall d lines,
          In d ["0000:00:1f.0"; "0000:01:00.0"; "0000:02:00.0"] ->
          observe (fs (boot (host_fs (demo_host plain_descriptor mixed_gpus)))) d
          = inr (Free lines) ->
          dict_get d available = Some (map type_id_of lines))
    /\ (forall d current,
          In d ["0000:00:1f.0"; "0000:01:00.0"; "0000:02:00.0"] ->
          observe (fs (boot (host_fs (demo_host plain_descriptor mixed_gpus)))) d
          = inr (Occupied current) ->
          dict_get d assigned = Some current).
Proof.
  apply (scan_catalog (boot (host_fs (demo_host plain_descriptor mixed_gpus)))
           ["0000:00:1f.0"; "0000:01:00.0"; "0000:02:00.0"]).
  - reflexivity.
  - vm_compute. reflexivity.
  - repeat (constructor; [eexists; vm_compute; reflexivity |]). constructor.
Defined.

(** C8 as stated fails: the creatable list of the free device holds the type
    id 63, the catalog holds the whole line instead. *)
Lemma catalog_holds_lines :
  exists st',
    get_gpus (boot (host_fs (demo_host plain_descriptor two_gpus)))
    = (Ret (AVAILABLE_GPUS st', ASSIGNED_GPUS st', GPU_TYPES st'), st')
    /\ dict_get "0000:01:00.0" (AVAILABLE_GPUS st') = Some ["63"; "64"]
    /\ ("63" ∉ GPU_TYPES st')
    /\ ("63 : NVIDIA A40-1Q" ∈ GPU_TYPES st').
Proof.
  exists (snd (get_gpus (boot (host_fs (demo_host plain_descriptor two_gpus))))).
  split; [vm_compute; reflexivity |].
  split; [vm_compute; reflexivity |].
  assert (E : elements (GPU_TYPES (snd (get_gpus
                 (boot (host_fs (demo_host plain_descriptor two_gpus))))))
              = ["63 : NVIDIA A40-1Q"; "64 : NVIDIA A40-2Q"])
    by (vm_compute; reflexivity).
  split.
  - apply elem_of_elements_not. rewrite E. intros H.
    apply list_elem_of_In in H. destruct H as [H | [H | []]]; discriminate H.
  - apply elem_of_elements. rewrite E. apply list_elem_of_In. left.
    reflexivity.
Qed.

(** * Further properties *)

(** ** What a lifecycle phase can write *)

Lemma ww_ret {A} P (a : A) : writes_within P (ret a).
Proof.
  intros st o st' H. injection H as <- <-. exists [].
  rewrite app_nil_r. repeat split; auto.
Qed.

Lemma ww_raise {A} P e : writes_within P (@raise A e).
Proof.
  intros st o st' H. injection H as <- <-. exists [].
  rewrite app_nil_r. repeat split; auto.
Qed.

Lemma ww_exit {A} P c : writes_within P (@sys_exit A c).
Proof.
  intros st o st' H. injection H as <- <-. exists [].
  rewrite app_nil_r. repeat split; auto.
Qed.

Lemma ww_print P line : writes_within P (print line).
Proof.
  intros st o st' H. injection H as <- <-. exists [EvPrint line].
  split; [reflexivity |]. split; [repeat constructor | reflexivity].
Qed.

Lemma ww_write (P : string -> Prop) p d : P p -> writes_within P (write_file p d).
Proof.
  intros HP st o st' H. unfold write_file in H.
  destruct (fs_write (fs st) p d).
  - injection H as <- <-. exists []. rewrite app_nil_r. repeat split; auto.
  - injection H as <- <-. exists [EvWrite p d].
    split; [reflexivity |]. split; [repeat constructor; exact HP |].
    intros q Hq. cbn. destruct (String.eqb q p) eqn:E; [| reflexivity].
    apply String.eqb_eq in E. subst q. contradiction.
Qed.

Lemma ww_bind {A B} P (m : M A) (k : A -> M B) :
  writes_within P m ->
  (forall a st st', m st = (Ret a, st') -> writes_within P (k a)) ->
  writes_within P (bind m k).
Proof.
  intros Hm Hk st o st' H. unfold bind in H.
  destruct (m st) as [[a | c | e] st1] eqn:E.
  - destruct (Hm _ _ _ E) as (e1 & T1 & F1 & R1).
    destruct (Hk a _ _ E _ _ _ H) as (e2 & T2 & F2 & R2).
    exists (e1 ++ e2). split; [rewrite T2, T1, app_assoc; reflexivity |].
    split; [apply Forall_app; split; assumption |].
    intros p Hp. rewrite (R2 p Hp). exact (R1 p Hp).
  - injection H as <- <-. exact (Hm _ _ _ E).
  - injection H as <- <-. exact (Hm _ _ _ E).
Qed.

Lemma ww_for {A} P (body : A -> M unit) l :
  Forall (fun x => writes_within P (body x)) l -> writes_within P (for_ l body).
Proof.
  induction l as [| x l IH]; intros H; [apply ww_ret |].
  inversion H as [| ? ? Hx Hl]; subst. cbn [for_].
  apply ww_bind; [exact Hx | intros; exact (IH Hl)].
Qed.

Lemma ww_try {A} P (m : M A) handles h :
  writes_within P m -> writes_within P h ->
  writes_within P (try_except m handles h).
Proof.
  intros Hm Hh st o st' H. unfold try_except in H.
  destruct (m st) as [[a | c | e] st1] eqn:E.
  - injection H as <- <-. exact (Hm _ _ _ E).
  - injection H as <- <-. exact (Hm _ _ _ E).
  - destruct (handles e).
    + destruct (Hm _ _ _ E) as (e1 & T1 & F1 & R1).
      destruct (Hh _ _ _ H) as (e2 & T2 & F2 & R2).
      exists (e1 ++ e2). split; [rewrite T2, T1, app_assoc; reflexivity |].
      split; [apply Forall_app; split; assumption |].
      intros p Hp. rewrite (R2 p Hp). exact (R1 p Hp).
    + injection H as <- <-. exact (Hm _ _ _ E).
Qed.

Lemma ww_pure {A} P (f : state -> outcome A) :
  writes_within P (fun st => (f st, st)).
Proof.
  intros st o st' H. injection H as <- <-. exists [].
  rewrite app_nil_r. repeat split; auto.
Qed.

Lemma ww_read_file P p : writes_within P (read_file p).
Proof.
  intros st o st' H. unfold read_file in H.
  destruct (fs_read (fs st) p); injection H as <- <-; exists [];
    rewrite app_nil_r; repeat split; auto.
Qed.

Lemma ww_exists P p : writes_within P (os_path_exists p).
Proof. unfold os_path_exists. apply (ww_pure P (fun st => Ret (fs_exists (fs st) p))). Qed.

Lemma ww_stop (P : string -> Prop) q :
  P (occupancy_file q) -> writes_within P (stop q).
Proof.
  intros HP. unfold stop. apply ww_try; [apply ww_write, HP | apply ww_print].
Qed.

Lemma ww_parse_vm_config P vmid from_node :
  writes_within P (parse_vm_config vmid from_node).
Proof.
  unfold parse_vm_config. cbv zeta. apply ww_bind.
  - apply ww_try; [apply ww_read_file |].
    apply ww_bind; [apply ww_print | intros; apply ww_exit].
  - intros text _ _ _. destruct (parse_text text); [apply ww_raise | apply ww_ret].
Qed.

(** A requested device path is the device directory followed by at least
    one character of the bus-address class. *)
Lemma requested_path_target cfg paths q :
  parse_vgpu_bus_id cfg = inr paths -> In q paths ->
  sysfs_target (occupancy_file q).
Proof.
  unfold parse_vgpu_bus_id. destruct (getitem "args" cfg); [discriminate |].
  intros H Hin. injection H as <-. unfold Py.findall in Hin.
  apply findall_go_in in Hin. destruct Hin as (s' & len & Hm).
  unfold Py.match_lit_class in Hm.
  destruct (String.prefix _ s'); [| discriminate].
  match type of Hm with
  | context [Py.span_while ?c ?x] =>
      pose proof (span_while_all c x) as Hall;
      destruct (Py.span_while c x) as [| a r]; [discriminate |]
  end.
  injection Hm as <- _. exists (String a r).
  split; [discriminate |]. split; [exact Hall | reflexivity].
Qed.

Lemma Forall_imap_snd {A} (Q : nat * A -> Prop) (l : list A) :
  forall f : nat -> nat,
    (forall i x, In x l -> Q (f i, x)) ->
    Forall Q (imap (fun i x => (f i, x)) l).
Proof.
  induction l as [| x l IH]; intros f H; [constructor |].
  rewrite imap_cons. constructor; [apply H; left; reflexivity |].
  apply (IH (fun i => f (S i))). intros i y Hy. apply H. right. exact Hy.
Qed.

Lemma ww_lifecycle_body P types paths phase :
  (forall q, In q paths -> P (occupancy_file q)) ->
  writes_within P
    (bind (if String.eqb phase "pre-start"
           then bind (check_and_reset paths) (fun _ => activate types paths)
           else ret tt)
          (fun _ => if String.eqb phase "post-stop" then for_ paths stop
                    else ret tt)).
Proof.
  intros HP. apply ww_bind.
  - destruct (String.eqb phase "pre-start"); [| apply ww_ret].
    apply ww_bind.
    + unfold check_and_reset. apply ww_for. apply List.Forall_forall.
      intros q Hq. apply ww_bind; [apply ww_exists |].
      intros ex _ _ _. apply ww_bind.
      * destruct (negb ex); [| apply ww_ret].
        apply ww_bind; [apply ww_print | intros; apply ww_exit].
      * intros. apply ww_stop, HP, Hq.
    + intros. unfold activate. apply ww_for.
      apply (Forall_imap_snd _ paths (fun i => i)).
      intros i q Hq.
      destruct (types !! (i mod length types)%nat);
        [apply ww_write, HP, Hq | apply ww_raise].
  - intros. destruct (String.eqb phase "post-stop"); [| apply ww_ret].
    apply ww_for. apply List.Forall_forall. intros q Hq. apply ww_stop, HP, Hq.
Qed.

(** X1: Whatever the descriptor and the host, a lifecycle phase writes to
    occupancy files of PCI device directories only; every other file, the
    descriptors among them, keeps its content. *)
Theorem lifecycle_writes_confined menu prog vmid phase rest env st o st' :
  vmid <> "menu" ->
  phase <> "get_command" ->
  script menu (prog :: vmid :: phase :: rest) env st = (o, st') ->
  exists evs,
    trace st' = trace st ++ evs
    /\ Forall (confined sysfs_target) evs
    /\ (forall p, ~ sysfs_target p -> fs_read (fs st') p = fs_read (fs st) p).
Proof.
  intros Hm Hg. apply String.eqb_neq in Hm. apply String.eqb_neq in Hg.
  revert st o st'.
  change (writes_within sysfs_target
            (script menu (prog :: vmid :: phase :: rest) env)).
  unfold script. apply ww_bind; [| intros; apply ww_exit].
  unfold main. rewrite Hm, Hg.
  apply ww_bind; [apply ww_ret |]. intros _ _ _ _.
  apply ww_bind; [apply ww_parse_vm_config |]. intros cfg _ _ _.
  destruct (parse_vgpu_type_id cfg) as [e | types];
    [apply ww_bind; [apply ww_raise | intros ? ? ? H; discriminate H] |].
  apply ww_bind; [apply ww_ret |]. intros types' s1 s2 Ht.
  injection Ht as <- _.
  destruct types as [| t types]; [apply ww_exit |].
  destruct (parse_vgpu_bus_id cfg) as [e | paths] eqn:Hpa;
    [apply ww_bind; [apply ww_raise | intros ? ? ? H; discriminate H] |].
  apply ww_bind; [apply ww_ret |]. intros paths' s3 s4 Hp.
  injection Hp as <- _.
  destruct paths as [| q paths]; [apply ww_exit |].
  apply ww_lifecycle_body. intros q' Hq'.
  exact (requested_path_target cfg _ q' Hpa Hq').
Qed.

(** The first device is reset, then the handler gives up at the missing
    second one: the only write is confined as stated. *)
Lemma lifecycle_writes_confined_witness :
  exists evs,
    trace (snd (script no_menu [script_name; "101"; "pre-start"] None
                  (boot (host_fs (demo_host three_device_descriptor two_gpus)))))
    = [] ++ evs
    /\ Forall (confined sysfs_target) evs
    /\ (forall p, ~ sysfs_target p ->
          fs_read (fs (snd (script no_menu [script_name; "101"; "pre-start"]
                              None
                              (boot (host_fs (demo_host three_device_descriptor
                                                two_gpus)))))) p
          = fs_read (fs (boot (host_fs (demo_host three_device_descriptor
                                          two_gpus)))) p).
Proof.
  apply (lifecycle_writes_confined no_menu script_name "101" "pre-start" []
           None
           (boot (host_fs (demo_host three_device_descriptor two_gpus)))
           (Exit 1%Z)
           (snd (script no_menu [script_name; "101"; "pre-start"] None
                   (boot (host_fs (demo_host three_device_descriptor
                                     two_gpus)))))).
  - discriminate.
  - discriminate.
  - vm_compute. reflexivity.
Defined.

(** ** Failures in the middle of a phase *)

Lemma for_app {A} (body : A -> M unit) l1 l2 st :
  for_ (l1 ++ l2) body st = bind (for_ l1 body) (fun _ => for_ l2 body) st.
Proof.
  revert st. induction l1 as [| x l1 IH]; intros st; [reflexivity |].
  cbn [app for_]. unfold bind.
  destruct (body x st) as [[[] | c | e] st1]; [| reflexivity | reflexivity].
  rewrite IH. unfold bind. reflexivity.
Qed.

(** X2: No rollback: when the write that activates a device fails, the
    [pre-start] ends with that exception, and the devices requested before
    it stay activated. *)
Theorem pre_start_activation_failure menu prog vmid env st cfg types
    done q rest e :
  vmid <> "menu" ->
  parse_vm_config vmid env st = (Ret cfg, st) ->
  parse_vgpu_type_id cfg = inr types -> types <> [] ->
  parse_vgpu_bus_id cfg = inr (done ++ q :: rest) ->
  Forall (fun p => fs_exists (fs st) p = true) (done ++ q :: rest) ->
  Forall (fun p => tolerated (fs_write (fs st) (occupancy_file p) "0"))
         (done ++ q :: rest) ->
  Forall (fun w => fs_write (fs st) w.1 w.2 = None) (round_robin types done) ->
  fs_write (fs st) (occupancy_file q) (type_for types (length done)) = Some e ->
  exists st',
    script menu [prog; vmid; "pre-start"] env st = (Raise e, st')
    /\ trace st'
       = trace st ++ map (stop_event (fs st)) (done ++ q :: rest)
         ++ map (fun w => EvWrite w.1 w.2) (round_robin types done).
Proof.
  intros Hm Hcfg Hty Hne Hpa Hex Htol Hact Hfail.
  destruct (check_and_reset_returns _ st Hex Htol) as (st1 & Hrun1 & Hext1).
  assert (Hw1 : fs_write (fs st1) = fs_write (fs st)) by apply Hext1.
  destruct (activate_from types done 0 st1) as (st2 & Hrun2 & Hext2);
    [rewrite Hw1; exact Hact | exact Hne |].
  assert (Hw2 : fs_write (fs st2) = fs_write (fs st1)) by apply Hext2.
  assert (Hlt : (length done mod length types < length types)%nat).
  { apply Nat.mod_upper_bound. destruct types; [congruence | cbn; lia]. }
  destruct (lookup_lt_is_Some_2 types _ Hlt) as [t Ht].
  assert (Htf : type_for types (length done) = t).
  { unfold type_for. rewrite Ht. reflexivity. }
  exists st2. split.
  - apply script_of_main with (o := Raise e).
    rewrite (main_lifecycle menu prog vmid "pre-start" env st cfg types _
               Hm ltac:(discriminate) Hcfg Hty Hne Hpa
               ltac:(destruct done; discriminate)).
    cbn [String.eqb Ascii.eqb Bool.eqb].
    unfold bind at 1. unfold bind at 1. rewrite Hrun1.
    unfold activate. rewrite imap_app, for_app. unfold bind at 1.
    change (imap pair done) with (imap (fun i q => (0 + i, q)%nat) done).
    rewrite Hrun2. rewrite imap_cons. cbn [for_]. unfold bind at 1.
    rewrite Nat.add_0_r, Ht. unfold write_file.
    rewrite Hw2, Hw1, <- Htf, Hfail. reflexivity.
  - destruct Hext1 as [T1 _]. destruct Hext2 as [T2 _].
    rewrite T2, T1, <- app_assoc. f_equal. f_equal.
    unfold round_robin. rewrite map_of_imap. reflexivity.
Qed.

(** X3: A [post-stop] that meets an error other than a missing or forbidden
    path ends with it, and the devices requested after that one are not
    deallocated. *)
Theorem post_stop_other_error menu prog vmid env st cfg types done q rest e :
  vmid <> "menu" ->
  parse_vm_config vmid env st = (Ret cfg, st) ->
  parse_vgpu_type_id cfg = inr types -> types <> [] ->
  parse_vgpu_bus_id cfg = inr (done ++ q :: rest) ->
  Forall (fun p => tolerated (fs_write (fs st) (occupancy_file p) "0")) done ->
  fs_write (fs st) (occupancy_file q) "0" = Some e ->
  unrecovered e ->
  exists st',
    script menu [prog; vmid; "post-stop"] env st = (Raise e, st')
    /\ trace st' = trace st ++ map (stop_event (fs st)) done.
Proof.
  intros Hm Hcfg Hty Hne Hpa Htol Hfail [Hn1 Hn2].
  destruct (stop_all_returns done st Htol) as (st1 & Hrun1 & Hext1).
  assert (Hw1 : fs_write (fs st1) = fs_write (fs st)) by apply Hext1.
  exists st1. split; [| apply Hext1].
  apply script_of_main with (o := Raise e).
  rewrite (main_lifecycle menu prog vmid "post-stop" env st cfg types _
             Hm ltac:(discriminate) Hcfg Hty Hne Hpa
             ltac:(destruct done; discriminate)).
  cbn [String.eqb Ascii.eqb Bool.eqb].
  unfold bind at 1. cbn [ret]. rewrite for_app. unfold bind at 1.
  rewrite Hrun1. cbn [for_]. unfold bind at 1.
  unfold stop, try_except, write_file. rewrite Hw1, Hfail.
  destruct e; try reflexivity; congruence.
Qed.

(** Device [0000:03:00.0] refuses type 64: [0000:01:00.0] has been given
    type 63 by then and keeps it. *)
Lemma pre_start_activation_failure_witness :
  exists st',
    script no_menu [script_name; "101"; "pre-start"] None (boot picky_host)
    = (Raise OSError, st')
    /\ trace st'
       = [EvWrite "/sys/bus/pci/devices/0000:01:00.0/nvidia/current_vgpu_type" "0";
          EvWrite "/sys/bus/pci/devices/0000:03:00.0/nvidia/current_vgpu_type" "0";
          EvWrite "/sys/bus/pci/devices/0000:02:00.0/nvidia/current_vgpu_type" "0";
          EvWrite "/sys/bus/pci/devices/0000:01:00.0/nvidia/current_vgpu_type" "63"].
Proof.
  apply (pre_start_activation_failure no_menu script_name "101" None
           (boot picky_host) three_device_config ["63"; "64"]
           ["/sys/bus/pci/devices/0000:01:00.0"]
           "/sys/bus/pci/devices/0000:03:00.0"
           ["/sys/bus/pci/devices/0000:02:00.0"] OSError).
  - discriminate.
  - vm_compute. reflexivity.
  - vm_compute. reflexivity.
  - discriminate.
  - vm_compute. reflexivity.
  - forall_compute.
  - forall_compute.
  - forall_compute.
  - vm_compute. reflexivity.
Defined.

(** Device [0000:03:00.0] refuses the sentinel: [0000:02:00.0], requested
    after it, is never reset. *)
Lemma post_stop_other_error_witness :
  exists st',
    script no_menu [script_name; "101"; "post-stop"] None (boot stuck_host)
    = (Raise OSError, st')
    /\ trace st'
       = [EvWrite "/sys/bus/pci/devices/0000:01:00.0/nvidia/current_vgpu_type" "0"].
Proof.
  apply (post_stop_other_error no_menu script_name "101" None
           (boot stuck_host) three_device_config ["63"; "64"]
           ["/sys/bus/pci/devices/0000:01:00.0"]
           "/sys/bus/pci/devices/0000:03:00.0"
           ["/sys/bus/pci/devices/0000:02:00.0"] OSError).
  - discriminate.
  - vm_compute. reflexivity.
  - vm_compute. reflexivity.
  - discriminate.
  - vm_compute. reflexivity.
  - forall_compute.
  - vm_compute. reflexivity.
  - split; discriminate.
Defined.

(** ** The other ways through [main] *)

(** X4: The hypervisor calls the hook in the phases [post-start] and [pre-stop]
    as well: for them, and for any other phase name, the handler does
    nothing and reports success, provided the descriptor has the keys it
    looks up. *)
Theorem other_phase_is_noop menu prog vmid phase env st cfg types paths :
  vmid <> "menu" ->
  phase <> "get_command" -> phase <> "pre-start" -> phase <> "post-stop" ->
  parse_vm_config vmid env st = (Ret cfg, st) ->
  parse_vgpu_type_id cfg = inr types ->
  parse_vgpu_bus_id cfg = inr paths ->
  script menu [prog; vmid; phase] env st = (Exit 0%Z, st).
Proof.
  intros Hm Hg Hs He Hcfg Hty Hpa.
  destruct types as [| t types].
  { apply script_of_main with (o := Exit 0%Z).
    apply main_nothing_requested with (cfg := cfg); auto. }
  destruct paths as [| q paths].
  { apply script_of_main with (o := Exit 0%Z).
    apply main_nothing_requested with (cfg := cfg); auto.
    right. split; [eexists; exact Hty | exact Hpa]. }
  apply script_of_main with (o := Ret tt).
  rewrite (main_lifecycle menu prog vmid phase env st cfg _ _
             Hm Hg Hcfg Hty ltac:(discriminate) Hpa ltac:(discriminate)).
  apply String.eqb_neq in Hs. apply String.eqb_neq in He.
  rewrite Hs, He. reflexivity.
Qed.

Lemma other_phase_is_noop_witness :
  script no_menu [script_name; "101"; "post-start"] None
    (boot (host_fs (demo_host three_device_descriptor two_gpus)))
  = (Exit 0%Z, boot (host_fs (demo_host three_device_descriptor two_gpus))).
Proof.
  apply (other_phase_is_noop no_menu script_name "101" "post-start" None _
           three_device_config ["63"; "64"] three_device_paths).
  - discriminate.
  - discriminate.
  - discriminate.
  - discriminate.
  - vm_compute. reflexivity.
  - vm_compute. reflexivity.
  - vm_compute. reflexivity.
Defined.

(** X5: A descriptor that is not there ends every mode but the menu with the
    message and status 1, before anything else is read or written; any
    other failure to read it is not caught. *)
Theorem missing_descriptor_exits_1 menu prog vmid phase rest env st e :
  vmid <> "menu" ->
  (phase = "get_command" -> rest <> []) ->
  fs_read (fs st) (descriptor_path vmid env) = inl e ->
  script menu (prog :: vmid :: phase :: rest) env st
  = match e with
    | FileNotFoundError =>
        (Exit 1%Z,
         set_trace (trace st ++ [EvPrint ("VM " +:+ vmid +:+ " not found")]) st)
    | _ => (Raise e, st)
    end.
Proof.
  intros Hm Hrest Hread. apply String.eqb_neq in Hm.
  assert (Hp : parse_vm_config vmid env st
               = match e with
                 | FileNotFoundError =>
                     (Exit 1%Z,
                      set_trace
                        (trace st ++ [EvPrint ("VM " +:+ vmid +:+ " not found")])
                        st)
                 | _ => (Raise e, st)
                 end).
  { unfold parse_vm_config, bind, try_except, read_file. cbv zeta.
    rewrite Hread. destruct e; reflexivity. }
  assert (Hmain : main menu (prog :: vmid :: phase :: rest) env st
                  = match e with
                    | FileNotFoundError =>
                        (Exit 1%Z,
                         set_trace
                           (trace st
                            ++ [EvPrint ("VM " +:+ vmid +:+ " not found")]) st)
                    | _ => (Raise e, st)
                    end).
  { unfold main. rewrite Hm. unfold bind at 1.
    destruct (String.eqb phase "get_command") eqn:Eg.
    - apply String.eqb_eq in Eg. specialize (Hrest Eg).
      destruct rest; [congruence |]. cbn [ret]. unfold bind at 1.
      rewrite Hp. destruct e; reflexivity.
    - cbn [ret]. unfold bind at 1. rewrite Hp. destruct e; reflexivity. }
  unfold script, bind. rewrite Hmain. destruct e; reflexivity.
Qed.

Lemma missing_descriptor_exits_1_witness :
  script no_menu [script_name; "102"; "pre-start"] None
    (boot (host_fs (demo_host plain_descriptor two_gpus)))
  = (Exit 1%Z,
     set_trace [EvPrint "VM 102 not found"]
       (boot (host_fs (demo_host plain_descriptor two_gpus)))).
Proof.
  apply (missing_descriptor_exits_1 no_menu script_name "102" "pre-start" []
           None (boot (host_fs (demo_host plain_descriptor two_gpus)))
           FileNotFoundError).
  - discriminate.
  - discriminate.
  - vm_compute. reflexivity.
Defined.

(** ** The requested types *)

Lemma insert_sorted_ascending x l :
  ascending l -> ascending (Py.insert_sorted x l).
Proof.
  unfold ascending. induction l as [| y l IH]; intros Hs.
  - repeat constructor.
  - cbn [Py.insert_sorted]. destruct (String.leb x y) eqn:E.
    + constructor; [exact Hs |]. constructor. exact E.
    + apply Sorted_inv in Hs. destruct Hs as [Hs Hhd].
      constructor; [exact (IH Hs) |].
      assert (Hyx : String.leb y x = true).
      { destruct (String.leb_total x y) as [H | H]; [congruence | exact H]. }
      destruct l as [| z l]; cbn [Py.insert_sorted]; [constructor; exact Hyx |].
      destruct (String.leb x z); constructor; [exact Hyx |].
      inversion Hhd; assumption.
Qed.

Lemma sorted_ascending l : ascending (Py.sorted l).
Proof.
  unfold Py.sorted. induction l as [| x l IH]; [constructor |].
  cbn [fold_right]. apply insert_sorted_ascending, IH.
Qed.

Lemma in_insert_sorted y x l :
  In y (Py.insert_sorted x l) <-> y = x \/ In y l.
Proof.
  induction l as [| z l IH]; cbn [Py.insert_sorted In]; [intuition |].
  destruct (String.leb x z); cbn [In]; [intuition |].
  rewrite IH. intuition.
Qed.

Lemma in_sorted y l : In y (Py.sorted l) <-> In y l.
Proof.
  unfold Py.sorted. induction l as [| x l IH]; [reflexivity |].
  cbn [fold_right In]. rewrite in_insert_sorted, IH. intuition.
Qed.

(** X6: The requested types come in ascending order of their text, and each is
    a non-empty run of decimal digits. *)
Theorem requested_types_ascending_digits cfg types :
  parse_vgpu_type_id cfg = inr types ->
  ascending types
  /\ Forall (fun t => t <> "" /\ Py.all_chars Py.is_digit t = true) types.
Proof.
  unfold parse_vgpu_type_id. destruct (getitem "tags" cfg) as [e | tags];
    [discriminate |].
  intros H. injection H as <-. split; [apply sorted_ascending |].
  apply List.Forall_forall. intros t Ht. apply (proj1 (in_sorted _ _)) in Ht.
  unfold Py.findall in Ht. apply findall_go_in in Ht.
  destruct Ht as (s' & len & Hm). unfold Py.match_lit_class in Hm.
  destruct (String.prefix "nvidia-" s'); [| discriminate].
  match type of Hm with
  | context [Py.span_while ?c ?x] =>
      pose proof (span_while_all c x) as Hall;
      destruct (Py.span_while c x) as [| a r]; [discriminate |]
  end.
  injection Hm as <- _. split; [discriminate | exact Hall].
Qed.

(** Type 100 comes before type 63: the order is that of the text. *)
Lemma requested_types_ascending_digits_witness :
  ascending ["100"; "63"]
  /\ Forall (fun t => t <> "" /\ Py.all_chars Py.is_digit t = true)
            ["100"; "63"].
Proof.
  apply (requested_types_ascending_digits [("tags", "nvidia-63;nvidia-100")]).
  vm_compute. reflexivity.
Defined.

(** ** Reading a descriptor *)

Lemma parse_lines_malformed line lines : forall acc,
  In line lines ->
  skipped_line line = false ->
  length (Py.split ": " line) <> 2 ->
  parse_lines lines acc = inl ValueError.
Proof.
  induction lines as [| l lines IH]; intros acc Hin Hk Hlen; [destruct Hin |].
  cbn [parse_lines]. destruct (skipped_line l) eqn:El.
  - destruct Hin as [-> | Hin]; [congruence | exact (IH _ Hin Hk Hlen)].
  - destruct (Py.split ": " l) as [| a [| b [| c r]]] eqn:Es; cbn [unpack2];
      try reflexivity.
    destruct Hin as [-> | Hin]; [| exact (IH _ Hin Hk Hlen)].
    rewrite Es in Hlen. cbn in Hlen. congruence.
Qed.

(** X7: One line that is neither passed over nor of the form [key: value], for
    want of the separator or for having it twice, makes the whole
    descriptor unreadable. *)
Theorem malformed_line_raises text line :
  In line (Py.splitlines text) ->
  skipped_line line = false ->
  length (Py.split ": " line) <> 2 ->
  parse_text text = inl ValueError.
Proof.
  intros Hin Hk Hlen. unfold parse_text.
  exact (parse_lines_malformed line _ [] Hin Hk Hlen).
Qed.

(** A description with a colon and a blank in it. *)
Lemma malformed_line_raises_witness :
  parse_text ("name: vm" +:+ nl +:+ "description: GPU: A40" +:+ nl
              +:+ "tags: nvidia-63" +:+ nl)
  = inl ValueError.
Proof.
  apply (malformed_line_raises _ "description: GPU: A40").
  - vm_compute. right. left. reflexivity.
  - reflexivity.
  - vm_compute. discriminate.
Defined.

Lemma append_nil_r (s : string) : s +:+ "" = s.
Proof.
  induction s as [| c s IH]; [reflexivity |].
  rewrite append_cons, IH. reflexivity.
Qed.

(** The loop over the lines of written entries, followed by more text. *)
Lemma parse_lines_entries entries : forall rest acc,
  Forall well_formed_entry entries ->
  parse_lines (Py.splitlines (serialize entries +:+ rest)) acc
  = parse_lines (Py.splitlines rest) (dict_update entries acc).
Proof.
  induction entries as [| [k v] entries IH]; intros rest acc Hwf.
  - reflexivity.
  - inversion Hwf as [| ? ? Hkv Hrest]; subst.
    destruct Hkv as ((Hk1 & Hk2) & (Hv1 & Hv2) & Hc & Hs). cbn [fst snd] in *.
    cbn [serialize].
    replace ((k +:+ ": " +:+ v +:+ nl +:+ serialize entries) +:+ rest)
      with ((k +:+ ": " +:+ v) +:+ nl +:+ (serialize entries +:+ rest))
      by (rewrite !append_assoc; reflexivity).
    rewrite splitlines_line.
    2:{ rewrite !all_chars_app, Hk2, Hv2. reflexivity. }
    cbn [parse_lines]. rewrite (entry_line_kept k v Hc Hs).
    rewrite (split_entry k v Hk1 Hv1). cbn [unpack2].
    rewrite (IH rest _ Hrest). reflexivity.
Qed.

Lemma dict_update_last {V} (entries : list (string * V)) k v d :
  dict_update (entries ++ [(k, v)]) d = dict_set k v (dict_update entries d).
Proof. unfold dict_update. rewrite fold_left_app. reflexivity. Qed.

Lemma last_value_last {V} item (entries : list (string * V)) k v :
  last_value item (entries ++ [(k, v)])
  = if String.eqb item k then Some v else last_value item entries.
Proof. unfold last_value. rewrite fold_left_app. reflexivity. Qed.

(** Looking a key up after a run of item assignments. *)
Lemma dict_get_update {V} k (entries : list (string * V)) d :
  dict_get k (dict_update entries d)
  = match last_value k entries with
    | Some v => Some v
    | None => dict_get k d
    end.
Proof.
  induction entries as [| [k' v'] entries IH] using rev_ind; [reflexivity |].
  rewrite dict_update_last, last_value_last, dict_get_set.
  destruct (String.eqb k k'); [reflexivity | exact IH].
Qed.

(** X8: Comment lines, blank lines and section headers leave no trace: what
    stands below a section header is read as if it stood in the main part,
    so a key repeated there takes the value found there. *)
Theorem section_is_flattened main_part header section :
  Forall well_formed_entry main_part ->
  Forall well_formed_entry section ->
  passed_over header ->
  exists cfg,
    parse_text (serialize main_part +:+ header +:+ nl +:+ serialize section)
    = inr cfg
    /\ cfg = dict_update section (dict_update main_part [])
    /\ forall k,
         dict_get k cfg
         = match last_value k section with
           | Some v => Some v
           | None => last_value k main_part
           end.
Proof.
  intros Hm Hs [Hskip Hline]. eexists. split; [| split; [reflexivity |]].
  - unfold parse_text. rewrite (parse_lines_entries main_part _ [] Hm).
    rewrite (splitlines_line header _ Hline). cbn [parse_lines]. rewrite Hskip.
    rewrite <- (append_nil_r (serialize section)).
    rewrite (parse_lines_entries section "" _ Hs). reflexivity.
  - intros k. rewrite !dict_get_update. cbn [dict_get].
    destruct (last_value k section); [reflexivity |].
    destruct (last_value k main_part); reflexivity.
Qed.

(** The tag of the snapshot replaces the current one. *)
Lemma section_is_flattened_witness :
  exists cfg,
    parse_text snapshot_descriptor = inr cfg
    /\ cfg = [("name", "vm"); ("tags", "nvidia-64"); ("memory", "4096")]
    /\ forall k,
         dict_get k cfg
         = match last_value k [("tags", "nvidia-64"); ("memory", "4096")] with
           | Some v => Some v
           | None => last_value k [("name", "vm"); ("tags", "nvidia-63")]
           end.
Proof.
  apply (section_is_flattened [("name", "vm"); ("tags", "nvidia-63")]
           "[before-upgrade]" [("tags", "nvidia-64"); ("memory", "4096")]).
  - repeat (constructor; [vm_compute; auto |]). constructor.
  - repeat (constructor; [vm_compute; auto |]). constructor.
  - split; reflexivity.
Defined.

(** *** Keys stay unique *)

Lemma dict_get_none_keys {V} k (d : dict V) :
  dict_get k d = None -> ~ In k (dict_keys d).
Proof.
  induction d as [| [k' v'] d IH]; intros H; [intros [] |].
  cbn [dict_get] in H. destruct (String.eqb k k') eqn:E; [discriminate |].
  apply String.eqb_neq in E. intros [Hk | Hin]; [cbn in Hk; congruence |].
  exact (IH H Hin).
Qed.

Lemma dict_set_keys_present {V} k (v : V) d :
  dict_get k d <> None -> dict_keys (dict_set k v d) = dict_keys d.
Proof.
  induction d as [| [k' v'] d IH]; intros H; [cbn in H; congruence |].
  cbn [dict_get dict_set] in *. destruct (String.eqb k k') eqn:E.
  - apply String.eqb_eq in E. subst k'. reflexivity.
  - cbn [dict_keys map fst]. f_equal. exact (IH H).
Qed.

Lemma dict_set_keys_absent {V} k (v : V) d :
  dict_get k d = None -> dict_keys (dict_set k v d) = dict_keys d ++ [k].
Proof.
  intros H. rewrite (dict_set_absent k v d H). unfold dict_keys.
  rewrite map_app. reflexivity.
Qed.

Lemma nodup_snoc (l : list string) k :
  List.NoDup l -> ~ In k l -> List.NoDup (l ++ [k]).
Proof.
  induction l as [| x l IH]; intros Hnd Hk.
  - repeat constructor. intros [].
  - inversion Hnd as [| ? ? Hx Hl]; subst. cbn [app]. constructor.
    + rewrite in_app_iff. intros [H | [H | []]]; [exact (Hx H) |].
      apply Hk. left. symmetry. exact H.
    + apply IH; [exact Hl |]. intros H. apply Hk. right. exact H.
Qed.

Lemma dict_set_nodup {V} k (v : V) d :
  List.NoDup (dict_keys d) -> List.NoDup (dict_keys (dict_set k v d)).
Proof.
  intros Hnd. destruct (dict_get k d) eqn:E.
  - rewrite dict_set_keys_present; [exact Hnd | congruence].
  - rewrite (dict_set_keys_absent k v d E).
    apply nodup_snoc; [exact Hnd | exact (dict_get_none_keys _ _ E)].
Qed.

Lemma parse_lines_nodup lines : forall acc cfg,
  List.NoDup (dict_keys acc) ->
  parse_lines lines acc = inr cfg ->
  List.NoDup (dict_keys cfg).
Proof.
  induction lines as [| l lines IH]; intros acc cfg Hnd H.
  - injection H as <-. exact Hnd.
  - cbn [parse_lines] in H. destruct (skipped_line l); [exact (IH _ _ Hnd H) |].
    destruct (unpack2 (Py.split ": " l)) as [e | [k v]]; [discriminate |].
    exact (IH _ _ (dict_set_nodup k v acc Hnd) H).
Qed.

(** X9: A descriptor in memory has every key once, as read and after
    [assign_gpu] has set [args], [hookscript] and [tags]; the file written
    from it has one line per key. *)
Theorem descriptor_keys_unique text cfg arguments gpu_type :
  parse_text text = inr cfg ->
  List.NoDup (dict_keys cfg)
  /\ List.NoDup (dict_keys (finish_config cfg arguments gpu_type)).
Proof.
  intros H.
  assert (Hnd : List.NoDup (dict_keys cfg)).
  { apply (parse_lines_nodup (Py.splitlines text) [] cfg);
      [constructor | exact H]. }
  split; [exact Hnd |]. unfold finish_config. cbv zeta.
  apply dict_set_nodup.
  destruct (negb (present "hookscript" _)); repeat apply dict_set_nodup;
    exact Hnd.
Qed.

Lemma descriptor_keys_unique_witness :
  List.NoDup (dict_keys [("name", "vm"); ("tags", "nvidia-64"); ("memory", "4096")])
  /\ List.NoDup
       (dict_keys
          (finish_config
             [("name", "vm"); ("tags", "nvidia-64"); ("memory", "4096")]
             ["-device vfio-pci,sysfsdev=/sys/bus/pci/devices/0000:02:00.0";
              "-uuid 1234"] "64")).
Proof.
  apply (descriptor_keys_unique snapshot_descriptor).
  vm_compute. reflexivity.
Defined.

(** ** Sub-fields *)

Lemma prefix1 c d s :
  String.prefix (String c "") (String d s)
  = if ascii_dec c d then true else false.
Proof.
  cbn [String.prefix]. destruct (ascii_dec c d); [apply prefix_empty |].
  reflexivity.
Qed.

(** Splitting at a character goes through an occurrence of it. *)
Lemma split1_app c a b :
  Py.split (String c "") (a +:+ String c b)
  = Py.split (String c "") a ++ Py.split (String c "") b.
Proof.
  unfold Py.split. induction a as [| d a IH].
  - change ("" +:+ String c b) with (String c b).
    cbn [Py.split_go String.length Nat.sub]. rewrite prefix1.
    destruct (ascii_dec c c) as [_ | n]; [reflexivity | congruence].
  - rewrite append_cons. cbn [Py.split_go String.length Nat.sub].
    rewrite !prefix1, IH.
    destruct (ascii_dec c d); [reflexivity |].
    pose proof (split_go_nonempty (String c "") a 0) as Hne.
    destruct (Py.split_go (String c "") 0 a); [congruence | reflexivity].
Qed.

Lemma contains1_app c a b :
  Py.contains (String c "") (a +:+ b)
  = Py.contains (String c "") a || Py.contains (String c "") b.
Proof.
  induction a as [| d a IH].
  - change ("" +:+ b) with b. cbn [Py.contains String.prefix orb]. reflexivity.
  - rewrite append_cons. cbn [Py.contains]. rewrite !prefix1, IH.
    destruct (ascii_dec c d); reflexivity.
Qed.

Lemma split1_plain c s :
  Py.contains (String c "") s = false -> Py.split (String c "") s = [s].
Proof. intros H. unfold Py.split. exact (split_no_separator _ s H). Qed.

Lemma split1_join c parts :
  parts <> [] ->
  Forall (fun p => Py.contains (String c "") p = false) parts ->
  Py.split (String c "") (Py.join (String c "") parts) = parts.
Proof.
  induction parts as [| x parts IH]; intros Hne Hall; [congruence |].
  inversion Hall as [| ? ? Hx Hrest]; subst.
  destruct parts as [| y parts].
  - cbn [Py.join String.concat]. exact (split1_plain c x Hx).
  - change (Py.join (String c "") (x :: y :: parts))
      with (x +:+ String c (Py.join (String c "") (y :: parts))).
    rewrite split1_app, (split1_plain c x Hx), IH; [reflexivity | | exact Hrest].
    discriminate.
Qed.

Lemma parse_pairs_subfields pairs : forall acc,
  Forall (fun kv => subfield_text kv.1 /\ subfield_text kv.2) pairs ->
  parse_pairs (map (fun kv => kv.1 +:+ "=" +:+ kv.2) pairs) acc
  = inr (dict_update pairs acc).
Proof.
  induction pairs as [| [k v] pairs IH]; intros acc Hall; [reflexivity |].
  inversion Hall as [| ? ? [[_ Hk] [_ Hv]] Hrest]; subst. cbn [fst snd] in *.
  cbn [map parse_pairs fst snd].
  change (k +:+ "=" +:+ v) with (k +:+ String "=" v).
  rewrite split1_app, (split1_plain _ k Hk), (split1_plain _ v Hv).
  cbn [app unpack2]. exact (IH _ Hrest).
Qed.

(** X10: The lookup in a sub-field string [k1=v1,k2=v2,...]: the value of the
    last pair with that key, [None] when there is none. *)
Theorem parse_line_config_lookup pairs item :
  pairs <> [] ->
  Forall (fun kv => subfield_text kv.1 /\ subfield_text kv.2) pairs ->
  parse_line_config (subfields pairs) item = inr (last_value item pairs).
Proof.
  intros Hne Hall. unfold parse_line_config, subfields.
  rewrite split1_join.
  - rewrite (parse_pairs_subfields pairs [] Hall), dict_get_update.
    destruct (last_value item pairs); reflexivity.
  - destruct pairs; [congruence | discriminate].
  - apply List.Forall_forall. intros p Hp. apply in_map_iff in Hp.
    destruct Hp as ([k v] & <- & Hin).
    pose proof (proj1 (List.Forall_forall _ _) Hall _ Hin) as [[Hk _] [Hv _]].
    cbn [fst snd] in *. rewrite !contains1_app, Hk, Hv. reflexivity.
Qed.

Lemma parse_line_config_lookup_witness :
  parse_line_config "uuid=1234,manufacturer=QUJD,uuid=5678" "uuid"
  = inr (Some "5678").
Proof.
  apply (parse_line_config_lookup
           [("uuid", "1234"); ("manufacturer", "QUJD"); ("uuid", "5678")]
           "uuid").
  - discriminate.
  - repeat (constructor; [vm_compute; auto |]). constructor.
Defined.

Lemma parse_pairs_malformed part parts : forall acc,
  In part parts ->
  length (Py.split "=" part) <> 2 ->
  parse_pairs parts acc = inl ValueError.
Proof.
  induction parts as [| p parts IH]; intros acc Hin Hlen; [destruct Hin |].
  cbn [parse_pairs].
  destruct (Py.split "=" p) as [| a [| b [| c r]]] eqn:Es; cbn [unpack2];
    try reflexivity.
  destruct Hin as [-> | Hin]; [| exact (IH _ Hin Hlen)].
  rewrite Es in Hlen. cbn in Hlen. congruence.
Qed.

(** X11: One pair without [=], or with more than one, anywhere in the string
    makes the lookup of any key raise; the empty string is such a case, and
    so is a value that ends in the padding of base64. *)
Theorem parse_line_config_malformed config_line part item :
  In part (Py.split "," config_line) ->
  length (Py.split "=" part) <> 2 ->
  parse_line_config config_line item = inl ValueError.
Proof.
  intros Hin Hlen. unfold parse_line_config.
  rewrite (parse_pairs_malformed part _ [] Hin Hlen). reflexivity.
Qed.

Lemma parse_line_config_malformed_witness :
  parse_line_config "uuid=1234,base64=1,serial=QUJD=" "uuid" = inl ValueError.
Proof.
  apply (parse_line_config_malformed _ "serial=QUJD=").
  - vm_compute. right. right. left. reflexivity.
  - vm_compute. discriminate.
Defined.

(** ** More on assignment *)

(** X12: An unknown VM id, or a descriptor without a single entry, ends the
    assignment with status 1 and nothing written. *)
Theorem assign_gpu_unknown_vm vmid node gpu gpu_type st vms st1 :
  get_vms st = (Ret vms, st1) ->
  find_config vmid vms = None \/ find_config vmid vms = Some [] ->
  assign_gpu vmid node gpu gpu_type st = (Exit 1%Z, st1)
  /\ fs st1 = fs st /\ trace st1 = trace st.
Proof.
  intros Hvms Hfind.
  destruct (get_vms_ret _ _ _ Hvms) as (_ & Hfs & Htr & _).
  split; [| split; assumption].
  unfold assign_gpu. unfold bind at 1. rewrite Hvms.
  destruct Hfind as [-> | ->]; reflexivity.
Qed.

Lemma assign_gpu_unknown_vm_witness :
  let st := boot (host_fs (demo_host plain_descriptor two_gpus)) in
  let st1 := set_VMS [("101", "pve1", plain_config)] st in
  assign_gpu "102" "pve1" "0000:02:00.0" "64" st = (Exit 1%Z, st1)
  /\ fs st1 = fs st /\ trace st1 = trace st.
Proof.
  cbv zeta.
  apply (assign_gpu_unknown_vm "102" "pve1" "0000:02:00.0" "64" _
           [("101", "pve1", plain_config)]).
  - vm_compute. reflexivity.
  - left. reflexivity.
Defined.

Lemma device_argument_is_not_uuid gpu l :
  Py.mem "-uuid" (l ++ ["-device " +:+ device_token gpu]) = Py.mem "-uuid" l.
Proof.
  unfold Py.mem. rewrite existsb_app. cbn [existsb].
  replace (("-uuid" =? "-device " +:+ device_token gpu)%string) with false
    by reflexivity.
  rewrite !orb_false_r. reflexivity.
Qed.

(** X13: When the uuid cannot be worked out, for want of [smbios1] or because
    its sub-fields are malformed, the assignment ends with that exception
    before anything is changed: no write, and the descriptor in [VMS] as it
    was. *)
Theorem assign_gpu_uuid_failure vmid node gpu gpu_type st vms st1 cfg e :
  get_vms st = (Ret vms, st1) ->
  find_config vmid vms = Some cfg ->
  cfg <> [] ->
  Py.mem (device_token gpu) (arguments_of cfg) = false ->
  Py.mem "-uuid" (arguments_of cfg) = false ->
  uuid_source cfg = inl e ->
  assign_gpu vmid node gpu gpu_type st = (Raise e, st1)
  /\ fs st1 = fs st /\ trace st1 = trace st /\ VMS st1 = vms.
Proof.
  intros Hvms Hfind Hne Hdev Huuid Hsrc.
  destruct (get_vms_ret _ _ _ Hvms) as (HV & Hfs & Htr & _).
  split; [| split; [| split]; assumption].
  unfold assign_gpu. unfold bind at 1. rewrite Hvms, Hfind.
  destruct cfg as [| kv cfg]; [congruence |].
  rewrite Hdev, device_argument_is_not_uuid, Huuid. cbn [negb].
  unfold uuid_source in Hsrc. unfold bind at 1. unfold bind at 1.
  destruct (getitem "smbios1" (kv :: cfg)) as [e' | smbios1].
  - injection Hsrc as ->. reflexivity.
  - cbn [lift ret]. unfold bind at 1. rewrite Hsrc. reflexivity.
Qed.

Lemma assign_gpu_uuid_failure_witness :
  let st := boot (host_fs (demo_host bare_descriptor two_gpus)) in
  let st1 := set_VMS [("101", "pve1", [("name", "vm")])] st in
  assign_gpu "101" "pve1" "0000:02:00.0" "64" st = (Raise KeyError, st1)
  /\ fs st1 = fs st /\ trace st1 = trace st
  /\ VMS st1 = [("101", "pve1", [("name", "vm")])].
Proof.
  cbv zeta.
  apply (assign_gpu_uuid_failure "101" "pve1" "0000:02:00.0" "64" _
           [("101", "pve1", [("name", "vm")])] _ [("name", "vm")] KeyError).
  - vm_compute. reflexivity.
  - reflexivity.
  - discriminate.
  - reflexivity.
  - reflexivity.
  - reflexivity.
Defined.

Lemma assign_gpu_persists vmid node gpu gpu_type st vms st1 cfg cfg' :
  get_vms st = (Ret vms, st1) ->
  find_config vmid vms = Some cfg ->
  cfg <> [] ->
  assigned_config cfg gpu gpu_type = inr (Some cfg') ->
  writable (fs st1) (config_path node vmid) ->
  exists st',
    assign_gpu vmid node gpu gpu_type st = (Exit 0%Z, st')
    /\ fs_read (fs st') (config_path node vmid) = inr (serialize cfg').
Proof.
  intros Hvms Hfind Hne Has Hw.
  destruct (assign_gpu_writes vmid node gpu gpu_type st vms st1 cfg cfg'
              Hvms Hfind Hne Has (Hw _)) as (st' & Hrun & _ & Hfs & _).
  exists st'. split; [exact Hrun |].
  rewrite Hfs. cbn [fs_store fs_read]. rewrite String.eqb_refl. reflexivity.
Qed.

(** X14: An [smbios1] without a uuid does not stop the assignment: the text
    [None] is written in its place. *)
Theorem missing_uuid_written_as_None vmid node gpu gpu_type st vms st1 cfg
    smbios1 :
  get_vms st = (Ret vms, st1) ->
  find_config vmid vms = Some cfg ->
  dict_get "args" cfg = None ->
  dict_get "smbios1" cfg = Some smbios1 ->
  parse_line_config smbios1 "uuid" = inr None ->
  writable (fs st1) (config_path node vmid) ->
  exists st' cfg',
    assign_gpu vmid node gpu gpu_type st = (Exit 0%Z, st')
    /\ fs_read (fs st') (config_path node vmid) = inr (serialize cfg')
    /\ dict_get "args" cfg'
       = Some ("-device " +:+ device_token gpu +:+ " -uuid None").
Proof.
  intros Hvms Hfind Hargs Hsm Hnone Hw.
  assert (Hne : cfg <> []) by (destruct cfg; discriminate).
  assert (Ha : arguments_of cfg = []).
  { unfold arguments_of, present. rewrite Hargs. reflexivity. }
  assert (Has : assigned_config cfg gpu gpu_type
                = inr (Some (finish_config cfg
                               ["-device " +:+ device_token gpu; "-uuid None"]
                               gpu_type))).
  { unfold assigned_config, extended_arguments. rewrite Ha.
    cbn [Py.mem existsb app]. cbv zeta.
    replace (("-uuid" =? "-device " +:+ device_token gpu)%string) with false
      by reflexivity.
    cbn [orb negb]. unfold getitem. rewrite Hsm, Hnone. reflexivity. }
  destruct (assign_gpu_persists _ _ _ _ _ _ _ _ _ Hvms Hfind Hne Has Hw)
    as (st' & Hrun & Hread).
  eexists st', _. split; [exact Hrun |]. split; [exact Hread |].
  rewrite finish_config_args. reflexivity.
Qed.

Lemma missing_uuid_written_as_None_witness :
  exists st' cfg',
    assign_gpu "101" "pve1" "0000:02:00.0" "64"
      (boot (host_fs (demo_host no_uuid_descriptor two_gpus)))
    = (Exit 0%Z, st')
    /\ fs_read (fs st') (config_path "pve1" "101") = inr (serialize cfg')
    /\ dict_get "args" cfg'
       = Some ("-device " +:+ device_token "0000:02:00.0" +:+ " -uuid None").
Proof.
  apply (missing_uuid_written_as_None "101" "pve1" "0000:02:00.0" "64" _
           [("101", "pve1", [("name", "vm"); ("smbios1", "manufacturer=QUJD")])]
           (set_VMS
              [("101", "pve1",
                [("name", "vm"); ("smbios1", "manufacturer=QUJD")])]
              (boot (host_fs (demo_host no_uuid_descriptor two_gpus))))
           [("name", "vm"); ("smbios1", "manufacturer=QUJD")]
           "manufacturer=QUJD").
  - vm_compute. reflexivity.
  - reflexivity.
  - reflexivity.
  - reflexivity.
  - reflexivity.
  - intros d. reflexivity.
Defined.

(** *** Arguments that are there already *)

Lemma join_cons2 sep x y l :
  Py.join sep (x :: y :: l) = x +:+ sep +:+ Py.join sep (y :: l).
Proof. reflexivity. Qed.

(** Splitting at a character and joining with it gives the text back. *)
Lemma join_split1 c s :
  Py.join (String c "") (Py.split (String c "") s) = s.
Proof.
  unfold Py.split. induction s as [| d s IH]; [reflexivity |].
  cbn [Py.split_go String.length Nat.sub]. rewrite prefix1.
  pose proof (split_go_nonempty (String c "") s 0) as Hne.
  destruct (ascii_dec c d) as [-> | n].
  - destruct (Py.split_go (String d "") 0 s) as [| y l]; [congruence |].
    rewrite join_cons2, IH. reflexivity.
  - destruct (Py.split_go (String c "") 0 s) as [| y l]; [congruence |].
    destruct l as [| z l].
    + cbn [Py.join String.concat] in *. rewrite IH. reflexivity.
    + rewrite join_cons2 in *. rewrite append_cons, IH. reflexivity.
Qed.

Lemma join_snoc sep l x :
  l <> [] -> Py.join sep (l ++ [x]) = Py.join sep l +:+ sep +:+ x.
Proof.
  induction l as [| y l IH]; intros Hne; [congruence |].
  destruct l as [| z l]; [reflexivity |].
  cbn [app]. rewrite !join_cons2.
  change (z :: l ++ [x]) with ((z :: l) ++ [x]).
  rewrite IH by discriminate. rewrite !append_assoc. reflexivity.
Qed.

(** X15: A uuid among the arguments is left alone: the new device goes behind
    the arguments as they are, no second uuid is added, and [smbios1] is
    not looked at. *)
Theorem existing_uuid_is_kept vmid node gpu gpu_type st vms st1 cfg old :
  get_vms st = (Ret vms, st1) ->
  find_config vmid vms = Some cfg ->
  dict_get "args" cfg = Some old ->
  Py.truthy old = true ->
  Py.mem (device_token gpu) (Py.split " " old) = false ->
  Py.mem "-uuid" (Py.split " " old) = true ->
  writable (fs st1) (config_path node vmid) ->
  exists st' cfg',
    assign_gpu vmid node gpu gpu_type st = (Exit 0%Z, st')
    /\ fs_read (fs st') (config_path node vmid) = inr (serialize cfg')
    /\ dict_get "args" cfg' = Some (old +:+ " -device " +:+ device_token gpu).
Proof.
  intros Hvms Hfind Hargs Htr Hdev Huuid Hw.
  assert (Hne : cfg <> []) by (destruct cfg; discriminate).
  assert (Ha : arguments_of cfg = Py.split " " old).
  { unfold arguments_of, present. rewrite Hargs, Htr. reflexivity. }
  assert (Has : assigned_config cfg gpu gpu_type
                = inr (Some (finish_config cfg
                               (Py.split " " old
                                ++ ["-device " +:+ device_token gpu])
                               gpu_type))).
  { unfold assigned_config, extended_arguments. rewrite Ha, Hdev. cbv zeta.
    rewrite device_argument_is_not_uuid, Huuid. reflexivity. }
  destruct (assign_gpu_persists _ _ _ _ _ _ _ _ _ Hvms Hfind Hne Has Hw)
    as (st' & Hrun & Hread).
  eexists st', _. split; [exact Hrun |]. split; [exact Hread |].
  rewrite finish_config_args, join_snoc.
  - rewrite (join_split1 " " old). reflexivity.
  - apply (split_go_nonempty " " old 0).
Qed.

Lemma existing_uuid_is_kept_witness :
  exists st' cfg',
    assign_gpu "101" "pve1" "0000:02:00.0" "64"
      (boot (host_fs (demo_host own_uuid_descriptor two_gpus)))
    = (Exit 0%Z, st')
    /\ fs_read (fs st') (config_path "pve1" "101") = inr (serialize cfg')
    /\ dict_get "args" cfg'
       = Some ("-uuid 42 -cpu host" +:+ " -device "
               +:+ device_token "0000:02:00.0").
Proof.
  apply (existing_uuid_is_kept "101" "pve1" "0000:02:00.0" "64" _
           [("101", "pve1", [("args", "-uuid 42 -cpu host"); ("name", "vm")])]
           (set_VMS
              [("101", "pve1", [("args", "-uuid 42 -cpu host"); ("name", "vm")])]
              (boot (host_fs (demo_host own_uuid_descriptor two_gpus))))
           [("args", "-uuid 42 -cpu host"); ("name", "vm")]).
  - vm_compute. reflexivity.
  - reflexivity.
  - reflexivity.
  - reflexivity.
  - vm_compute. reflexivity.
  - vm_compute. reflexivity.
  - intros d. reflexivity.
Defined.

(** *** What an assignment leaves alone *)

Lemma present_set_other k k' v cfg :
  String.eqb k k' = false -> present k (dict_set k' v cfg) = present k cfg.
Proof. intros H. unfold present. rewrite dict_get_set, H. reflexivity. Qed.

Lemma dict_keys_set {V} k (v : V) d :
  dict_keys (dict_set k v d)
  = dict_keys d ++ match dict_get k d with None => [k] | Some _ => [] end.
Proof.
  destruct (dict_get k d) eqn:E.
  - rewrite dict_set_keys_present by congruence. rewrite app_nil_r. reflexivity.
  - apply dict_set_keys_absent, E.
Qed.

(** X16: An assignment touches three keys only.  Every other key keeps its
    value; a hook script that is registered stays; and all keys keep their
    place in the file, the new ones following in the order [args],
    [hookscript], [tags]. *)
Theorem assignment_keeps_the_rest cfg arguments gpu_type :
  (forall k, k <> "args" -> k <> "hookscript" -> k <> "tags" ->
     dict_get k (finish_config cfg arguments gpu_type) = dict_get k cfg)
  /\ dict_get "hookscript" (finish_config cfg arguments gpu_type)
     = (if present "hookscript" cfg then dict_get "hookscript" cfg
        else Some hook_path)
  /\ dict_keys (finish_config cfg arguments gpu_type)
     = dict_keys cfg ++ added_keys cfg.
Proof.
  unfold finish_config. cbv zeta.
  rewrite (present_set_other "hookscript" "args") by reflexivity.
  split; [| split].
  - intros k Ha Hh Ht.
    apply String.eqb_neq in Ha, Hh, Ht.
    rewrite dict_get_set, Ht.
    destruct (negb (present "hookscript" cfg)).
    + rewrite !dict_get_set, Hh, Ha. reflexivity.
    + rewrite dict_get_set, Ha. reflexivity.
  - rewrite dict_get_set. cbn [String.eqb Ascii.eqb Bool.eqb].
    destruct (present "hookscript" cfg) eqn:E; cbn [negb].
    + rewrite dict_get_set. reflexivity.
    + rewrite dict_get_set, String.eqb_refl. reflexivity.
  - unfold added_keys. cbn [List.filter].
    rewrite dict_keys_set.
    assert (Hp : present "hookscript" cfg = true ->
                 dict_get "hookscript" cfg <> None).
    { unfold present. destruct (dict_get "hookscript" cfg); [discriminate |].
      discriminate. }
    destruct (present "hookscript" cfg) eqn:E; cbn [negb].
    + rewrite dict_get_set. cbn [String.eqb Ascii.eqb Bool.eqb].
      rewrite dict_keys_set.
      destruct (dict_get "hookscript" cfg) eqn:Eh;
        [| exfalso; exact (Hp eq_refl eq_refl)].
      destruct (dict_get "args" cfg), (dict_get "tags" cfg);
        rewrite <- ?app_assoc; reflexivity.
    + rewrite !dict_get_set. cbn [String.eqb Ascii.eqb Bool.eqb].
      rewrite !dict_keys_set, dict_get_set.
      cbn [String.eqb Ascii.eqb Bool.eqb].
      destruct (dict_get "args" cfg), (dict_get "hookscript" cfg),
        (dict_get "tags" cfg); rewrite <- ?app_assoc; reflexivity.
Qed.

(** *** The labels after an assignment *)

Lemma insert_sorted_nodup x l :
  ~ In x l -> List.NoDup l -> List.NoDup (Py.insert_sorted x l).
Proof.
  induction l as [| y l IH]; intros Hx Hnd; cbn [Py.insert_sorted].
  - repeat constructor. intros [].
  - destruct (String.leb x y); [constructor; assumption |].
    inversion Hnd as [| ? ? Hy Hl]; subst. constructor.
    + rewrite in_insert_sorted. intros [-> | H]; [apply Hx; left; reflexivity |].
      exact (Hy H).
    + apply IH; [| exact Hl]. intros H. apply Hx. right. exact H.
Qed.

Lemma sorted_nodup l : List.NoDup l -> List.NoDup (Py.sorted l).
Proof.
  unfold Py.sorted. induction l as [| x l IH]; intros Hnd; [constructor |].
  inversion Hnd as [| ? ? Hx Hl]; subst. cbn [fold_right].
  apply insert_sorted_nodup; [| exact (IH Hl)].
  fold (Py.sorted l). rewrite in_sorted. exact Hx.
Qed.

(** The text [assign_gpu] stores under [tags]. *)
Lemma finish_config_tags cfg arguments gpu_type :
  dict_get "tags" (finish_config cfg arguments gpu_type)
  = Some (Py.join ";"
            (Py.sorted (elements ({[ "nvidia-" +:+ gpu_type ]}
                                  ∪ list_to_set (old_tags cfg) : gset string)))).
Proof.
  unfold finish_config. cbv zeta.
  set (cfg1 := if negb (present "hookscript" _) then _ else _).
  assert (Htags : tags_of cfg1
                  = list_to_set (old_tags cfg)).
  { unfold tags_of, old_tags, cfg1.
    destruct (negb (present "hookscript" _)).
    - rewrite (present_set_other "tags" "hookscript") by reflexivity.
      rewrite (present_set_other "tags" "args") by reflexivity.
      rewrite !dict_get_set. cbn [String.eqb Ascii.eqb Bool.eqb].
      destruct (present "tags" cfg); reflexivity.
    - rewrite (present_set_other "tags" "args") by reflexivity.
      rewrite !dict_get_set. cbn [String.eqb Ascii.eqb Bool.eqb].
      destruct (present "tags" cfg); reflexivity. }
  rewrite dict_get_set, String.eqb_refl, Htags. reflexivity.
Qed.

Lemma in_labels gpu_type old x :
  In x (Py.sorted (elements ({[ "nvidia-" +:+ gpu_type ]}
                             ∪ list_to_set old : gset string)))
  <-> x = "nvidia-" +:+ gpu_type \/ In x old.
Proof.
  rewrite in_sorted, <- list_elem_of_In, elem_of_elements.
  rewrite elem_of_union, elem_of_singleton, elem_of_list_to_set.
  rewrite list_elem_of_In. reflexivity.
Qed.

(** X17: The labels an assignment writes: those that were there, empty ones
    dropped, and [nvidia-<type>]; each once, in ascending order, joined by
    semicolons. *)
Theorem labels_after_assignment cfg arguments gpu_type :
  exists labels,
    dict_get "tags" (finish_config cfg arguments gpu_type)
    = Some (Py.join ";" labels)
    /\ ascending labels
    /\ List.NoDup labels
    /\ forall x, In x labels
         <-> x = "nvidia-" +:+ gpu_type \/ In x (old_tags cfg).
Proof.
  eexists. split; [apply finish_config_tags |].
  split; [apply sorted_ascending |]. split.
  - apply sorted_nodup, NoDup_ListNoDup, NoDup_elements.
  - intros x. apply in_labels.
Qed.

(** ** From the assignment to the hook *)

(** *** Matches do not reach across certain boundaries *)

Lemma prefix_app_clear w : forall lit u,
  clear_of w lit = true ->
  String.prefix lit (u +:+ w) = String.prefix lit u.
Proof.
  intros lit u. revert lit. induction u as [| d u IH]; intros lit Hc.
  - change ("" +:+ w) with w. destruct lit as [| a lit].
    + rewrite !prefix_empty. reflexivity.
    + cbn [clear_of] in Hc. apply andb_true_iff in Hc. destruct Hc as [Hc _].
      apply negb_true_iff in Hc. rewrite Hc. reflexivity.
  - rewrite append_cons. destruct lit as [| a lit]; [reflexivity |].
    cbn [String.prefix]. destruct (ascii_dec a d); [| reflexivity].
    apply IH. cbn [clear_of] in Hc. apply andb_true_iff in Hc. apply Hc.
Qed.

Lemma drop_app_prefix w : forall lit u,
  String.prefix lit u = true ->
  Py.drop (String.length lit) (u +:+ w) = Py.drop (String.length lit) u +:+ w.
Proof.
  induction lit as [| a lit IH]; intros u H; [reflexivity |].
  destruct u as [| d u]; [discriminate H |].
  rewrite append_cons. cbn [String.length Py.drop].
  cbn [String.prefix] in H. destruct (ascii_dec a d); [| discriminate].
  exact (IH u H).
Qed.

Lemma span_while_stop cls b w x :
  cls b = false ->
  Py.span_while cls (x +:+ String b w) = Py.span_while cls x.
Proof.
  intros Hb. induction x as [| c x IH].
  - change ("" +:+ String b w) with (String b w). cbn [Py.span_while].
    rewrite Hb. reflexivity.
  - rewrite append_cons. cbn [Py.span_while]. rewrite IH. reflexivity.
Qed.

(** The matcher sees the same at [u] whether or not [w] follows. *)
Lemma match_stops_at lit keep cls b w u :
  clear_of (String b w) lit = true ->
  cls b = false ->
  Py.match_lit_class lit keep cls (u +:+ String b w)
  = Py.match_lit_class lit keep cls u.
Proof.
  intros Hc Hb. unfold Py.match_lit_class.
  rewrite (prefix_app_clear _ lit u Hc).
  destruct (String.prefix lit u) eqn:E; [| reflexivity].
  rewrite (drop_app_prefix _ lit u E), (span_while_stop cls b w _ Hb).
  reflexivity.
Qed.

Lemma length_drop_prefix : forall lit u,
  String.prefix lit u = true ->
  (String.length lit + String.length (Py.drop (String.length lit) u)
   = String.length u)%nat.
Proof.
  induction lit as [| a lit IH]; intros u H; [reflexivity |].
  destruct u as [| d u]; [discriminate H |].
  cbn [String.length Py.drop String.prefix] in *.
  destruct (ascii_dec a d); [| discriminate]. rewrite <- (IH u H). lia.
Qed.

Lemma length_span_while cls s :
  (String.length (Py.span_while cls s) <= String.length s)%nat.
Proof.
  induction s as [| c s IH]; [reflexivity |].
  cbn [Py.span_while]. destruct (cls c); cbn [String.length]; lia.
Qed.

(** A match is not empty and not longer than the text. *)
Lemma match_length lit keep cls u g len :
  Py.match_lit_class lit keep cls u = Some (g, len) ->
  (0 < len <= String.length u)%nat.
Proof.
  unfold Py.match_lit_class. destruct (String.prefix lit u) eqn:E;
    [| discriminate].
  pose proof (length_drop_prefix lit u E) as Hl.
  pose proof (length_span_while cls (Py.drop (String.length lit) u)) as Hs.
  destruct (Py.span_while cls (Py.drop (String.length lit) u)) as [| c r];
    [discriminate |].
  intros H. injection H as _ <-. cbn [String.length] in *. lia.
Qed.

(** The matches of a text in two parts are those of the parts, when no
    match can lie across. *)
Lemma findall_go_boundary lit keep cls b w : forall u k,
  clear_of (String b w) lit = true ->
  cls b = false ->
  (k <= String.length u)%nat ->
  Py.findall_go (Py.match_lit_class lit keep cls) k (u +:+ String b w)
  = Py.findall_go (Py.match_lit_class lit keep cls) k u
    ++ Py.findall_go (Py.match_lit_class lit keep cls) 0 (String b w).
Proof.
  intros u k Hc Hb. revert k. induction u as [| c u IH]; intros k Hk.
  - cbn [String.length] in Hk. assert (k = 0%nat) as -> by lia. reflexivity.
  - pose proof (match_stops_at lit keep cls b w (String c u) Hc Hb) as Hm.
    rewrite append_cons in *. cbn [Py.findall_go]. destruct k as [| k].
    + rewrite Hm.
      destruct (Py.match_lit_class lit keep cls (String c u))
        as [[g len] |] eqn:E.
      * apply match_length in E. cbn [String.length] in E.
        rewrite IH by lia. reflexivity.
      * apply IH. lia.
    + apply IH. cbn [String.length] in Hk. lia.
Qed.

Lemma findall_go_skipped m s : forall k,
  (String.length s <= k)%nat -> Py.findall_go m k s = [].
Proof.
  induction s as [| c s IH]; intros k Hk; [reflexivity |].
  cbn [String.length] in Hk. destruct k as [| k]; [lia |].
  cbn [Py.findall_go]. apply IH. lia.
Qed.

(** A boundary character begins no match. *)
Lemma findall_boundary_head lit keep cls b w :
  clear_of (String b w) lit = true ->
  lit <> "" ->
  Py.findall (Py.match_lit_class lit keep cls) (String b w)
  = Py.findall (Py.match_lit_class lit keep cls) w.
Proof.
  intros Hc Hne. unfold Py.findall. cbn [Py.findall_go].
  unfold Py.match_lit_class at 1. destruct lit as [| a lit]; [congruence |].
  cbn [clear_of] in Hc. apply andb_true_iff in Hc. destruct Hc as [Hc _].
  apply negb_true_iff in Hc. rewrite Hc. reflexivity.
Qed.

Lemma findall_app_boundary lit keep cls b w u :
  clear_of (String b w) lit = true ->
  cls b = false ->
  lit <> "" ->
  Py.findall (Py.match_lit_class lit keep cls) (u +:+ String b w)
  = Py.findall (Py.match_lit_class lit keep cls) u
    ++ Py.findall (Py.match_lit_class lit keep cls) w.
Proof.
  intros Hc Hb Hne. unfold Py.findall at 1 2.
  rewrite findall_go_boundary by (auto; lia).
  fold (Py.findall (Py.match_lit_class lit keep cls) (String b w)).
  rewrite (findall_boundary_head lit keep cls b w Hc Hne). reflexivity.
Qed.

(** A text that is exactly the literal and a run of the class is one
    match. *)
Lemma findall_exact lit keep cls run :
  lit <> "" -> run <> "" -> Py.all_chars cls run = true ->
  Py.findall (Py.match_lit_class lit keep cls) (lit +:+ run) = [keep +:+ run].
Proof.
  intros Hl Hr Hall.
  assert (Hp : String.prefix lit (lit +:+ run) = true).
  { clear. induction lit as [| a lit IH]; [apply prefix_empty |].
    rewrite append_cons. cbn [String.prefix].
    destruct (ascii_dec a a); [exact IH | congruence]. }
  assert (Hd : Py.drop (String.length lit) (lit +:+ run) = run).
  { clear. induction lit as [| a lit IH]; [reflexivity |].
    rewrite append_cons. exact IH. }
  assert (Hs : Py.span_while cls run = run).
  { clear - Hall. induction run as [| c r IH]; [reflexivity |].
    cbn [Py.all_chars] in Hall. apply andb_true_iff in Hall.
    destruct Hall as [Hc Hr]. cbn [Py.span_while]. rewrite Hc, (IH Hr).
    reflexivity. }
  assert (Hlen : forall a b : string,
            String.length (a +:+ b) = (String.length a + String.length b)%nat).
  { clear. intros a b. induction a as [| c a IH]; [reflexivity |].
    rewrite append_cons. cbn [String.length]. rewrite IH. reflexivity. }
  unfold Py.findall.
  destruct lit as [| a lit]; [congruence |].
  rewrite append_cons. cbn [Py.findall_go].
  rewrite <- append_cons. unfold Py.match_lit_class. rewrite Hp, Hd, Hs.
  destruct run as [| c r]; [congruence |].
  rewrite findall_go_skipped; [reflexivity |].
  rewrite Hlen. cbn [String.length]. lia.
Qed.

(** *** The pieces of a split *)

Lemma contains1_empty c : Py.contains (String c "") "" = false.
Proof. reflexivity. Qed.

Lemma contains1_cons c d s :
  Py.contains (String c "") (String d s)
  = (if ascii_dec c d then true else false) || Py.contains (String c "") s.
Proof. cbn [Py.contains]. rewrite prefix1. reflexivity. Qed.

(** A piece holds no character that the text does not hold. *)
Lemma split1_pieces_inherit c x s : forall p,
  In p (Py.split (String c "") s) ->
  Py.contains (String x "") s = false ->
  Py.contains (String x "") p = false.
Proof.
  unfold Py.split. induction s as [| d s IH]; intros p Hin Hx.
  - destruct Hin as [<- | []]. reflexivity.
  - rewrite contains1_cons in Hx. apply orb_false_iff in Hx.
    destruct Hx as [Hd Hs].
    cbn [Py.split_go String.length Nat.sub] in Hin. rewrite prefix1 in Hin.
    destruct (ascii_dec c d).
    + destruct Hin as [<- | Hin]; [reflexivity | exact (IH _ Hin Hs)].
    + destruct (Py.split_go (String c "") 0 s) as [| l ls] eqn:E.
      * destruct Hin as [<- | []]. rewrite contains1_cons, Hd. reflexivity.
      * destruct Hin as [<- | Hin].
        -- rewrite contains1_cons, Hd. apply IH; [left; reflexivity | exact Hs].
        -- apply IH; [right; exact Hin | exact Hs].
Qed.

(** A piece does not hold the separator. *)
Lemma split1_pieces_clear c s : forall p,
  In p (Py.split (String c "") s) -> Py.contains (String c "") p = false.
Proof.
  unfold Py.split. induction s as [| d s IH]; intros p Hin.
  - destruct Hin as [<- | []]. reflexivity.
  - cbn [Py.split_go String.length Nat.sub] in Hin. rewrite prefix1 in Hin.
    destruct (ascii_dec c d) as [Hcd | Hcd].
    + destruct Hin as [<- | Hin]; [reflexivity | exact (IH _ Hin)].
    + destruct (Py.split_go (String c "") 0 s) as [| l ls] eqn:E.
      * destruct Hin as [<- | []]. rewrite contains1_cons.
        destruct (ascii_dec c d); [contradiction | reflexivity].
      * destruct Hin as [<- | Hin].
        -- rewrite contains1_cons.
           destruct (ascii_dec c d); [contradiction |].
           apply IH. left. reflexivity.
        -- apply IH. right. exact Hin.
Qed.

Lemma parse_pairs_values (P : string -> Prop) parts : forall acc d,
  Forall (fun part => forall piece, In piece (Py.split "=" part) -> P piece)
         parts ->
  (forall k v, dict_get k acc = Some v -> P v) ->
  parse_pairs parts acc = inr d ->
  forall k v, dict_get k d = Some v -> P v.
Proof.
  induction parts as [| part parts IH]; intros acc d Hparts Hacc H.
  - injection H as <-. exact Hacc.
  - inversion Hparts as [| ? ? Hp Hrest]; subst. cbn [parse_pairs] in H.
    destruct (Py.split "=" part) as [| a [| b [| c r]]] eqn:Es;
      cbn [unpack2] in H; try discriminate.
    apply (IH _ _ Hrest) with (2 := H).
    intros k v. rewrite dict_get_set. destruct (String.eqb k a).
    + intros Hv. injection Hv as <-. apply Hp. right. left. reflexivity.
    + apply Hacc.
Qed.

(** A value looked up in a sub-field string holds no comma. *)
Lemma parse_line_config_no_comma config_line item v :
  parse_line_config config_line item = inr (Some v) ->
  Py.contains "," v = false.
Proof.
  unfold parse_line_config.
  destruct (parse_pairs (Py.split "," config_line) []) as [e | d] eqn:E;
    [discriminate |].
  intros H. injection H as H.
  apply (parse_pairs_values (fun s => Py.contains "," s = false)
           _ [] d) with (3 := E) (4 := H).
  - apply List.Forall_forall. intros part Hpart piece Hpiece.
    apply (split1_pieces_inherit "=" "," part piece Hpiece).
    exact (split1_pieces_clear "," config_line part Hpart).
  - intros k v' Hk. discriminate Hk.
Qed.

(** *** A text without a comma holds no device *)

Lemma prefix_app_true x : forall a r,
  String.prefix x a = true -> String.prefix x (a +:+ r) = true.
Proof.
  induction x as [| c x IH]; intros a r H; [apply prefix_empty |].
  destruct a as [| d a]; [discriminate H |].
  rewrite append_cons. cbn [String.prefix] in *.
  destruct (ascii_dec c d); [exact (IH _ _ H) | discriminate].
Qed.

Lemma contains_app_true x a r :
  Py.contains x a = true -> Py.contains x (a +:+ r) = true.
Proof.
  induction a as [| d a IH]; intros H.
  - cbn [Py.contains] in H. rewrite orb_false_r in H.
    destruct x; [| discriminate H].
    change ("" +:+ r) with r. destruct r; reflexivity.
  - rewrite append_cons. cbn [Py.contains] in *.
    apply orb_true_iff in H. apply orb_true_iff. destruct H as [H | H].
    + left. rewrite <- append_cons. exact (prefix_app_true _ _ _ H).
    + right. exact (IH H).
Qed.

Lemma prefix_split : forall lit u,
  String.prefix lit u = true -> exists r, u = lit +:+ r.
Proof.
  induction lit as [| a lit IH]; intros u H; [exists u; reflexivity |].
  destruct u as [| d u]; [discriminate H |].
  cbn [String.prefix] in H. destruct (ascii_dec a d) as [-> | n];
    [| discriminate].
  destruct (IH u H) as [r ->]. exists r. reflexivity.
Qed.

Lemma findall_go_without x lit keep cls s : forall k,
  Py.contains x lit = true ->
  Py.contains x s = false ->
  Py.findall_go (Py.match_lit_class lit keep cls) k s = [].
Proof.
  intros k Hl. revert k. induction s as [| c s IH]; intros k Hs; [reflexivity |].
  assert (Hs' : Py.contains x s = false).
  { cbn [Py.contains] in Hs. apply orb_false_iff in Hs. apply Hs. }
  cbn [Py.findall_go]. destruct k as [| k]; [| exact (IH _ Hs')].
  unfold Py.match_lit_class at 1.
  destruct (String.prefix lit (String c s)) eqn:E; [| exact (IH _ Hs')].
  exfalso. destruct (prefix_split _ _ E) as [r Hr].
  rewrite Hr, (contains_app_true x lit r Hl) in Hs. discriminate.
Qed.

(** *** The device an assignment adds is the device the hook resets *)

Lemma device_text gpu :
  "-device " +:+ device_token gpu
  = "-device vfio-pci,sysfsdev=/sys/bus/pci/devices/" +:+ gpu.
Proof. reflexivity. Qed.

Lemma findall_device_text gpu :
  gpu <> "" -> Py.all_chars Py.is_busid_char gpu = true ->
  Py.findall device_matcher ("-device " +:+ device_token gpu) = [sysfs gpu].
Proof.
  intros Hne Hall. rewrite device_text. unfold device_matcher.
  rewrite findall_exact by (assumption || discriminate). reflexivity.
Qed.

Lemma findall_uuid_text x :
  Py.contains "," x = false ->
  Py.findall device_matcher ("-uuid " +:+ x) = [].
Proof.
  intros H. unfold Py.findall, device_matcher.
  apply (findall_go_without ","); [reflexivity |].
  rewrite contains1_app, H. reflexivity.
Qed.

Lemma str_of_uuid_no_comma smbios1 uuid :
  parse_line_config smbios1 "uuid" = inr uuid ->
  Py.contains "," (str_of uuid) = false.
Proof.
  destruct uuid as [v |]; [apply parse_line_config_no_comma | reflexivity].
Qed.

(** What the matcher finds in the text [assign_gpu] appends. *)
Lemma findall_appended l gpu cfg arguments :
  gpu <> "" -> Py.all_chars Py.is_busid_char gpu = true ->
  (if negb (Py.mem "-uuid" (l ++ ["-device " +:+ device_token gpu])) then
     match getitem "smbios1" cfg with
     | inl e => inl e
     | inr smbios1 =>
         match parse_line_config smbios1 "uuid" with
         | inl e => inl e
         | inr uuid => inr ((l ++ ["-device " +:+ device_token gpu])
                            ++ ["-uuid " +:+ str_of uuid])
         end
     end
   else inr (l ++ ["-device " +:+ device_token gpu])) = inr arguments ->
  exists appended,
    arguments = l ++ appended
    /\ Py.findall device_matcher (Py.join " " appended) = [sysfs gpu]
    /\ exists rest, Py.join " " appended
                    = "-device vfio-pci,sysfsdev=/sys/bus/pci/devices/" +:+ rest.
Proof.
  intros Hne Hall H.
  destruct (negb (Py.mem "-uuid" (l ++ ["-device " +:+ device_token gpu]))).
  - destruct (getitem "smbios1" cfg) as [e | smbios1]; [discriminate |].
    destruct (parse_line_config smbios1 "uuid") as [e | uuid] eqn:Eu;
      [discriminate |].
    injection H as <-.
    exists ["-device " +:+ device_token gpu; "-uuid " +:+ str_of uuid].
    split; [rewrite <- app_assoc; reflexivity |].
    rewrite join_cons2. change (Py.join " " ["-uuid " +:+ str_of uuid])
      with ("-uuid " +:+ str_of uuid). split.
    + change (" " +:+ ("-uuid " +:+ str_of uuid))
        with (String " " ("-uuid " +:+ str_of uuid)).
      unfold device_matcher. rewrite findall_app_boundary;
        [| reflexivity | reflexivity | discriminate].
      fold device_matcher. rewrite findall_device_text by assumption.
      rewrite findall_uuid_text by exact (str_of_uuid_no_comma _ _ Eu).
      reflexivity.
    + rewrite device_text, append_assoc. eexists. reflexivity.
  - injection H as <-. exists ["-device " +:+ device_token gpu].
    split; [reflexivity |].
    change (Py.join " " ["-device " +:+ device_token gpu])
      with ("-device " +:+ device_token gpu).
    split; [exact (findall_device_text gpu Hne Hall) |].
    rewrite device_text. eexists. reflexivity.
Qed.

Lemma join_app_space l appended :
  l <> [] -> appended <> [] ->
  Py.join " " (l ++ appended)
  = Py.join " " l +:+ String " " (Py.join " " appended).
Proof.
  intros Hl Ha. induction l as [| x l IH]; [congruence |].
  destruct l as [| y l].
  - destruct appended as [| z r]; [congruence |]. reflexivity.
  - change ((x :: y :: l) ++ appended) with (x :: (y :: l) ++ appended).
    change ((y :: l) ++ appended) with (y :: l ++ appended) at 1.
    rewrite !join_cons2. change (y :: l ++ appended)
      with ((y :: l) ++ appended). rewrite IH by discriminate.
    rewrite !append_assoc. reflexivity.
Qed.

(** X18: The hook reads back, from the descriptor [assign_gpu] writes, the
    devices that were requested before and then the new one. *)
Theorem assigned_device_is_requested cfg gpu gpu_type arguments :
  gpu <> "" ->
  Py.all_chars Py.is_busid_char gpu = true ->
  extended_arguments cfg gpu = inr arguments ->
  parse_vgpu_bus_id (finish_config cfg arguments gpu_type)
  = inr (old_paths cfg ++ [sysfs gpu]).
Proof.
  intros Hne Hall Hext. unfold parse_vgpu_bus_id, getitem.
  rewrite finish_config_args. f_equal.
  unfold extended_arguments in Hext. cbv zeta in Hext.
  destruct (findall_appended _ _ _ _ Hne Hall Hext)
    as (appended & -> & Hfound & rest & Hrest).
  assert (Happ : appended <> []).
  { intros ->. discriminate Hfound. }
  unfold old_paths, parse_vgpu_bus_id, getitem, arguments_of, present.
  destruct (dict_get "args" cfg) as [a |] eqn:Ea; cbn [default].
  - destruct (Py.truthy a) eqn:Ht.
    + rewrite join_app_space
        by (try assumption; apply split_go_nonempty).
      rewrite join_split1. rewrite Hrest.
      fold device_matcher. unfold device_matcher at 1.
      rewrite findall_app_boundary;
        [| reflexivity | reflexivity | discriminate].
      fold device_matcher. rewrite <- Hrest, Hfound. reflexivity.
    + destruct a; [| discriminate Ht]. exact Hfound.
  - exact Hfound.
Qed.

Lemma assigned_device_is_requested_witness :
  exists arguments,
    extended_arguments three_device_config "0000:04:00.0" = inr arguments
    /\ parse_vgpu_bus_id (finish_config three_device_config arguments "63")
       = inr (old_paths three_device_config
              ++ [sysfs "0000:04:00.0"]).
Proof.
  eexists. split; [vm_compute; reflexivity |].
  apply (assigned_device_is_requested three_device_config "0000:04:00.0" "63");
    [discriminate | reflexivity | vm_compute; reflexivity].
Defined.

(** *** The type an assignment labels is the type the hook activates *)

Lemma findall_join lit keep cls b labels :
  (forall w, clear_of (String b w) lit = true) ->
  cls b = false ->
  lit <> "" ->
  Py.findall (Py.match_lit_class lit keep cls) (Py.join (String b "") labels)
  = flat_map (Py.findall (Py.match_lit_class lit keep cls)) labels.
Proof.
  intros Hc Hb Hl. induction labels as [| x labels IH]; [reflexivity |].
  destruct labels as [| y labels].
  - cbn [flat_map]. rewrite app_nil_r. reflexivity.
  - rewrite join_cons2.
    change (String b "" +:+ Py.join (String b "") (y :: labels))
      with (String b (Py.join (String b "") (y :: labels))).
    rewrite findall_app_boundary by auto. rewrite IH. reflexivity.
Qed.

Lemma findall_type_label gpu_type :
  gpu_type <> "" -> Py.all_chars Py.is_digit gpu_type = true ->
  Py.findall type_matcher ("nvidia-" +:+ gpu_type) = [gpu_type].
Proof.
  intros Hne Hall. unfold type_matcher.
  rewrite findall_exact by (assumption || discriminate). reflexivity.
Qed.

(** X19: The hook reads back, from the labels [assign_gpu] writes, the assigned
    type and the types of the labels that were there; the assigned type
    alone when there were none. *)
Theorem assigned_type_is_requested cfg arguments gpu_type :
  gpu_type <> "" ->
  Py.all_chars Py.is_digit gpu_type = true ->
  exists types,
    parse_vgpu_type_id (finish_config cfg arguments gpu_type) = inr types
    /\ (forall t, In t types
          <-> t = gpu_type
              \/ exists label, In label (old_tags cfg)
                               /\ In t (Py.findall type_matcher label))
    /\ (old_tags cfg = [] -> types = [gpu_type]).
Proof.
  intros Hne Hall. unfold parse_vgpu_type_id, getitem.
  rewrite finish_config_tags. eexists. split; [reflexivity |].
  fold type_matcher. unfold type_matcher at 1 3.
  rewrite findall_join; [| intros w; reflexivity | reflexivity | discriminate].
  fold type_matcher. split.
  - intros t. rewrite in_sorted, in_flat_map. split.
    + intros (label & Hl & Ht). apply in_labels in Hl.
      destruct Hl as [-> | Hl].
      * rewrite findall_type_label in Ht by assumption.
        destruct Ht as [<- | []]. left. reflexivity.
      * right. exists label. split; assumption.
    + intros [-> | (label & Hl & Ht)].
      * exists ("nvidia-" +:+ gpu_type). split.
        -- apply in_labels. left. reflexivity.
        -- rewrite findall_type_label by assumption. left. reflexivity.
      * exists label. split; [apply in_labels; right; exact Hl | exact Ht].
  - intros ->. cbn [list_to_set].
    rewrite (right_id_L (∅ : gset string) (∪)), elements_singleton.
    cbn [Py.sorted fold_right Py.insert_sorted flat_map].
    rewrite findall_type_label by assumption. reflexivity.
Qed.

Lemma assigned_type_is_requested_witness :
  exists types,
    parse_vgpu_type_id (finish_config three_device_config [] "65") = inr types
    /\ (forall t, In t types
          <-> t = "65"
              \/ exists label, In label (old_tags three_device_config)
                               /\ In t (Py.findall type_matcher label))
    /\ (old_tags three_device_config = [] -> types = ["65"]).
Proof.
  apply (assigned_type_is_requested three_device_config [] "65");
    [discriminate | reflexivity].
Defined.

(** ** The list of VMs *)








(** X21: A list that [get_vms] has found is not looked up again: every later
    call returns it as it is, whatever has happened to the files since. *)
Theorem get_vms_memoized st vms st1 :
  get_vms st = (Ret vms, st1) ->
  vms <> [] ->
  forall st2, VMS st2 = VMS st1 -> get_vms st2 = (Ret vms, st2).
Proof.
  intros H Hne st2 HV.
  destruct (get_vms_ret _ _ _ H) as [E _]. rewrite <- E, <- HV.
  apply get_vms_cached. rewrite HV, E. exact Hne.
Qed.

(** The descriptor has changed on the host; the list has not. *)
Lemma get_vms_memoized_witness :
  let st := boot (host_fs (demo_host plain_descriptor two_gpus)) in
  let st1 := set_VMS [("101", "pve1", plain_config)] st in
  let st2 := set_fs (host_fs (demo_host tagged_descriptor two_gpus)) st1 in
  get_vms st = (Ret [("101", "pve1", plain_config)], st1)
  /\ get_vms st2 = (Ret [("101", "pve1", plain_config)], st2).
Proof.
  cbv zeta. split; [vm_compute; reflexivity |].
  apply (get_vms_memoized (boot (host_fs (demo_host plain_descriptor two_gpus)))
           [("101", "pve1", plain_config)]
           (set_VMS [("101", "pve1", plain_config)]
              (boot (host_fs (demo_host plain_descriptor two_gpus)))));
    [vm_compute; reflexivity | discriminate | reflexivity].
Defined.

(** ** The scan of the devices *)

(** *** What the scan leaves alone *)

Lemma keeps_bind {X A B} (proj : state -> X) (m : M A) (k : A -> M B) :
  keeps proj m -> (forall a, keeps proj (k a)) -> keeps proj (bind m k).
Proof.
  intros Hm Hk st o st' H. unfold bind in H.
  destruct (m st) as [[a | c | e] st1] eqn:E.
  - rewrite (Hk a _ _ _ H). exact (Hm _ _ _ E).
  - injection H as <- <-. exact (Hm _ _ _ E).
  - injection H as <- <-. exact (Hm _ _ _ E).
Qed.

Lemma keeps_for {X A} (proj : state -> X) (body : A -> M unit) l :
  (forall x, keeps proj (body x)) -> keeps proj (for_ l body).
Proof.
  intros Hb. induction l as [| x l IH].
  - intros st o st' H. injection H as <- <-. reflexivity.
  - cbn [for_]. apply keeps_bind; [apply Hb | intros _; exact IH].
Qed.

Lemma keeps_pure {X A} (proj : state -> X) (m : M A) :
  (forall st, snd (m st) = st) -> keeps proj m.
Proof.
  intros Hm st o st' H. specialize (Hm st). rewrite H in Hm. cbn in Hm.
  rewrite Hm. reflexivity.
Qed.

Lemma keeps_lift {X A} (proj : state -> X) (r : exn + A) :
  keeps proj (lift r).
Proof. apply keeps_pure. intros st. destruct r; reflexivity. Qed.

Lemma keeps_read_file {X} (proj : state -> X) p : keeps proj (read_file p).
Proof.
  apply keeps_pure. intros st. unfold read_file.
  destruct (fs_read (fs st) p); reflexivity.
Qed.

Lemma keeps_modify {X} (proj : state -> X) (f : state -> state) :
  (forall st, proj (f st) = proj st) -> keeps proj (modify f).
Proof. intros Hf st o st' H. injection H as <- <-. apply Hf. Qed.

Lemma keeps_scan_device device : keeps outside_scan (scan_device device).
Proof.
  unfold scan_device. apply keeps_bind; [apply keeps_pure; reflexivity |].
  intros isd. destruct (negb isd); [apply keeps_pure; reflexivity |].
  apply keeps_bind; [apply keeps_read_file |].
  intros cur. destruct (negb (String.eqb cur ("0" +:+ nl))).
  - apply keeps_bind; [apply keeps_modify; reflexivity |].
    intros _. apply keeps_modify. reflexivity.
  - apply keeps_bind; [apply keeps_modify; reflexivity |].
    intros _. apply keeps_bind; [apply keeps_read_file |].
    intros text. apply keeps_for. intros line. unfold scan_line.
    destruct (negb (Py.truthy line) || Py.startswith "ID" line);
      [apply keeps_pure; reflexivity |].
    apply keeps_bind; [apply keeps_modify; reflexivity |].
    intros _. unfold available_append.
    apply keeps_bind; [apply keeps_pure; reflexivity |].
    intros s. apply keeps_bind; [apply keeps_lift |].
    intros l. apply keeps_modify. reflexivity.
Qed.

Lemma keeps_get_gpus : keeps outside_scan get_gpus.
Proof.
  unfold get_gpus. apply keeps_bind; [apply keeps_pure; reflexivity |].
  intros s. destruct (decide (GPU_TYPES s = ∅));
    [| apply keeps_pure; reflexivity].
  apply keeps_bind.
  { apply keeps_pure. intros st. unfold os_listdir.
    destruct (fs_listdir (fs st) "/sys/bus/pci/devices/"); reflexivity. }
  intros devices. apply keeps_bind; [apply keeps_for, keeps_scan_device |].
  intros _. apply keeps_bind; [apply keeps_pure; reflexivity |].
  intros s'. apply keeps_pure. reflexivity.
Qed.

(** X22: However a scan ends, it has written nothing, printed nothing, left the
    list of VMs alone, and has not ended the process. *)
Theorem get_gpus_reads_only st o st' :
  get_gpus st = (o, st') ->
  fs st' = fs st /\ trace st' = trace st /\ VMS st' = VMS st
  /\ forall c, o <> Exit c.
Proof.
  intros H. pose proof (keeps_get_gpus _ _ _ H) as K.
  unfold outside_scan in K. injection K as Hf Ht Hv.
  destruct (quiet_get_gpus _ _ _ H) as [N _]. auto.
Qed.

(** *** What a scan returns, and when it is not repeated *)

Lemma get_gpus_result st r st1 :
  get_gpus st = (Ret r, st1) -> r = scan_caches st1.
Proof.
  unfold get_gpus. intros H. apply bind_ret_inv in H.
  destruct H as (s & s0 & H0 & H). injection H0 as <- <-.
  destruct (decide (GPU_TYPES st = ∅)).
  - apply bind_ret_inv in H. destruct H as (devices & s1 & _ & H).
    apply bind_ret_inv in H. destruct H as ([] & s2 & _ & H).
    apply bind_ret_inv in H. destruct H as (s3 & s4 & H3 & H).
    injection H3 as <- <-. injection H as <- <-. reflexivity.
  - injection H as <- <-. reflexivity.
Qed.

(** X23: A scan that has found a type is not repeated: every later call returns
    the same three collections, whatever has happened to the devices
    since. *)
Theorem get_gpus_memoized st r st1 :
  get_gpus st = (Ret r, st1) ->
  r.2 <> ∅ ->
  forall st2, scan_caches st2 = scan_caches st1 ->
    get_gpus st2 = (Ret r, st2).
Proof.
  intros H Hne st2 Hc. apply get_gpus_result in H. subst r.
  unfold get_gpus. unfold bind at 1. cbn [get_state].
  fold (scan_caches st2). rewrite Hc.
  assert (Ht : GPU_TYPES st2 = GPU_TYPES st1).
  { unfold scan_caches in Hc. congruence. }
  destruct (decide (GPU_TYPES st2 = ∅)) as [E | _]; [| reflexivity].
  exfalso. apply Hne. cbn. rewrite <- Ht. exact E.
Qed.

Lemma get_gpus_reads_only_witness :
  let st := boot (host_fs (demo_host plain_descriptor mixed_gpus)) in
  fs (get_gpus st).2 = fs st /\ trace (get_gpus st).2 = trace st
  /\ VMS (get_gpus st).2 = VMS st
  /\ forall c, (get_gpus st).1 <> Exit c.
Proof.
  cbv zeta.
  apply (get_gpus_reads_only
           (boot (host_fs (demo_host plain_descriptor mixed_gpus)))).
  vm_compute. reflexivity.
Defined.

(** The occupied device has become free on the host; the result of the scan
    has not changed. *)
Lemma get_gpus_memoized_witness :
  let st := boot (host_fs (demo_host plain_descriptor mixed_gpus)) in
  let st2 := set_fs (host_fs (demo_host plain_descriptor two_gpus))
               (get_gpus st).2 in
  get_gpus st2 = (Ret (scan_caches (get_gpus st).2), st2).
Proof.
  cbv zeta.
  apply (get_gpus_memoized
           (boot (host_fs (demo_host plain_descriptor mixed_gpus)))
           _ (get_gpus
                (boot (host_fs (demo_host plain_descriptor mixed_gpus)))).2).
  - vm_compute. reflexivity.
  - intros E.
    assert (El : elements
                   (scan_caches
                      (get_gpus
                         (boot (host_fs (demo_host plain_descriptor
                                           mixed_gpus)))).2).2
                 = ["63" +:+ nl; "63 : NVIDIA A40-1Q"; "64 : NVIDIA A40-2Q"])
      by (vm_compute; reflexivity).
    rewrite E, elements_empty in El. discriminate El.
  - vm_compute. reflexivity.
Defined.

(** *** The devices a scan lists *)

Lemma scan_lines_keys device ls : forall s s',
  for_ ls (scan_line device) s = (Ret tt, s') ->
  fs s' = fs s
  /\ dict_keys (AVAILABLE_GPUS s') = dict_keys (AVAILABLE_GPUS s)
  /\ ASSIGNED_GPUS s' = ASSIGNED_GPUS s.
Proof.
  induction ls as [| l ls IH]; intros s s' H.
  - injection H as <-. auto.
  - cbn [for_] in H. apply bind_ret_inv in H.
    destruct H as ([] & s1 & H1 & H2).
    destruct (IH _ _ H2) as (Hf & Hk & Ha). rewrite Hf, Hk, Ha. clear IH H2.
    unfold scan_line in H1.
    destruct (negb (Py.truthy l) || Py.startswith "ID" l).
    + injection H1 as <-. auto.
    + apply bind_ret_inv in H1. destruct H1 as ([] & s2 & Hm & H1).
      injection Hm as <-. unfold available_append in H1.
      apply bind_ret_inv in H1. destruct H1 as (s3 & s4 & Hg & H1).
      injection Hg as <- <-.
      apply bind_ret_inv in H1. destruct H1 as (acc & s5 & Hl & H1).
      unfold getitem in Hl. cbn [AVAILABLE_GPUS set_GPU_TYPES] in Hl.
      destruct (dict_get device (AVAILABLE_GPUS s)) as [acc' |] eqn:Eg;
        cbn in Hl; [| discriminate].
      injection Hl as <- <-. injection H1 as <-.
      cbn [fs AVAILABLE_GPUS ASSIGNED_GPUS set_AVAILABLE_GPUS set_GPU_TYPES].
      rewrite dict_set_keys_present by congruence. auto.
Qed.

Lemma filter_snoc {A} (p : A -> bool) l x :
  List.filter p (l ++ [x]) = List.filter p l ++ (if p x then [x] else []).
Proof. rewrite List.filter_app. reflexivity. Qed.

Lemma scan_device_keys f done d s s' :
  fs s = f ->
  ~ In d done ->
  dict_keys (AVAILABLE_GPUS s) = List.filter (observed_free f) done ->
  dict_keys (ASSIGNED_GPUS s) = List.filter (observed_occupied f) done ->
  scan_device d s = (Ret tt, s') ->
  fs s' = f
  /\ dict_keys (AVAILABLE_GPUS s')
     = List.filter (observed_free f) (done ++ [d])
  /\ dict_keys (ASSIGNED_GPUS s')
     = List.filter (observed_occupied f) (done ++ [d]).
Proof.
  intros Hfs Hd Hav Has H.
  assert (Hd1 : dict_get d (AVAILABLE_GPUS s) = None).
  { apply dict_get_absent. rewrite Hav. intros Hin.
    apply List.filter_In in Hin. apply Hd, Hin. }
  assert (Hd2 : dict_get d (ASSIGNED_GPUS s) = None).
  { apply dict_get_absent. rewrite Has. intros Hin.
    apply List.filter_In in Hin. apply Hd, Hin. }
  rewrite !filter_snoc, <- Hav, <- Has.
  unfold observed_free, observed_occupied, observe.
  unfold scan_device in H. apply bind_ret_inv in H.
  destruct H as (isd & s0 & H0 & H). injection H0 as <- <-.
  rewrite Hfs in H.
  destruct (fs_isdir f (sysfs d +:+ "/nvidia")); cbn [negb] in *.
  2:{ injection H as <-. rewrite !app_nil_r. auto. }
  apply bind_ret_inv in H. destruct H as (cur & s1 & H1 & H).
  unfold read_file in H1. rewrite Hfs in H1.
  destruct (fs_read f (occupancy_file (sysfs d))) as [e | cur'];
    cbn in H1; [discriminate |].
  injection H1 as <- <-.
  destruct (negb (String.eqb cur' ("0" +:+ nl))).
  - apply bind_ret_inv in H. destruct H as ([] & s1 & H1 & H).
    injection H1 as <-. injection H as <-.
    cbn [fs AVAILABLE_GPUS ASSIGNED_GPUS set_ASSIGNED_GPUS set_GPU_TYPES].
    rewrite (dict_set_keys_absent _ _ _ Hd2), app_nil_r. auto.
  - apply bind_ret_inv in H. destruct H as ([] & s1 & H1 & H).
    injection H1 as <-.
    apply bind_ret_inv in H. destruct H as (text & s2 & H2 & H).
    unfold read_file in H2. cbn [fs set_AVAILABLE_GPUS] in H2.
    rewrite Hfs in H2.
    destruct (fs_read f (creatable_file (sysfs d))) as [e | text'];
      cbn in H2; [discriminate |].
    injection H2 as <- <-.
    destruct (scan_lines_keys _ _ _ _ H) as (Hf & Hk & Ha).
    rewrite Hf, Hk, Ha.
    cbn [fs AVAILABLE_GPUS ASSIGNED_GPUS set_AVAILABLE_GPUS].
    rewrite (dict_set_keys_absent _ _ _ Hd1), app_nil_r. auto.
Qed.

Lemma scan_devices_keys f rest : forall done s s',
  fs s = f ->
  List.NoDup (done ++ rest) ->
  dict_keys (AVAILABLE_GPUS s) = List.filter (observed_free f) done ->
  dict_keys (ASSIGNED_GPUS s) = List.filter (observed_occupied f) done ->
  for_ rest scan_device s = (Ret tt, s') ->
  dict_keys (AVAILABLE_GPUS s') = List.filter (observed_free f) (done ++ rest)
  /\ dict_keys (ASSIGNED_GPUS s')
     = List.filter (observed_occupied f) (done ++ rest).
Proof.
  induction rest as [| d rest IH]; intros done s s' Hfs Hnd Hav Has H.
  - injection H as <-. rewrite app_nil_r. auto.
  - cbn [for_] in H. apply bind_ret_inv in H.
    destruct H as ([] & s1 & H1 & H2).
    assert (Hd : ~ In d done).
    { intros Hin. apply List.NoDup_remove_2 in Hnd. apply Hnd.
      apply in_app_iff. left. exact Hin. }
    destruct (scan_device_keys f done d s s1 Hfs Hd Hav Has H1)
      as (Hfs1 & Hav1 & Has1).
    replace (done ++ d :: rest) with ((done ++ [d]) ++ rest) in *
      by (rewrite <- app_assoc; reflexivity).
    exact (IH _ _ _ Hfs1 Hnd Hav1 Has1 H2).
Qed.

(** X24: A first scan of readable devices lists every free device once among the
    available ones and every occupied device once among the assigned ones,
    both in the order of the directory; a device without the vendor
    directory is in neither, and no device is in both. *)
Theorem scan_lists_devices st devices :
  GPU_TYPES st = ∅ ->
  AVAILABLE_GPUS st = [] ->
  ASSIGNED_GPUS st = [] ->
  fs_listdir (fs st) "/sys/bus/pci/devices/" = inr devices ->
  List.NoDup devices ->
  Forall (readable (fs st)) devices ->
  exists available assigned types st',
    get_gpus st = (Ret (available, assigned, types), st')
    /\ dict_keys available = List.filter (observed_free (fs st)) devices
    /\ dict_keys assigned = List.filter (observed_occupied (fs st)) devices
    /\ forall d, ~ (In d (dict_keys available) /\ In d (dict_keys assigned)).
Proof.
  intros Hempty Hav Has Hls Hnd Hread.
  assert (Hinv : scanned (fs st) [] st).
  { split; [reflexivity |]. split; [| split].
    - intros x. rewrite Hempty. split; [set_solver |].
      intros (d & [] & _).
    - intros d lines [].
    - intros d c []. }
  destruct (scan_devices (fs st) devices [] st Hinv Hread)
    as (s' & Hrun & _).
  destruct (scan_devices_keys (fs st) devices [] st s' eq_refl Hnd)
    as (Hk1 & Hk2); [rewrite Hav; reflexivity | rewrite Has; reflexivity
                     | exact Hrun |].
  exists (AVAILABLE_GPUS s'), (ASSIGNED_GPUS s'), (GPU_TYPES s'), s'.
  split; [| split; [exact Hk1 | split; [exact Hk2 |]]].
  - unfold get_gpus. unfold bind at 1. cbn [get_state].
    destruct (decide (GPU_TYPES st = ∅)) as [_ | Hn]; [| contradiction].
    unfold bind at 1. unfold os_listdir. rewrite Hls. cbn [lift ret].
    unfold bind at 1. rewrite Hrun. reflexivity.
  - intros d [H1 H2]. rewrite Hk1 in H1. rewrite Hk2 in H2.
    apply List.filter_In in H1. apply List.filter_In in H2.
    destruct H1 as [_ H1]. destruct H2 as [_ H2].
    unfold observed_free, observed_occupied in *.
    destruct (observe (fs st) d) as [e | [| c | l]]; discriminate.
Qed.

Lemma scan_lists_devices_witness :
  exists available assigned types st',
    get_gpus (boot (host_fs (demo_host plain_descriptor mixed_gpus)))
    = (Ret (available, assigned, types), st')
    /\ dict_keys available
       = List.filter
           (observed_free
              (fs (boot (host_fs (demo_host plain_descriptor mixed_gpus)))))
           ["0000:00:1f.0"; "0000:01:00.0"; "0000:02:00.0"]
    /\ dict_keys assigned
       = List.filter
           (observed_occupied
              (fs (boot (host_fs (demo_host plain_descriptor mixed_gpus)))))
           ["0000:00:1f.0"; "0000:01:00.0"; "0000:02:00.0"]
    /\ forall d, ~ (In d (dict_keys available) /\ In d (dict_keys assigned)).
Proof.
  apply (scan_lists_devices
           (boot (host_fs (demo_host plain_descriptor mixed_gpus)))
           ["0000:00:1f.0"; "0000:01:00.0"; "0000:02:00.0"]).
  - reflexivity.
  - reflexivity.
  - reflexivity.
  - vm_compute. reflexivity.
  - repeat constructor; cbn [In]; intuition discriminate.
  - repeat constructor; eexists; vm_compute; reflexivity.
Defined.

(** *** A control file that cannot be read *)

Lemma scan_device_raises f d s e :
  fs s = f ->
  observe f d = inl e ->
  exists s', scan_device d s = (Raise e, s') /\ GPU_TYPES s' = GPU_TYPES s.
Proof.
  intros Hfs Hobs. unfold observe in Hobs. unfold scan_device.
  unfold bind at 1. unfold os_path_isdir. rewrite Hfs.
  destruct (fs_isdir f (sysfs d +:+ "/nvidia")); cbn [negb] in *;
    [| discriminate].
  unfold bind at 1. unfold read_file at 1. rewrite Hfs.
  destruct (fs_read f (occupancy_file (sysfs d))) as [e1 | cur];
    cbn [lift raise ret].
  - injection Hobs as <-. eexists. split; reflexivity.
  - destruct (negb (String.eqb cur ("0" +:+ nl))); [discriminate |].
    unfold bind at 1. cbn [modify].
    unfold bind at 1. unfold read_file at 1. cbn [fs set_AVAILABLE_GPUS].
    rewrite Hfs.
    destruct (fs_read f (creatable_file (sysfs d))) as [e2 | text];
      [| discriminate].
    injection Hobs as <-. eexists. split; reflexivity.
Qed.

(** X25: The scan catches nothing: when a control file of a device cannot be
    read, the scan ends with that exception at this device; the devices
    after it are not looked at, and the catalog stays as the devices before
    it have left it. *)
Theorem scan_unreadable_raises st before d after e :
  GPU_TYPES st = ∅ ->
  fs_listdir (fs st) "/sys/bus/pci/devices/" = inr (before ++ d :: after) ->
  Forall (readable (fs st)) before ->
  observe (fs st) d = inl e ->
  exists st',
    get_gpus st = (Raise e, st')
    /\ forall x, x ∈ GPU_TYPES st'
         <-> exists d', In d' before /\ catalog_entry (fs st) d' x.
Proof.
  intros Hempty Hls Hread Hobs.
  assert (Hinv : scanned (fs st) [] st).
  { split; [reflexivity |]. split; [| split].
    - intros x. rewrite Hempty. split; [set_solver |].
      intros (d' & [] & _).
    - intros d' lines [].
    - intros d' c []. }
  destruct (scan_devices (fs st) before [] st Hinv Hread)
    as (s1 & Hrun & (Hfs & Hty & _)).
  destruct (scan_device_raises (fs st) d s1 e Hfs Hobs) as (s2 & Hd & Hk).
  exists s2. split.
  - unfold get_gpus. unfold bind at 1. cbn [get_state].
    destruct (decide (GPU_TYPES st = ∅)) as [_ | Hn]; [| contradiction].
    unfold bind at 1. unfold os_listdir. rewrite Hls. cbn [lift ret].
    unfold bind at 1. rewrite for_app. unfold bind at 1. rewrite Hrun.
    cbn [for_]. unfold bind at 1. rewrite Hd. reflexivity.
  - intros x. rewrite Hk, <- Hty. reflexivity.
Qed.

Lemma scan_unreadable_raises_witness :
  exists st',
    get_gpus (boot (host_fs half_bound_host)) = (Raise FileNotFoundError, st')
    /\ forall x, x ∈ GPU_TYPES st'
         <-> exists d', In d' ["0000:01:00.0"]
                        /\ catalog_entry (fs (boot (host_fs half_bound_host)))
                                         d' x.
Proof.
  apply (scan_unreadable_raises (boot (host_fs half_bound_host))
           ["0000:01:00.0"] "0000:02:00.0" ["0000:03:00.0"]).
  - reflexivity.
  - vm_compute. reflexivity.
  - repeat constructor. eexists. vm_compute. reflexivity.
  - vm_compute. reflexivity.
Defined.

(** ** The command line *)

(** X26: Called with fewer than two arguments after its name, and not for the
    menu, the script prints the three usage lines and ends with status 1; no
    file has been read or written by then. *)
Theorem usage_on_missing_arguments menu argv env st :
  (length argv < 3)%nat ->
  nth 1 argv "" <> "menu" ->
  exists st',
    script menu argv env st = (Exit 1%Z, st')
    /\ trace st' = trace st ++ usage_lines
    /\ fs st' = fs st.
Proof.
  intros Hlen Hm.
  assert (Hu : exists st',
            @print_usage unit st = (Exit 1%Z, st')
            /\ trace st' = trace st ++ usage_lines /\ fs st' = fs st).
  { eexists. split; [reflexivity |]. cbn [trace fs set_trace].
    rewrite <- !app_assoc. split; reflexivity. }
  destruct Hu as (st' & Hrun & Ht & Hf). exists st'.
  split; [| split; assumption].
  unfold script, bind at 1.
  destruct argv as [| prog [| vmid [| phase rest]]]; cbn [main].
  - rewrite Hrun. reflexivity.
  - rewrite Hrun. reflexivity.
  - cbn [nth] in Hm. apply String.eqb_neq in Hm. rewrite Hm, Hrun. reflexivity.
  - cbn [length] in Hlen. lia.
Qed.

Lemma usage_on_missing_arguments_witness :
  exists st',
    script no_menu [script_name; "101"] None
      (boot (host_fs (demo_host plain_descriptor two_gpus)))
    = (Exit 1%Z, st')
    /\ trace st'
       = trace (boot (host_fs (demo_host plain_descriptor two_gpus)))
         ++ usage_lines
    /\ fs st' = fs (boot (host_fs (demo_host plain_descriptor two_gpus))).
Proof.
  apply (usage_on_missing_arguments no_menu [script_name; "101"] None
           (boot (host_fs (demo_host plain_descriptor two_gpus)))).
  - cbn [length]. lia.
  - discriminate.
Defined.

(** X27: [get_command] without the name of a type ends with status 1 after one
    usage line, before the descriptor of the VM is looked for. *)
Theorem get_command_needs_a_name menu prog vmid env st :
  vmid <> "menu" ->
  exists st',
    script menu [prog; vmid; "get_command"] env st = (Exit 1%Z, st')
    /\ trace st'
       = trace st ++ [EvPrint "Usage: script.py <vmid> get_command <vgpu_name>"]
    /\ fs st' = fs st.
Proof.
  intros Hm. apply String.eqb_neq in Hm.
  eexists. split; [| split].
  - unfold script, bind at 1. cbn [main]. rewrite Hm.
    cbn [String.eqb Ascii.eqb Bool.eqb]. reflexivity.
  - reflexivity.
  - reflexivity.
Qed.

Lemma get_command_needs_a_name_witness :
  exists st',
    script no_menu [script_name; "102"; "get_command"] None
      (boot (host_fs (demo_host plain_descriptor two_gpus)))
    = (Exit 1%Z, st')
    /\ trace st'
       = trace (boot (host_fs (demo_host plain_descriptor two_gpus)))
         ++ [EvPrint "Usage: script.py <vmid> get_command <vgpu_name>"]
    /\ fs st' = fs (boot (host_fs (demo_host plain_descriptor two_gpus))).
Proof.
  apply (get_command_needs_a_name no_menu script_name "102" None
           (boot (host_fs (demo_host plain_descriptor two_gpus)))).
  discriminate.
Defined.

(** ** Repeating an assignment *)

(** *** The list of VMs after a descriptor has been written *)









(** *** The law *)






